(** * Encephalon example client: request construction, scan polling and
      webhook handling

    A shallow embedding of [basic/study.py], [basic/dicom.py],
    [basic/scan.py], [basic/reports.py], [basic/webhooks.py],
    [basic/all_studies.py] and of the webhook receiver of
    [flows/create_scan_and_retrieve_inference_results_with_webhooks.py].

    The client functions are effectful: they read the process environment,
    talk to a remote service over HTTP, read the wall clock and sleep.  All
    of this is threaded through an explicit [World]; exceptions are the
    [Raise] outcome of a small state-and-error monad. *)

From Stdlib Require Import ZArith List String Ascii Bool Lia.
From Stdlib Require Import DecimalString QArith Floats.
Import ListNotations.
Local Open Scope string_scope.
Local Open Scope Z_scope.
Set Warnings "-register-all".

(** ** Python values and exceptions *)

Module Py.

(** The values that travel through the client: what [json.loads] and
    [response.json()] produce and what is handed to [json=] / [params=].
    A [dict] keeps its insertion order, as in Python. *)
Inductive value : Type :=
| VNone
| VBool (b : bool)
| VInt (n : Z)
| VFloat (f : float)
| VStr (s : string)
| VList (items : list value)
| VDict (fields : list (string * value)).

(** The exceptions the modelled code can raise or let through. *)
Inductive exn : Type :=
| HTTPStatusError (status_code : Z) (content : string)
| TransportError
| TimeoutError (message : string)
| KeyError (key : string)
| TypeError
| AttributeError
| ValueError
| JSONDecodeError
| UnicodeDecodeError
| UnicodeEncodeError
| ZeroDivisionError
| OSError
| FileExistsError.

Inductive Result (A : Type) : Type :=
| Ok (a : A)
| Raise (e : exn).
Arguments Ok {A} a.
Arguments Raise {A} e.

(** [bool(v)]. *)
Definition truthy (v : value) : bool :=
  match v with
  | VNone => false
  | VBool b => b
  | VInt n => negb (n =? 0)
  | VFloat f => negb (PrimFloat.eqb f 0%float)
  | VStr s => negb (s =? "")%string
  | VList l => match l with [] => false | _ => true end
  | VDict d => match d with [] => false | _ => true end
  end.

Definition truthy_str (s : option string) : bool :=
  match s with Some s => negb (s =? "")%string | None => false end.

Definition truthy_int (n : option Z) : bool :=
  match n with Some n => negb (n =? 0) | None => false end.

Definition truthy_float (f : option float) : bool :=
  match f with Some f => negb (PrimFloat.eqb f 0%float) | None => false end.

(** Dictionaries: [d.get(k)], [d[k] = v], [d[k]]. *)
Fixpoint dict_get (d : list (string * value)) (k : string) : option value :=
  match d with
  | [] => None
  | (k', v) :: d' => if (k' =? k)%string then Some v else dict_get d' k
  end.

Fixpoint dict_set (d : list (string * value)) (k : string) (v : value)
  : list (string * value) :=
  match d with
  | [] => [(k, v)]
  | (k', v') :: d' =>
      if (k' =? k)%string then (k, v) :: d' else (k', v') :: dict_set d' k v
  end.

(** [v[k]] with a string key: [KeyError] on a dict without the key,
    [TypeError] on every other kind of value. *)
Definition subscript (v : value) (k : string) : Result value :=
  match v with
  | VDict d => match dict_get d k with Some x => Ok x | None => Raise (KeyError k) end
  | _ => Raise TypeError
  end.

(** [v.get(k, default)]: only a dict has the method. *)
Definition get_default (v : value) (k : string) (default : value) : Result value :=
  match v with
  | VDict d => Ok (match dict_get d k with Some x => x | None => default end)
  | _ => Raise AttributeError
  end.

(** [v.get(k)] *)
Definition get (v : value) (k : string) : Result value := get_default v k VNone.

(** [v == s] for a string literal [s]. *)
Definition eq_str (v : value) (s : string) : bool :=
  match v with VStr t => (t =? s)%string | _ => false end.

(** [v in [s1, ..., sn]] for a list of string literals. *)
Definition in_strs (v : value) (l : list string) : bool :=
  existsb (eq_str v) l.

(** [str(n)] for an [int]. *)
Definition str_int (n : Z) : string := NilZero.string_of_int (Z.to_int n).

(** [f"{s}"] for the result of [os.getenv]: [None] prints as the word. *)
Definition str_opt (s : option string) : string :=
  match s with Some s => s | None => "None" end.

End Py.
Import Py.

(** ** The world: environment, clock, remote service, file system *)

Module Http.

Inductive Method : Type := GET | POST | PATCH | DELETE.

(** One entry of a multipart [files=] dictionary:
    [(filename, content, content_type)] or [(None, text)]. *)
Record FilePart : Type := mkFilePart {
  part_filename : option string;
  part_content : string;
  part_content_type : option string
}.

(** What is handed to [httpx.get], [httpx.post], [httpx.patch] and
    [httpx.delete]; a keyword that is not passed is [None]. *)
Record Request : Type := mkRequest {
  method : Method;
  url : string;
  headers : list (string * string);
  params : option (list (string * value));
  json : option value;
  files : option (list (string * FilePart));
  follow_redirects : bool
}.

(** The part of an [httpx.Response] the client looks at.  [json_body] is
    what [response.json()] decodes, [None] when the body is not JSON. *)
Record Response : Type := mkResponse {
  status_code : Z;
  content : string;
  json_body : option value
}.

Inductive Event : Type :=
| Sent (r : Request)
| Slept (seconds : Z).

(** Everything outside the client.
    - [environ]: [os.environ];
    - [clock]: what [time.time()] reads now, in whole seconds (the
      rounding of the floats of the source is left out);
    - [remote n r]: the answer to request [r] when it is the [n]-th request
      of the run, [None] when the transport fails;
    - [latency n]: the seconds the [n]-th request takes;
    - [fs]: the files that can be opened, by path;
    - [trace]: the requests sent and the sleeps taken, oldest first. *)
Record World : Type := mkWorld {
  environ : string -> option string;
  clock : Z;
  remote : nat -> Request -> option Response;
  latency : nat -> Z;
  fs : string -> option string;
  trace : list Event
}.

Fixpoint requests (t : list Event) : list Request :=
  match t with
  | [] => []
  | Sent r :: t' => r :: requests t'
  | Slept _ :: t' => requests t'
  end.

Fixpoint sleeps (t : list Event) : list Z :=
  match t with
  | [] => []
  | Sent _ :: t' => sleeps t'
  | Slept s :: t' => s :: sleeps t'
  end.

(** The number of requests sent so far: the index of the next one. *)
Definition sent_count (w : World) : nat := List.length (requests (trace w)).

(** *** The state-and-error monad of the client *)

Definition M (A : Type) : Type := World -> Result A * World.

Definition ret {A} (a : A) : M A := fun w => (Ok a, w).

Definition bind {A B} (m : M A) (k : A -> M B) : M B :=
  fun w => match m w with
           | (Ok a, w') => k a w'
           | (Raise e, w') => (Raise e, w')
           end.

Definition raise {A} (e : exn) : M A := fun w => (Raise e, w).

(** A pure computation that may raise. *)
Definition lift {A} (r : Result A) : M A := fun w => (r, w).

Declare Scope py_scope.
Delimit Scope py_scope with py.
Notation "x <- m ;; k" := (bind m (fun x => k))
  (at level 100, m at next level, right associativity) : py_scope.
Notation "m ;; k" := (bind m (fun _ => k))
  (at level 100, right associativity) : py_scope.
Local Open Scope py_scope.

(** *** Primitive effects *)

(** [os.getenv(name)] *)
Definition os_getenv (name : string) : M (option string) :=
  fun w => (Ok (environ w name), w).

(** [time.time()] *)
Definition time_time : M Z := fun w => (Ok (clock w), w).

(** [time.sleep(seconds)]: a negative length is a [ValueError]; otherwise
    the clock moves on by exactly [seconds]. *)
Definition time_sleep (seconds : Z) : M unit :=
  fun w =>
    if seconds <? 0 then (Raise ValueError, w)
    else (Ok tt, mkWorld (environ w) (clock w + seconds) (remote w)
                         (latency w) (fs w) (trace w ++ [Slept seconds])).

(** One HTTP round trip: the request is recorded, the clock moves on by
    the latency of this request, the remote answers or the transport
    fails. *)
Definition httpx_request (r : Request) : M Response :=
  fun w =>
    let n := sent_count w in
    let w' := mkWorld (environ w) (clock w + latency w n) (remote w)
                      (latency w) (fs w) (trace w ++ [Sent r]) in
    match remote w n r with
    | Some resp => (Ok resp, w')
    | None => (Raise TransportError, w')
    end.

Definition httpx_get (url : string) (headers : list (string * string))
    (params : option (list (string * value))) (follow : bool) : M Response :=
  httpx_request (mkRequest GET url headers params None None follow).

Definition httpx_post_json (url : string) (headers : list (string * string))
    (data : value) : M Response :=
  httpx_request (mkRequest POST url headers None (Some data) None false).

Definition httpx_post_files (url : string) (headers : list (string * string))
    (parts : list (string * FilePart)) : M Response :=
  httpx_request (mkRequest POST url headers None None (Some parts) false).

Definition httpx_patch (url : string) (headers : list (string * string))
    (data : value) : M Response :=
  httpx_request (mkRequest PATCH url headers None (Some data) None false).

Definition httpx_delete (url : string) (headers : list (string * string))
    : M Response :=
  httpx_request (mkRequest DELETE url headers None None None false).

Definition is_success (resp : Response) : bool :=
  (200 <=? status_code resp) && (status_code resp <? 300).

(** [response.raise_for_status()]: every answer outside 2xx raises. *)
Definition raise_for_status (resp : Response) : M unit :=
  if is_success resp then ret tt
  else raise (HTTPStatusError (status_code resp) (content resp)).

(** [response.json()] *)
Definition response_json (resp : Response) : M value :=
  match json_body resp with
  | Some v => ret v
  | None => raise JSONDecodeError
  end.

(** [open(path, 'rb')] followed by reading the file. *)
Definition open_rb (path : string) : M string :=
  fun w => match fs w path with
           | Some bytes => (Ok bytes, w)
           | None => (Raise OSError, w)
           end.

(** [{"Authorization": f"<scheme> {token}", "Content-Type": "application/json"}] *)
Definition json_headers (scheme : string) (token : option string)
  : list (string * string) :=
  [("Authorization", scheme ++ " " ++ str_opt token);
   ("Content-Type", "application/json")].

(** [{"Authorization": f"<scheme> {token}"}] *)
Definition auth_headers (scheme : string) (token : option string)
  : list (string * string) :=
  [("Authorization", scheme ++ " " ++ str_opt token)].

(** [if x: params[key] = x], for the optional arguments of the list
    operations. *)
Definition add_str (key : string) (x : option string)
    (d : list (string * value)) : list (string * value) :=
  match x with
  | Some s => if truthy_str x then dict_set d key (VStr s) else d
  | None => d
  end.

Definition add_int (key : string) (x : option Z)
    (d : list (string * value)) : list (string * value) :=
  match x with
  | Some n => if truthy_int x then dict_set d key (VInt n) else d
  | None => d
  end.

Definition add_float (key : string) (x : option float)
    (d : list (string * value)) : list (string * value) :=
  match x with
  | Some f => if truthy_float x then dict_set d key (VFloat f) else d
  | None => d
  end.

(** [if x is not None: data[key] = x] *)
Definition add_some (key : string) (x : option value)
    (d : list (string * value)) : list (string * value) :=
  match x with
  | Some v => dict_set d key v
  | None => d
  end.

End Http.
Import Http.
Local Open Scope py_scope.

(** What the modelled code uses of the Python runtime and its standard
    library without the repository defining it. *)
Class Runtime : Type := mkRuntime {
  (** [json.loads(text)], [None] for a [JSONDecodeError] *)
  json_loads : string -> option value;
  (** [bytes.decode('utf-8')], [None] for a [UnicodeDecodeError] *)
  decode_utf8 : string -> option string;
  (** [Path(p).name] *)
  path_name : string -> string;
  (** [str(Path(dir) / name)] *)
  path_join : string -> string -> string;
  (** [str(v)] for a float, a list or a dict *)
  str_compound : value -> string;
  (** [sorted(items, key=...)] on the pairs (key, item): the items in
      key order, or the [TypeError] of comparing two keys *)
  sorted_by_key : list (value * value) -> Result (list value);
  (** what [print(text)] raises, if anything: [UnicodeEncodeError] when
      standard output cannot encode the text *)
  print_error : string -> option exn;
  (** [str(e)] for the [JSONDecodeError] being handled (it depends on the
      document that did not parse) *)
  json_error_text : string;
  (** [str(Path(p).parent)] *)
  path_parent : string -> string;
  (** what [Path(dir).mkdir(parents=True, exist_ok=True)] raises, if
      anything, in a file system with these files: [FileExistsError] when
      a regular file is in the way, [PermissionError], ... *)
  mkdir_error : (string -> option string) -> string -> option exn;
  (** what [open(path, 'wb')] raises, if anything, in a file system with
      these files and the directory of [path] made: [IsADirectoryError],
      [PermissionError], ... *)
  open_wb_error : (string -> option string) -> string -> option exn;
  (** what writing [bytes] to the opened file [path] and closing it
      raises, if anything, with the bytes the file is left with: [OSError]
      when the disk is full, ... *)
  write_error : string -> string -> option (exn * string)
}.

(** [f"{v}"] *)
Definition str_value {rt : Runtime} (v : value) : string :=
  match v with
  | VNone => "None"
  | VBool true => "True"
  | VBool false => "False"
  | VInt n => str_int n
  | VStr s => s
  | _ => str_compound v
  end.

(** [print(text)]: the text goes to standard output, which the world does
    not record; what can be seen of it is that it may raise. *)
Definition py_print {rt : Runtime} (text : string) : M unit :=
  fun w => match print_error text with
           | Some e => (Raise e, w)
           | None => (Ok tt, w)
           end.

(** [Path(dir).mkdir(parents=True, exist_ok=True)] *)
Definition mkdir_parents {rt : Runtime} (dir : string) : M unit :=
  fun w => match mkdir_error (fs w) dir with
           | Some e => (Raise e, w)
           | None => (Ok tt, w)
           end.

(** [with open(path, 'wb') as f: f.write(bytes)]: a file that cannot be
    opened is left as it was; an opened file holds what was written of the
    bytes. *)
Definition write_wb {rt : Runtime} (path : string) (bytes : string) : M unit :=
  fun w =>
    let store (written : string) :=
      mkWorld (environ w) (clock w) (remote w) (latency w)
              (fun p => if (p =? path)%string then Some written else fs w p)
              (trace w) in
    match open_wb_error (fs w) path with
    | Some e => (Raise e, w)
    | None =>
        match write_error path bytes with
        | Some (e, written) => (Raise e, store written)
        | None => (Ok tt, store bytes)
        end
    end.

(** ** basic/study.py *)

Module Study.

Definition get_studies (page page_size : option Z) (name uuid : option string)
  : M value :=
  api_url <- os_getenv "API" ;;
  token <- os_getenv "API_TOKEN" ;;
  let headers := json_headers "Bearer" token in
  let params := [] in
  let params := add_int "page" page params in
  let params := add_int "page_size" page_size params in
  let params := add_str "name" name params in
  let params := add_str "uuid" uuid params in
  response <- httpx_get (str_opt api_url ++ "/api/v2/studies/") headers
                        (Some params) false ;;
  raise_for_status response ;;
  response_json response.

Definition create_study (age : Z) (name : option string)
    (height weight : option float) (sex : option string) : M value :=
  api_url <- os_getenv "API" ;;
  token <- os_getenv "API_TOKEN" ;;
  let headers := json_headers "Bearer" token in
  let data := [("age", VInt age)] in
  let data := add_str "name" name data in
  let data := add_float "height" height data in
  let data := add_float "weight" weight data in
  let data := add_str "sex" sex data in
  response <- httpx_post_json (str_opt api_url ++ "/api/v2/studies/") headers
                              (VDict data) ;;
  raise_for_status response ;;
  response_json response.

Definition get_study (uuid : string) : M value :=
  api_url <- os_getenv "API" ;;
  token <- os_getenv "API_TOKEN" ;;
  let headers := json_headers "Bearer" token in
  response <- httpx_get (str_opt api_url ++ "/api/v2/studies/" ++ uuid ++ "/")
                        headers None false ;;
  raise_for_status response ;;
  response_json response.

(** [**updates] arrives as a dict of the keyword arguments. *)
Definition update_study (uuid : string) (updates : list (string * value))
  : M value :=
  api_url <- os_getenv "API" ;;
  token <- os_getenv "API_TOKEN" ;;
  let headers := json_headers "Bearer" token in
  response <- httpx_patch (str_opt api_url ++ "/api/v2/studies/" ++ uuid ++ "/")
                          headers (VDict updates) ;;
  raise_for_status response ;;
  response_json response.

Definition delete_study (uuid : string) : M unit :=
  api_url <- os_getenv "API" ;;
  token <- os_getenv "API_TOKEN" ;;
  let headers := json_headers "Bearer" token in
  response <- httpx_delete (str_opt api_url ++ "/api/v2/studies/" ++ uuid ++ "/")
                           headers ;;
  raise_for_status response.

End Study.

(** ** basic/dicom.py *)

Module Dicom.
Section WithRuntime.
Context {rt : Runtime}.

Definition upload_dicom (study_uuid file_path : string) : M value :=
  api_url <- os_getenv "API" ;;
  token <- os_getenv "API_TOKEN" ;;
  let headers := auth_headers "Bearer" token in
  f <- open_rb file_path ;;
  let files :=
    [("file", mkFilePart (Some (path_name file_path)) f (Some "application/dicom"));
     ("study", mkFilePart None study_uuid None)] in
  response <- httpx_post_files (str_opt api_url ++ "/api/v2/dicoms/") headers files ;;
  raise_for_status response ;;
  response_json response.

Definition get_dicoms (study_uuid : option string) (page page_size : option Z)
  : M value :=
  api_url <- os_getenv "API" ;;
  token <- os_getenv "API_TOKEN" ;;
  let headers := json_headers "Bearer" token in
  let params := [] in
  let params := add_str "study" study_uuid params in
  let params := add_int "page" page params in
  let params := add_int "page_size" page_size params in
  response <- httpx_get (str_opt api_url ++ "/api/v2/dicoms/") headers
                        (Some params) false ;;
  raise_for_status response ;;
  response_json response.

Definition get_dicom (uuid : string) : M value :=
  api_url <- os_getenv "API" ;;
  token <- os_getenv "API_TOKEN" ;;
  let headers := json_headers "Bearer" token in
  response <- httpx_get (str_opt api_url ++ "/api/v2/dicoms/" ++ uuid ++ "/")
                        headers None false ;;
  raise_for_status response ;;
  response_json response.

Definition download_dicom_file (uuid filename output_path : string) : M string :=
  api_url <- os_getenv "API" ;;
  token <- os_getenv "API_TOKEN" ;;
  let headers := auth_headers "Bearer" token in
  response <- httpx_get (str_opt api_url ++ "/api/v2/dicoms/file/" ++ uuid
                           ++ "/" ++ filename ++ "/")
                        headers None true ;;
  raise_for_status response ;;
  let output_file := path_join output_path filename in
  mkdir_parents (path_parent output_file) ;;
  write_wb output_file (content response) ;;
  ret output_file.

Definition delete_dicom (uuid : string) : M unit :=
  api_url <- os_getenv "API" ;;
  token <- os_getenv "API_TOKEN" ;;
  let headers := json_headers "Bearer" token in
  response <- httpx_delete (str_opt api_url ++ "/api/v2/dicoms/" ++ uuid ++ "/")
                           headers ;;
  raise_for_status response.

Definition idempotent_dicom_upload (file_path : string) : M value :=
  api_url <- os_getenv "API" ;;
  token <- os_getenv "API_TOKEN" ;;
  let headers := auth_headers "Bearer" token in
  f <- open_rb file_path ;;
  let files :=
    [("file", mkFilePart (Some (path_name file_path)) f (Some "application/dicom"))] in
  response <- httpx_post_files (str_opt api_url ++ "/api/v2/idempotent_dicom/")
                               headers files ;;
  raise_for_status response ;;
  response_json response.

End WithRuntime.
End Dicom.

(** ** basic/scan.py *)

Module Scan.

Definition create_scan (study_uuid : string) (product : option string) : M value :=
  api_url <- os_getenv "API" ;;
  token <- os_getenv "API_TOKEN" ;;
  let headers := json_headers "Bearer" token in
  let data := [("study", VStr study_uuid)] in
  let data := add_str "product" product data in
  response <- httpx_post_json (str_opt api_url ++ "/api/v2/scans/") headers
                              (VDict data) ;;
  raise_for_status response ;;
  response_json response.

Definition get_scans (study_uuid : option string) (page page_size : option Z)
  : M value :=
  api_url <- os_getenv "API" ;;
  token <- os_getenv "API_TOKEN" ;;
  let headers := json_headers "Bearer" token in
  let params := [] in
  let params := add_str "study" study_uuid params in
  let params := add_int "page" page params in
  let params := add_int "page_size" page_size params in
  response <- httpx_get (str_opt api_url ++ "/api/v2/scans/") headers
                        (Some params) false ;;
  raise_for_status response ;;
  response_json response.

Definition get_scan (uuid : string) : M value :=
  api_url <- os_getenv "API" ;;
  token <- os_getenv "API_TOKEN" ;;
  let headers := json_headers "Bearer" token in
  response <- httpx_get (str_opt api_url ++ "/api/v2/scans/" ++ uuid ++ "/")
                        headers None false ;;
  raise_for_status response ;;
  response_json response.

Definition delete_scan (uuid : string) : M unit :=
  api_url <- os_getenv "API" ;;
  token <- os_getenv "API_TOKEN" ;;
  let headers := json_headers "Bearer" token in
  response <- httpx_delete (str_opt api_url ++ "/api/v2/scans/" ++ uuid ++ "/")
                           headers ;;
  raise_for_status response.

(** The defaults of [timeout] and [poll_interval]. *)
Definition default_timeout : Z := 300.
Definition default_poll_interval : Z := 5.

(** [f"Scan {scan_uuid} did not complete within {timeout} seconds"] *)
Definition timeout_message (scan_uuid : string) (timeout : Z) : string :=
  "Scan " ++ scan_uuid ++ " did not complete within " ++ str_int timeout
    ++ " seconds".

(** One turn of the [while True] loop of [wait_for_scan_completion]:
    [Some scan] is the [return scan], [None] falls through to the next
    turn. *)
Definition poll_once (scan_uuid : string) (timeout poll_interval start_time : Z)
  : M (option value) :=
  scan <- get_scan scan_uuid ;;
  status <- lift (subscript scan "status") ;;
  if in_strs status ["COMPLETED"; "FAILED"] then ret (Some scan)
  else
    now <- time_time ;;
    if now - start_time >? timeout
    then raise (TimeoutError (timeout_message scan_uuid timeout))
    else (time_sleep poll_interval ;; ret None).

(** The loop, cut after [fuel] turns: the outcome is [None] while the loop
    is still running. *)
Fixpoint poll_loop (fuel : nat) (scan_uuid : string)
    (timeout poll_interval start_time : Z) (w : World)
  : option (Result value) * World :=
  match fuel with
  | O => (None, w)
  | S fuel' =>
      match poll_once scan_uuid timeout poll_interval start_time w with
      | (Raise e, w') => (Some (Raise e), w')
      | (Ok (Some scan), w') => (Some (Ok scan), w')
      | (Ok None, w') =>
          poll_loop fuel' scan_uuid timeout poll_interval start_time w'
      end
  end.

Definition wait_for_scan_completion (fuel : nat) (scan_uuid : string)
    (timeout poll_interval : Z) (w : World) : option (Result value) * World :=
  match time_time w with
  | (Ok start_time, w0) =>
      poll_loop fuel scan_uuid timeout poll_interval start_time w0
  | (Raise e, w0) => (Some (Raise e), w0)
  end.

Definition get_scan_progress (scan_uuid : string) : M value :=
  get_scan scan_uuid.

End Scan.

(** ** basic/reports.py *)

Module Reports.

Definition get_reports (study_uuid scan_uuid : option string)
    (page page_size : option Z) : M value :=
  api_url <- os_getenv "API" ;;
  token <- os_getenv "API_TOKEN" ;;
  let headers := json_headers "Token" token in
  let params := [] in
  let params := add_str "study" study_uuid params in
  let params := add_str "scan" scan_uuid params in
  let params := add_int "page" page params in
  let params := add_int "page_size" page_size params in
  response <- httpx_get (str_opt api_url ++ "/api/v2/reports/") headers
                        (Some params) false ;;
  raise_for_status response ;;
  response_json response.

Definition get_report (uuid : string) : M value :=
  api_url <- os_getenv "API" ;;
  token <- os_getenv "API_TOKEN" ;;
  let headers := json_headers "Token" token in
  response <- httpx_get (str_opt api_url ++ "/api/v2/reports/" ++ uuid ++ "/")
                        headers None false ;;
  raise_for_status response ;;
  response_json response.

Definition get_report_html (report_uuid : string) : M value :=
  api_url <- os_getenv "API" ;;
  token <- os_getenv "API_TOKEN" ;;
  let headers := json_headers "Token" token in
  response <- httpx_get (str_opt api_url ++ "/api/v2/reports/" ++ report_uuid
                           ++ "/html/")
                        headers None false ;;
  raise_for_status response ;;
  response_json response.

Definition get_echogpt_responses : M value :=
  api_url <- os_getenv "API" ;;
  token <- os_getenv "API_TOKEN" ;;
  let headers := json_headers "Token" token in
  response <- httpx_get (str_opt api_url ++ "/api/v2/echogpt/report/")
                        headers None false ;;
  raise_for_status response ;;
  response_json response.

Definition get_echogpt_response (uuid : string) : M value :=
  api_url <- os_getenv "API" ;;
  token <- os_getenv "API_TOKEN" ;;
  let headers := json_headers "Token" token in
  response <- httpx_get (str_opt api_url ++ "/api/v2/echogpt/report/" ++ uuid
                           ++ "/")
                        headers None false ;;
  raise_for_status response ;;
  response_json response.

Definition create_user_measurement
    (dicom_uuid measurement_key measurement_type keyframe_type : string)
    (measurement_metadata : value) (frame_index : option Z)
    (value : option float) (unit : option string)
    (extra_metadata : option Py.value) : M Py.value :=
  api_url <- os_getenv "API" ;;
  token <- os_getenv "API_TOKEN" ;;
  let headers := json_headers "Token" token in
  let data :=
    [("dicom_uuid", VStr dicom_uuid);
     ("measurement_key", VStr measurement_key);
     ("measurement_type", VStr measurement_type);
     ("keyframe_type", VStr keyframe_type);
     ("measurement_metadata", measurement_metadata)] in
  let data := add_some "frame_index" (option_map VInt frame_index) data in
  let data := add_some "value" (option_map VFloat value) data in
  let data := add_some "unit" (option_map VStr unit) data in
  let data := add_some "extra_metadata" extra_metadata data in
  response <- httpx_post_json (str_opt api_url ++ "/api/v2/measurements/")
                              headers (VDict data) ;;
  raise_for_status response ;;
  response_json response.

Definition get_api_version : M value :=
  api_url <- os_getenv "API" ;;
  token <- os_getenv "API_TOKEN" ;;
  let headers := json_headers "Token" token in
  response <- httpx_get (str_opt api_url ++ "/api/v2/version") headers None false ;;
  raise_for_status response ;;
  response_json response.

End Reports.

(** ** basic/webhooks.py *)

Module Webhooks.

Definition create_webhook (url : string) : M value :=
  api_url <- os_getenv "API" ;;
  token <- os_getenv "API_TOKEN" ;;
  let headers := json_headers "Token" token in
  let data := [("url", VStr url)] in
  response <- httpx_post_json (str_opt api_url ++ "/api/v2/webhook/") headers
                              (VDict data) ;;
  raise_for_status response ;;
  response_json response.

Definition get_webhooks (page page_size : option Z) : M value :=
  api_url <- os_getenv "API" ;;
  token <- os_getenv "API_TOKEN" ;;
  let headers := json_headers "Token" token in
  let params := [] in
  let params := add_int "page" page params in
  let params := add_int "page_size" page_size params in
  response <- httpx_get (str_opt api_url ++ "/api/v2/webhook/") headers
                        (Some params) false ;;
  raise_for_status response ;;
  response_json response.

Definition get_webhook (uuid : string) : M value :=
  api_url <- os_getenv "API" ;;
  token <- os_getenv "API_TOKEN" ;;
  let headers := json_headers "Token" token in
  response <- httpx_get (str_opt api_url ++ "/api/v2/webhook/" ++ uuid ++ "/")
                        headers None false ;;
  raise_for_status response ;;
  response_json response.

Definition update_webhook (uuid url : string) : M value :=
  api_url <- os_getenv "API" ;;
  token <- os_getenv "API_TOKEN" ;;
  let headers := json_headers "Token" token in
  let data := [("url", VStr url)] in
  response <- httpx_patch (str_opt api_url ++ "/api/v2/webhook/" ++ uuid ++ "/")
                          headers (VDict data) ;;
  raise_for_status response ;;
  response_json response.

Definition delete_webhook (uuid : string) : M unit :=
  api_url <- os_getenv "API" ;;
  token <- os_getenv "API_TOKEN" ;;
  let headers := json_headers "Token" token in
  response <- httpx_delete (str_opt api_url ++ "/api/v2/webhook/" ++ uuid ++ "/")
                           headers ;;
  raise_for_status response.

End Webhooks.

(** ** basic/all_studies.py *)

Module AllStudies.

Definition get_all_studies_with_measurements
    (page page_size : option Z)
    (q name uuid created_at__gte created_at__lte scan_product scan_status
       user_email view_types diseases measurements : option string) : M value :=
  api_url <- os_getenv "API" ;;
  token <- os_getenv "API_TOKEN" ;;
  let headers := json_headers "Token" token in
  let params := [] in
  let params := add_int "page" page params in
  let params := add_int "page_size" page_size params in
  let params := add_str "q" q params in
  let params := add_str "name" name params in
  let params := add_str "uuid" uuid params in
  let params := add_str "created_at__gte" created_at__gte params in
  let params := add_str "created_at__lte" created_at__lte params in
  let params := add_str "scan_product" scan_product params in
  let params := add_str "scan_status" scan_status params in
  let params := add_str "user_email" user_email params in
  let params := add_str "view_types" view_types params in
  let params := add_str "diseases" diseases params in
  let params := add_str "measurements" measurements params in
  response <- httpx_get (str_opt api_url ++ "/api/v2/all_studies/") headers
                        (Some params) false ;;
  raise_for_status response ;;
  response_json response.

Definition get_study_with_measurements (uuid : string) : M value :=
  api_url <- os_getenv "API" ;;
  token <- os_getenv "API_TOKEN" ;;
  let headers := json_headers "Token" token in
  response <- httpx_get (str_opt api_url ++ "/api/v2/all_studies/" ++ uuid ++ "/")
                        headers None false ;;
  raise_for_status response ;;
  response_json response.

Definition get_study_metrics : M value :=
  api_url <- os_getenv "API" ;;
  token <- os_getenv "API_TOKEN" ;;
  let headers := json_headers "Token" token in
  response <- httpx_get (str_opt api_url ++ "/api/v2/all_studies/metrics/")
                        headers None false ;;
  raise_for_status response ;;
  response_json response.

Definition get_filter_metadata : M value :=
  api_url <- os_getenv "API" ;;
  token <- os_getenv "API_TOKEN" ;;
  let headers := json_headers "Token" token in
  response <- httpx_get (str_opt api_url ++ "/api/v2/all_studies/filters/metadata/")
                        headers None false ;;
  raise_for_status response ;;
  response_json response.

End AllStudies.

(** ** flows/create_scan_and_retrieve_inference_results_with_webhooks.py *)

Module WebhookFlow.
Section WithRuntime.
Context {rt : Runtime}.

(** The receiver prints what it is doing; each [print] is a [py_print] of
    the text of its f-string, after the evaluation of the expressions
    inside it. *)

(** [len(v)] *)
Definition py_len (v : value) : Result Z :=
  match v with
  | VStr s => Ok (Z.of_nat (String.length s))
  | VList l => Ok (Z.of_nat (List.length l))
  | VDict d => Ok (Z.of_nat (List.length d))
  | _ => Raise TypeError
  end.

(** The items of [for x in v]: the elements of a list, the keys of a dict,
    the characters of a str (here the bytes of its encoding: strs either
    way). *)
Definition py_iter (v : value) : Result (list value) :=
  match v with
  | VList l => Ok l
  | VDict d => Ok (map (fun kv => VStr (fst kv)) d)
  | VStr s => Ok (map (fun c => VStr (String c EmptyString)) (list_ascii_of_string s))
  | _ => Raise TypeError
  end.

Definition is_none (v : value) : bool :=
  match v with VNone => true | _ => false end.

Fixpoint for_each {A} (items : list A) (body : A -> M unit) : M unit :=
  match items with
  | [] => ret tt
  | x :: rest => body x ;; for_each rest body
  end.

Fixpoint map_each {A B} (items : list A) (f : A -> Result B) : Result (list B) :=
  match items with
  | [] => Ok []
  | x :: rest =>
      match f x with
      | Raise e => Raise e
      | Ok y => match map_each rest f with
                | Raise e => Raise e
                | Ok ys => Ok (y :: ys)
                end
      end
  end.

(** [if v.get(key): print(f"<label> found: {len(v[key])} items")] *)
Definition print_count (v : value) (key label : string) : M unit :=
  x <- lift (get v key) ;;
  if truthy x then
    items <- lift (subscript v key) ;;
    n <- lift (py_len items) ;;
    py_print (label ++ " found: " ++ str_int n ++ " items")
  else ret tt.

(** [flag_symbol = "!" if flag else "*"] *)
Definition flag_symbol (flag : value) : string :=
  if truthy flag then "!" else "*".

Definition display_report_details (report : value) : M unit :=
  (* Display conclusions *)
  c <- lift (get report "conclusions") ;;
  (if truthy c then
     py_print "\nClinical Conclusions:" ;;
     conclusions <- lift (subscript report "conclusions") ;;
     py_print ("   " ++ str_value conclusions)
   else ret tt) ;;
  (* Display enumerated conclusions *)
  ec <- lift (get report "enumerated_conclusions") ;;
  (if truthy ec then
     py_print "\nDetailed Findings:" ;;
     xs <- lift (subscript report "enumerated_conclusions") ;;
     items <- lift (py_iter xs) ;;
     keys <- lift (map_each items (fun x => subscript x "order")) ;;
     ordered <- lift (sorted_by_key (combine keys items)) ;;
     for_each ordered (fun conclusion =>
       order <- lift (subscript conclusion "order") ;;
       text <- lift (subscript conclusion "text") ;;
       py_print ("   " ++ str_value order ++ ". " ++ str_value text))
   else ret tt) ;;
  (* Display diameter measurements *)
  dm <- lift (get report "diameter_measurements") ;;
  (if truthy dm then
     py_print "\nDiameter Measurements:" ;;
     xs <- lift (subscript report "diameter_measurements") ;;
     items <- lift (py_iter xs) ;;
     for_each items (fun measurement =>
       metric <- lift (subscript measurement "measurement") ;;
       value <- lift (get measurement "value") ;;
       flag <- lift (get measurement "flag") ;;
       if negb (is_none value) then
         acronym <- lift (subscript metric "acronym") ;;
         units <- lift (subscript metric "units") ;;
         py_print ("   " ++ flag_symbol flag ++ " " ++ str_value acronym ++ ": "
                     ++ str_value value ++ " " ++ str_value units) ;;
         key <- lift (subscript metric "key") ;;
         low_range <- lift (subscript metric "low_range") ;;
         high_range <- lift (subscript metric "high_range") ;;
         units <- lift (subscript metric "units") ;;
         py_print ("      " ++ str_value key ++ " (Range: " ++ str_value low_range
                     ++ "-" ++ str_value high_range ++ " " ++ str_value units
                     ++ ")")
       else ret tt)
   else ret tt) ;;
  (* Display segmentation measurements *)
  sm <- lift (get report "segmentation_measurements") ;;
  (if truthy sm then
     py_print "\nSegmentation Measurements:" ;;
     xs <- lift (subscript report "segmentation_measurements") ;;
     items <- lift (py_iter xs) ;;
     for_each items (fun measurement =>
       metric <- lift (subscript measurement "measurement") ;;
       value <- lift (get measurement "value") ;;
       flag <- lift (get measurement "flag") ;;
       if negb (is_none value) then
         acronym <- lift (subscript metric "acronym") ;;
         units <- lift (subscript metric "units") ;;
         py_print ("   " ++ flag_symbol flag ++ " " ++ str_value acronym ++ ": "
                     ++ str_value value ++ " " ++ str_value units)
       else ret tt)
   else ret tt).

(** [str(e)] for a [KeyError] on a key of the source: the key in quotes. *)
Definition str_key_error (key : string) : string := "'" ++ key ++ "'".

(** The two [except] clauses of the receiver: a [JSONDecodeError] or a
    [KeyError] of the body is printed and raised again; if that [print]
    raises, its exception is the one that leaves.  Every other exception
    of the body leaves as it is. *)
Definition print_and_reraise {A} (body : M A) : M A :=
  fun w =>
    match body w with
    | (Raise JSONDecodeError, w') =>
        match py_print ("❌ Failed to parse webhook payload: "
                          ++ json_error_text) w' with
        | (Ok _, w'') => (Raise JSONDecodeError, w'')
        | (Raise e, w'') => (Raise e, w'')
        end
    | (Raise (KeyError key), w') =>
        match py_print ("❌ Missing required field in webhook payload: "
                          ++ str_key_error key) w' with
        | (Ok _, w'') => (Raise (KeyError key), w'')
        | (Raise e, w'') => (Raise e, w'')
        end
    | outcome => outcome
    end.

(** ["=" * 40] *)
Definition rule : string := "========================================".

(** The [if]/[elif]/[else] on the status, inside the [try] block. *)
Definition branch_on_status (payload scan_uuid status : value) : M value :=
  if eq_str status "COMPLETED" then
    report_info <- lift (get_default payload "report" (VDict [])) ;;
    report_uuid <- lift (get report_info "uuid") ;;
    py_print ("   Report UUID: " ++ str_value report_uuid) ;;
    (* Step 2: Retrieve full report details *)
    if truthy report_uuid then
      py_print "\n2. Retrieving full report..." ;;
      report <- Reports.get_report (str_value report_uuid) ;;
      uuid <- lift (subscript report "uuid") ;;
      py_print ("✅ Retrieved complete report: " ++ str_value uuid) ;;
      version <- lift (subscript report "version") ;;
      py_print ("   Report version: " ++ str_value version) ;;
      study <- lift (subscript report "study") ;;
      name <- lift (subscript study "name") ;;
      py_print ("   Study: " ++ str_value name) ;;
      (* Display key findings from webhook payload *)
      print_count report_info "measurements" "\n📏 Measurements" ;;
      print_count report_info "pathologies" "🔬 Pathologies" ;;
      print_count report_info "conclusions" "📋 Conclusions" ;;
      (* Display full report details *)
      display_report_details report ;;
      ret (VDict [("scan_uuid", scan_uuid);
                  ("report_uuid", report_uuid);
                  ("status", VStr "SUCCESS")])
    else
      (py_print "⚠️ No report UUID in webhook payload" ;;
       ret (VDict [("scan_uuid", scan_uuid); ("status", VStr "NO_REPORT")]))
  else if eq_str status "FAILED" then
    py_print "❌ Scan failed to complete" ;;
    (* Get additional error details from scan status *)
    scan_details <- Scan.get_scan (str_value scan_uuid) ;;
    state <- lift (get scan_details "state") ;;
    (if truthy state then
       state <- lift (subscript scan_details "state") ;;
       py_print ("   Error details: " ++ str_value state)
     else ret tt) ;;
    ret (VDict [("scan_uuid", scan_uuid); ("status", VStr "FAILED")])
  else
    (py_print ("⏳ Unexpected status: " ++ str_value status) ;;
     ret (VDict [("scan_uuid", scan_uuid); ("status", status)])).

(** The [try] block of the receiver. *)
Definition handle_parsed_notification (webhook_payload : string) : M value :=
  text <- lift (match decode_utf8 webhook_payload with
                | Some t => Ok t
                | None => Raise UnicodeDecodeError
                end) ;;
  payload <- lift (match json_loads text with
                   | Some v => Ok v
                   | None => Raise JSONDecodeError
                   end) ;;
  scan_uuid <- lift (subscript payload "scan_id") ;;
  status <- lift (subscript payload "status") ;;
  py_print ("   Scan UUID: " ++ str_value scan_uuid) ;;
  py_print ("   Status: " ++ str_value status) ;;
  branch_on_status payload scan_uuid status.

(** [webhook_payload] is the raw body, as bytes. *)
Definition handle_webhook_notification (webhook_payload : string) : M value :=
  py_print "\nReceived webhook notification!" ;;
  py_print rule ;;
  (* Step 1: Parse webhook payload *)
  py_print "\n1. Parsing webhook payload..." ;;
  print_and_reraise (handle_parsed_notification webhook_payload).



End WithRuntime.
End WebhookFlow.

Import Scan.

(** ** Vocabulary of the statements *)

(** [headers["Authorization"]] and the like, on the request that was sent. *)
Fixpoint header (name : string) (hs : list (string * string)) : option string :=
  match hs with
  | [] => None
  | (k, v) :: hs' => if (k =? name)%string then Some v else header name hs'
  end.

(** The request [get_scan uuid] sends in world [w]. *)
Definition fetch_request (w : World) (uuid : string) : Request :=
  mkRequest GET (str_opt (environ w "API") ++ "/api/v2/scans/" ++ uuid ++ "/")
            (json_headers "Bearer" (environ w "API_TOKEN")) None None None false.

(** What the fetch of scan [uuid] yields when it is request number [n]. *)
Definition fetched (w : World) (uuid : string) (n : nat) : Result value :=
  match remote w n (fetch_request w uuid) with
  | None => Raise TransportError
  | Some resp =>
      if is_success resp then
        match json_body resp with
        | Some scan => Ok scan
        | None => Raise JSONDecodeError
        end
      else Raise (HTTPStatusError (status_code resp) (content resp))
  end.

(** The scan shows COMPLETED or FAILED. *)
Definition has_terminal_status (scan : value) : bool :=
  match subscript scan "status" with
  | Ok status => in_strs status ["COMPLETED"; "FAILED"]
  | Raise _ => false
  end.

(** The scan shows a status, and it is neither COMPLETED nor FAILED. *)
Definition has_pending_status (scan : value) : bool :=
  match subscript scan "status" with
  | Ok status => negb (in_strs status ["COMPLETED"; "FAILED"])
  | Raise _ => false
  end.

(** Seconds used up by [k] full turns of the loop (a fetch and a sleep
    each), the first fetch being request number [n0]. *)
Fixpoint spent (lat : nat -> Z) (n0 : nat) (poll_interval : Z) (k : nat) : Z :=
  match k with
  | O => 0
  | S k' => lat n0 + poll_interval + spent lat (S n0) poll_interval k'
  end.

(** Seconds since the start of the wait at the moment fetch number [i]
    (counting from 0) has come back: what the timeout check compares with
    [timeout]. *)
Definition elapsed_at (w : World) (poll_interval : Z) (i : nat) : Z :=
  spent (latency w) (sent_count w) poll_interval i
    + latency w (sent_count w + i).

(** Seconds taken by [k] requests in a row, the first being request
    number [n0]. *)
Fixpoint request_time (lat : nat -> Z) (n0 k : nat) : Z :=
  match k with
  | O => 0
  | S k' => lat n0 + request_time lat (S n0) k'
  end.

(** Seconds the next [k] requests of [w] take together. *)
Definition busy (w : World) (k : nat) : Z :=
  request_time (latency w) (sent_count w) k.

(** The number of fetches of a wait on a scan that stays pending:
    [timeout / p + 1] when the fetches up to that one have taken more than
    the rest of the division, one more otherwise. *)
Definition fetches_before_giving_up (w : World) (timeout p : Z) : nat :=
  let q := Z.to_nat (timeout / p) in
  if timeout mod p <? busy w (S q) then (q + 1)%nat else (q + 2)%nat.

(** [k] turns that fetch and sleep, then one last fetch. *)
Fixpoint polling_trace (req : Request) (poll_interval : Z) (k : nat) : list Event :=
  match k with
  | O => [Sent req]
  | S k' => Sent req :: Slept poll_interval :: polling_trace req poll_interval k'
  end.

(** The world after one fetch and one sleep. *)
Definition after_turn (w : World) (req : Request) (poll_interval : Z) : World :=
  mkWorld (environ w) (clock w + latency w (sent_count w) + poll_interval)
          (remote w) (latency w) (fs w)
          ((trace w ++ [Sent req]) ++ [Slept poll_interval]).

(** The world after one fetch. *)
Definition after_fetch (w : World) (req : Request) : World :=
  mkWorld (environ w) (clock w + latency w (sent_count w))
          (remote w) (latency w) (fs w) (trace w ++ [Sent req]).

(** From now on every fetch of scan [uuid] shows a pending status. *)
Definition always_pending (w : World) (uuid : string) : Prop :=
  forall i, exists scan,
    fetched w uuid (sent_count w + i) = Ok scan
    /\ has_pending_status scan = true.

(** [sub] occurs in [s]. *)
Definition occurs (sub s : string) : Prop :=
  exists before after, s = before ++ sub ++ after.

(** *** Sample worlds *)

Definition test_environ (name : string) : option string :=
  if (name =? "API")%string then Some "https://api.example.com"
  else if (name =? "API_TOKEN")%string then Some "test-token"
  else None.

Definition sample_scan (status : string) (report : value) : value :=
  VDict [("uuid", VStr "scan-1");
         ("created_at", VStr "2024-01-01T00:00:00Z");
         ("study", VStr "study-1");
         ("product", VStr "ECHOMEASURE");
         ("status", VStr status);
         ("report", report);
         ("number_of_available_dicoms", VInt 10);
         ("number_of_dicoms_scanned", VInt 0);
         ("total_inference_time", VNone)].

(** A remote that answers the [n]-th request with the [n]-th scan of a
    script, and with [fallback] once the script is used up. *)
Definition scripted (script : list value) (fallback : value)
  : nat -> Request -> option Response :=
  fun n _ => Some (mkResponse 200 "" (Some (nth n script fallback))).

(** Requests take no time, the clock starts at 0, nothing was sent yet. *)
Definition instant_world (srv : nat -> Request -> option Response) : World :=
  mkWorld test_environ 0 srv (fun _ => 0) (fun _ => None) [].

Definition pending_forever : World :=
  instant_world (scripted [] (sample_scan "PENDING" VNone)).

(** The same remote seen through requests that take one unit of time
    each (a millisecond, with timeouts given in milliseconds). *)
Definition pending_forever_slow : World :=
  mkWorld test_environ 0 (scripted [] (sample_scan "PENDING" VNone))
          (fun _ => 1) (fun _ => None) [].

(** [mock_time.side_effect = [0, 350]]: the first check reads 350. *)
Definition pending_and_late : World :=
  mkWorld test_environ 0 (scripted [] (sample_scan "PENDING" VNone))
          (fun _ => 350) (fun _ => None) [].

Definition completes_on_third_fetch : World :=
  instant_world
    (scripted [sample_scan "PENDING" VNone; sample_scan "STARTED" VNone]
              (sample_scan "COMPLETED" (VStr "report-9"))).

(** *** The scans endpoint *)

(** The request [create_scan] sends in world [w] with JSON body [body]. *)
Definition create_request (w : World) (body : list (string * value)) : Request :=
  mkRequest POST (str_opt (environ w "API") ++ "/api/v2/scans/")
            (json_headers "Bearer" (environ w "API_TOKEN"))
            None (Some (VDict body)) None false.

(** The analysis products of the docstring of [create_scan]. *)
Definition products : list string :=
  ["ECHOMEASURE"; "CARDIOVISION"; "ECHOGPT"; "MITRALVISION"].

Definition valid_product (product : option string) : bool :=
  match product with
  | None => true
  | Some p => existsb (String.eqb p) products
  end.

(** The product of a scan created with the optional argument [product]. *)
Definition product_or_default (product : option string) : string :=
  match product with Some p => p | None => "ECHOMEASURE" end.

(** The remote service is not part of the repository.  This is its side of
    the contract of [POST /api/v2/scans/], for a request whose JSON body
    names a study: a 2xx answer whose JSON body is a scan with that study
    and with the product of the request body, or ECHOMEASURE when the
    request body names none. *)
Definition creates_scan (body : list (string * value)) (resp : Response) : Prop :=
  exists scan,
    is_success resp = true
    /\ json_body resp = Some (VDict scan)
    /\ dict_get scan "study" = dict_get body "study"
    /\ dict_get scan "product"
       = Some (match dict_get body "product" with
               | Some p => p
               | None => VStr "ECHOMEASURE"
               end).

Definition remote_creates_scans (w : World) : Prop :=
  forall n req body study,
    method req = POST ->
    json req = Some (VDict body) ->
    dict_get body "study" = Some study ->
    exists resp, remote w n req = Some resp /\ creates_scan body resp.

(** A sample remote that honours the contract. *)
Definition scan_service : nat -> Request -> option Response :=
  fun _ req =>
    match json req with
    | Some (VDict body) =>
        match dict_get body "study" with
        | Some study =>
            Some (mkResponse 201 ""
                    (Some (VDict [("uuid", VStr "scan-1");
                                  ("study", study);
                                  ("product",
                                   match dict_get body "product" with
                                   | Some p => p
                                   | None => VStr "ECHOMEASURE"
                                   end);
                                  ("status", VStr "PENDING")])))
        | None => Some (mkResponse 400 "" None)
        end
    | _ => Some (mkResponse 400 "" None)
    end.

(** *** Progress of a scan *)

(** [a / b] on two ints. *)
Definition py_truediv (a b : Z) : Result Q :=
  if b =? 0 then Raise ZeroDivisionError
  else Ok (inject_Z a / inject_Z b)%Q.

(** [scan[key]] as an int counter. *)
Definition counter (scan : value) (key : string) : Result Z :=
  match subscript scan key with
  | Ok (VInt n) => Ok n
  | Ok _ => Raise TypeError
  | Raise e => Raise e
  end.

(** Modelled from the spec: the completion fraction that a caller of
    [get_scan_progress] derives from the counters of the scan, which no
    function of the repository computes:
    [number_of_dicoms_scanned / number_of_available_dicoms], with the
    division guarded, a denominator of 0 being 0% progress. *)
Definition progress_fraction (scan : value) : Result Q :=
  match counter scan "number_of_dicoms_scanned" with
  | Raise e => Raise e
  | Ok scanned =>
      match counter scan "number_of_available_dicoms" with
      | Raise e => Raise e
      | Ok available =>
          if available =? 0 then Ok 0%Q else py_truediv scanned available
      end
  end.

Definition scan_without_dicoms : value :=
  VDict [("uuid", VStr "scan-1");
         ("status", VStr "PENDING");
         ("number_of_available_dicoms", VInt 0);
         ("number_of_dicoms_scanned", VInt 0)].

(** *** Webhook payloads *)

(** [json.loads(webhook_payload.decode('utf-8'))] *)
Definition parse_payload {rt : Runtime} (webhook_payload : string) : Result value :=
  match decode_utf8 webhook_payload with
  | None => Raise UnicodeDecodeError
  | Some text =>
      match json_loads text with
      | None => Raise JSONDecodeError
      | Some v => Ok v
      end
  end.

(** The double quote. *)
Definition dq : string := String (Ascii.ascii_of_nat 34) EmptyString.

Fixpoint join (sep : string) (parts : list string) : string :=
  match parts with
  | [] => ""
  | [x] => x
  | x :: rest => x ++ sep ++ join sep rest
  end.

(** The JSON text of a value made of null, booleans, ints, strings
    without escapes, lists and objects, as [json.dumps] writes it (floats
    are outside this fragment). *)
Fixpoint dumps (v : value) : string :=
  match v with
  | VNone => "null"
  | VBool true => "true"
  | VBool false => "false"
  | VInt n => str_int n
  | VFloat _ => "NaN"
  | VStr s => dq ++ s ++ dq
  | VList items => "[" ++ join ", " (map dumps items) ++ "]"
  | VDict fields =>
      "{" ++ join ", " (map (fun kv => match kv with
                                        | (k, x) => dq ++ k ++ dq ++ ": " ++ dumps x
                                        end) fields) ++ "}"
  end.

Definition payload_started : value :=
  VDict [("scan_id", VStr "scan-1"); ("status", VStr "STARTED")].

Definition payload_without_status : value :=
  VDict [("scan_id", VStr "scan-1")].

Definition payload_completed_without_report : value :=
  VDict [("scan_id", VStr "scan-1"); ("status", VStr "COMPLETED")].

Definition payload_completed_without_report_uuid : value :=
  VDict [("scan_id", VStr "scan-1"); ("status", VStr "COMPLETED");
         ("report", VDict [("measurements", VList [])])].

Definition payload_completed_null_report : value :=
  VDict [("scan_id", VStr "scan-1"); ("status", VStr "COMPLETED");
         ("report", VNone)].

Definition sample_payloads : list value :=
  [payload_started; payload_without_status; payload_completed_without_report;
   payload_completed_without_report_uuid; payload_completed_null_report].

(** Whether a path has a ["/"]. *)
Fixpoint has_slash (path : string) : bool :=
  match path with
  | EmptyString => false
  | String c rest => (c =? "/")%char || has_slash rest
  end.

(** The part of a relative path before its last ["/"]. *)
Fixpoint dirname (path : string) : string :=
  match path with
  | EmptyString => EmptyString
  | String c rest => if has_slash rest then String c (dirname rest) else EmptyString
  end.

(** A directory cannot be made where a regular file is. *)
Definition file_in_the_way (files : string -> option string) (dir : string)
  : option exn :=
  match files dir with
  | Some _ => Some FileExistsError
  | None => None
  end.

(** A runtime that reads back the JSON text of the given values and rejects
    every other text; bytes are taken for their own decoding; the [str] of a
    compound value is its JSON text; standard output takes every text; a
    directory is made unless a file has its name, and every file can be
    opened and written. *)
Definition runtime_reading (samples : list value) : Runtime :=
  mkRuntime
    (fun text => find (fun v => (dumps v =? text)%string) samples)
    (fun bytes => Some bytes)
    (fun path => path)
    (fun dir name => dir ++ "/" ++ name)
    dumps
    (fun pairs => Ok (map snd pairs))
    (fun text => None)
    "Expecting value: line 1 column 1 (char 0)"
    dirname
    file_in_the_way
    (fun files path => None)
    (fun path bytes => None).

(** The runtime of the sample runs. *)
Definition sample_runtime : Runtime := runtime_reading sample_payloads.

(** *** The operations of the client, by resource family *)

Inductive Family : Type :=
| StudyFamily | DicomFamily | ScanFamily
| ReportsFamily | WebhooksFamily | AllStudiesFamily.

(** The word before the token in the [Authorization] header. *)
Definition scheme (f : Family) : string :=
  match f with
  | StudyFamily | DicomFamily | ScanFamily => "Bearer"
  | ReportsFamily | WebhooksFamily | AllStudiesFamily => "Token"
  end.

(** One call of a function of [basic/]. *)
Inductive Call : Type :=
(* basic/study.py *)
| GetStudies (page page_size : option Z) (name uuid : option string)
| CreateStudy (age : Z) (name : option string) (height weight : option float)
              (sex : option string)
| GetStudy (uuid : string)
| UpdateStudy (uuid : string) (updates : list (string * value))
| DeleteStudy (uuid : string)
(* basic/dicom.py *)
| UploadDicom (study_uuid file_path : string)
| GetDicoms (study_uuid : option string) (page page_size : option Z)
| GetDicom (uuid : string)
| DownloadDicomFile (uuid filename output_path : string)
| DeleteDicom (uuid : string)
| IdempotentDicomUpload (file_path : string)
(* basic/scan.py *)
| CreateScan (study_uuid : string) (product : option string)
| GetScans (study_uuid : option string) (page page_size : option Z)
| GetScan (uuid : string)
| DeleteScan (uuid : string)
| WaitForScanCompletion (fuel : nat) (scan_uuid : string) (timeout poll_interval : Z)
| GetScanProgress (scan_uuid : string)
(* basic/reports.py *)
| GetReports (study_uuid scan_uuid : option string) (page page_size : option Z)
| GetReport (uuid : string)
| GetReportHtml (report_uuid : string)
| GetEchogptResponses
| GetEchogptResponse (uuid : string)
| CreateUserMeasurement
    (dicom_uuid measurement_key measurement_type keyframe_type : string)
    (measurement_metadata : value) (frame_index : option Z)
    (value : option float) (unit : option string) (extra_metadata : option Py.value)
| GetApiVersion
(* basic/webhooks.py *)
| CreateWebhook (url : string)
| GetWebhooks (page page_size : option Z)
| GetWebhook (uuid : string)
| UpdateWebhook (uuid url : string)
| DeleteWebhook (uuid : string)
(* basic/all_studies.py *)
| GetAllStudiesWithMeasurements
    (page page_size : option Z)
    (q name uuid created_at__gte created_at__lte scan_product scan_status
       user_email view_types diseases measurements : option string)
| GetStudyWithMeasurements (uuid : string)
| GetStudyMetrics
| GetFilterMetadata.

(** The module a function is defined in. *)
Definition family (c : Call) : Family :=
  match c with
  | GetStudies _ _ _ _ | CreateStudy _ _ _ _ _ | GetStudy _ | UpdateStudy _ _
  | DeleteStudy _ => StudyFamily
  | UploadDicom _ _ | GetDicoms _ _ _ | GetDicom _ | DownloadDicomFile _ _ _
  | DeleteDicom _ | IdempotentDicomUpload _ => DicomFamily
  | CreateScan _ _ | GetScans _ _ _ | GetScan _ | DeleteScan _
  | WaitForScanCompletion _ _ _ _ | GetScanProgress _ => ScanFamily
  | GetReports _ _ _ _ | GetReport _ | GetReportHtml _ | GetEchogptResponses
  | GetEchogptResponse _ | CreateUserMeasurement _ _ _ _ _ _ _ _ _
  | GetApiVersion => ReportsFamily
  | CreateWebhook _ | GetWebhooks _ _ | GetWebhook _ | UpdateWebhook _ _
  | DeleteWebhook _ => WebhooksFamily
  | GetAllStudiesWithMeasurements _ _ _ _ _ _ _ _ _ _ _ _ _
  | GetStudyWithMeasurements _ | GetStudyMetrics | GetFilterMetadata =>
      AllStudiesFamily
  end.

(** The world a call leaves behind. *)
Definition perform {rt : Runtime} (c : Call) (w : World) : World :=
  match c with
  | GetStudies page page_size name uuid =>
      snd (Study.get_studies page page_size name uuid w)
  | CreateStudy age name height weight sex =>
      snd (Study.create_study age name height weight sex w)
  | GetStudy uuid => snd (Study.get_study uuid w)
  | UpdateStudy uuid updates => snd (Study.update_study uuid updates w)
  | DeleteStudy uuid => snd (Study.delete_study uuid w)
  | UploadDicom study_uuid file_path =>
      snd (Dicom.upload_dicom study_uuid file_path w)
  | GetDicoms study_uuid page page_size =>
      snd (Dicom.get_dicoms study_uuid page page_size w)
  | GetDicom uuid => snd (Dicom.get_dicom uuid w)
  | DownloadDicomFile uuid filename output_path =>
      snd (Dicom.download_dicom_file uuid filename output_path w)
  | DeleteDicom uuid => snd (Dicom.delete_dicom uuid w)
  | IdempotentDicomUpload file_path =>
      snd (Dicom.idempotent_dicom_upload file_path w)
  | CreateScan study_uuid product => snd (create_scan study_uuid product w)
  | GetScans study_uuid page page_size =>
      snd (get_scans study_uuid page page_size w)
  | GetScan uuid => snd (get_scan uuid w)
  | DeleteScan uuid => snd (delete_scan uuid w)
  | WaitForScanCompletion fuel scan_uuid timeout poll_interval =>
      snd (wait_for_scan_completion fuel scan_uuid timeout poll_interval w)
  | GetScanProgress scan_uuid => snd (get_scan_progress scan_uuid w)
  | GetReports study_uuid scan_uuid page page_size =>
      snd (Reports.get_reports study_uuid scan_uuid page page_size w)
  | GetReport uuid => snd (Reports.get_report uuid w)
  | GetReportHtml report_uuid => snd (Reports.get_report_html report_uuid w)
  | GetEchogptResponses => snd (Reports.get_echogpt_responses w)
  | GetEchogptResponse uuid => snd (Reports.get_echogpt_response uuid w)
  | CreateUserMeasurement dicom_uuid measurement_key measurement_type
      keyframe_type measurement_metadata frame_index value unit extra_metadata =>
      snd (Reports.create_user_measurement dicom_uuid measurement_key
             measurement_type keyframe_type measurement_metadata frame_index
             value unit extra_metadata w)
  | GetApiVersion => snd (Reports.get_api_version w)
  | CreateWebhook url => snd (Webhooks.create_webhook url w)
  | GetWebhooks page page_size => snd (Webhooks.get_webhooks page page_size w)
  | GetWebhook uuid => snd (Webhooks.get_webhook uuid w)
  | UpdateWebhook uuid url => snd (Webhooks.update_webhook uuid url w)
  | DeleteWebhook uuid => snd (Webhooks.delete_webhook uuid w)
  | GetAllStudiesWithMeasurements page page_size q name uuid created_at__gte
      created_at__lte scan_product scan_status user_email view_types diseases
      measurements =>
      snd (AllStudies.get_all_studies_with_measurements page page_size q name
             uuid created_at__gte created_at__lte scan_product scan_status
             user_email view_types diseases measurements w)
  | GetStudyWithMeasurements uuid =>
      snd (AllStudies.get_study_with_measurements uuid w)
  | GetStudyMetrics => snd (AllStudies.get_study_metrics w)
  | GetFilterMetadata => snd (AllStudies.get_filter_metadata w)
  end.

(** The request carries [Authorization: <word> <token>]. *)
Definition authorized (word token : string) (r : Request) : Prop :=
  header "Authorization" (headers r) = Some (word ++ " " ++ token).

(** *** Two readings that the code does not bear out

    Both are stated for one run, so that they can be tested on a sample
    world. *)

(** The wait hands back the first terminal scan of the answers the remote
    has in store, whatever the timeout. *)
Definition returns_first_terminal_scan
    (uuid : string) (timeout poll_interval : Z) (w : World) : Prop :=
  forall (k : nat) (scan : value),
    (forall i, (i < k)%nat ->
       exists s, fetched w uuid (sent_count w + i) = Ok s
                 /\ has_pending_status s = true) ->
    fetched w uuid (sent_count w + k) = Ok scan ->
    has_terminal_status scan = true ->
    exists fuel w',
      wait_for_scan_completion fuel uuid timeout poll_interval w
      = (Some (Ok scan), w')
      /\ trace w' = (trace w
                      ++ polling_trace (fetch_request w uuid) poll_interval k)%list.

(** The wait gives up after [timeout / poll_interval + 1] fetches. *)
Definition gives_up_after_quotient_plus_one
    (uuid : string) (timeout poll_interval : Z) (w : World) : Prop :=
  exists fuel e w',
    wait_for_scan_completion fuel uuid timeout poll_interval w
    = (Some (Raise e), w')
    /\ sent_count w'
       = (sent_count w + (Z.to_nat (timeout / poll_interval) + 1))%nat.

(** *** Answers, errors and request bodies *)

(** What a function that sends [req] as request number [n], checks the
    status and decodes the JSON body gets. *)
Definition answered (w : World) (n : nat) (req : Request) : Result value :=
  match remote w n req with
  | None => Raise TransportError
  | Some resp =>
      if is_success resp then
        match json_body resp with
        | Some v => Ok v
        | None => Raise JSONDecodeError
        end
      else Raise (HTTPStatusError (status_code resp) (content resp))
  end.

(** The request [get_report uuid] sends in world [w]. *)
Definition report_request (w : World) (uuid : string) : Request :=
  mkRequest GET (str_opt (environ w "API") ++ "/api/v2/reports/" ++ uuid ++ "/")
            (json_headers "Token" (environ w "API_TOKEN")) None None None false.



(** A [DELETE] of [<base><path><uuid>/]. *)
Definition delete_request (w : World) (word path uuid : string) : Request :=
  mkRequest DELETE (str_opt (environ w "API") ++ path ++ uuid ++ "/")
            (json_headers word (environ w "API_TOKEN")) None None None false.

(** A [GET] of [<base><path>] with query parameters. *)
Definition list_request (w : World) (word path : string)
    (query : list (string * value)) : Request :=
  mkRequest GET (str_opt (environ w "API") ++ path)
            (json_headers word (environ w "API_TOKEN")) (Some query) None None
            false.

(** A [POST] of a JSON object to [<base><path>]. *)
Definition post_request (w : World) (word path : string)
    (body : list (string * value)) : Request :=
  mkRequest POST (str_opt (environ w "API") ++ path)
            (json_headers word (environ w "API_TOKEN")) None (Some (VDict body))
            None false.

(** A multipart [POST] to [<base><path>]: the only header is the
    authorization. *)
Definition upload_request (w : World) (path : string)
    (parts : list (string * FilePart)) : Request :=
  mkRequest POST (str_opt (environ w "API") ++ path)
            (auth_headers "Bearer" (environ w "API_TOKEN")) None None (Some parts)
            false.

(** The request of [download_dicom_file]. *)
Definition download_request (w : World) (uuid filename : string) : Request :=
  mkRequest GET
            (str_opt (environ w "API") ++ "/api/v2/dicoms/file/" ++ uuid ++ "/"
               ++ filename ++ "/")
            (auth_headers "Bearer" (environ w "API_TOKEN")) None None None true.

(** The entry a truthy optional argument contributes to a dict. *)
Definition opt_str (key : string) (x : option string) : list (string * value) :=
  match x with
  | Some s => if (s =? "")%string then [] else [(key, VStr s)]
  | None => []
  end.

Definition opt_int (key : string) (x : option Z) : list (string * value) :=
  match x with
  | Some n => if n =? 0 then [] else [(key, VInt n)]
  | None => []
  end.

Definition opt_float (key : string) (x : option float) : list (string * value) :=
  match x with
  | Some f => if PrimFloat.eqb f 0%float then [] else [(key, VFloat f)]
  | None => []
  end.

(** The entry an optional argument that is not [None] contributes. *)
Definition opt_some (key : string) (x : option value) : list (string * value) :=
  match x with
  | Some v => [(key, v)]
  | None => []
  end.

Definition exception_of {A} (r : Result A) : option exn :=
  match r with
  | Ok _ => None
  | Raise e => Some e
  end.

(** The exception a call ends with, if any. *)
Definition raised {rt : Runtime} (c : Call) (w : World) : option exn :=
  match c with
  | GetStudies page page_size name uuid =>
      exception_of (fst (Study.get_studies page page_size name uuid w))
  | CreateStudy age name height weight sex =>
      exception_of (fst (Study.create_study age name height weight sex w))
  | GetStudy uuid => exception_of (fst (Study.get_study uuid w))
  | UpdateStudy uuid updates =>
      exception_of (fst (Study.update_study uuid updates w))
  | DeleteStudy uuid => exception_of (fst (Study.delete_study uuid w))
  | UploadDicom study_uuid file_path =>
      exception_of (fst (Dicom.upload_dicom study_uuid file_path w))
  | GetDicoms study_uuid page page_size =>
      exception_of (fst (Dicom.get_dicoms study_uuid page page_size w))
  | GetDicom uuid => exception_of (fst (Dicom.get_dicom uuid w))
  | DownloadDicomFile uuid filename output_path =>
      exception_of (fst (Dicom.download_dicom_file uuid filename output_path w))
  | DeleteDicom uuid => exception_of (fst (Dicom.delete_dicom uuid w))
  | IdempotentDicomUpload file_path =>
      exception_of (fst (Dicom.idempotent_dicom_upload file_path w))
  | CreateScan study_uuid product =>
      exception_of (fst (create_scan study_uuid product w))
  | GetScans study_uuid page page_size =>
      exception_of (fst (get_scans study_uuid page page_size w))
  | GetScan uuid => exception_of (fst (get_scan uuid w))
  | DeleteScan uuid => exception_of (fst (delete_scan uuid w))
  | WaitForScanCompletion fuel scan_uuid timeout poll_interval =>
      match fst (wait_for_scan_completion fuel scan_uuid timeout poll_interval w) with
      | Some r => exception_of r
      | None => None
      end
  | GetScanProgress scan_uuid => exception_of (fst (get_scan_progress scan_uuid w))
  | GetReports study_uuid scan_uuid page page_size =>
      exception_of (fst (Reports.get_reports study_uuid scan_uuid page page_size w))
  | GetReport uuid => exception_of (fst (Reports.get_report uuid w))
  | GetReportHtml report_uuid =>
      exception_of (fst (Reports.get_report_html report_uuid w))
  | GetEchogptResponses => exception_of (fst (Reports.get_echogpt_responses w))
  | GetEchogptResponse uuid =>
      exception_of (fst (Reports.get_echogpt_response uuid w))
  | CreateUserMeasurement dicom_uuid measurement_key measurement_type
      keyframe_type measurement_metadata frame_index value unit extra_metadata =>
      exception_of
        (fst (Reports.create_user_measurement dicom_uuid measurement_key
                measurement_type keyframe_type measurement_metadata frame_index
                value unit extra_metadata w))
  | GetApiVersion => exception_of (fst (Reports.get_api_version w))
  | CreateWebhook url => exception_of (fst (Webhooks.create_webhook url w))
  | GetWebhooks page page_size =>
      exception_of (fst (Webhooks.get_webhooks page page_size w))
  | GetWebhook uuid => exception_of (fst (Webhooks.get_webhook uuid w))
  | UpdateWebhook uuid url => exception_of (fst (Webhooks.update_webhook uuid url w))
  | DeleteWebhook uuid => exception_of (fst (Webhooks.delete_webhook uuid w))
  | GetAllStudiesWithMeasurements page page_size q name uuid created_at__gte
      created_at__lte scan_product scan_status user_email view_types diseases
      measurements =>
      exception_of
        (fst (AllStudies.get_all_studies_with_measurements page page_size q name
                uuid created_at__gte created_at__lte scan_product scan_status
                user_email view_types diseases measurements w))
  | GetStudyWithMeasurements uuid =>
      exception_of (fst (AllStudies.get_study_with_measurements uuid w))
  | GetStudyMetrics => exception_of (fst (AllStudies.get_study_metrics w))
  | GetFilterMetadata => exception_of (fst (AllStudies.get_filter_metadata w))
  end.

(** What a call needs before it gets to its first request: the file of an
    upload can be opened, the loop has a turn to run. *)
Definition reaches_remote (c : Call) (w : World) : Prop :=
  match c with
  | UploadDicom _ file_path | IdempotentDicomUpload file_path =>
      fs w file_path <> None
  | WaitForScanCompletion fuel _ _ _ => fuel <> 0%nat
  | _ => True
  end.

(** A remote whose second answer is a 503, around PENDING answers. *)
Definition fails_on_second_fetch : World :=
  instant_world
    (fun n _ => if Nat.eqb n 1 then Some (mkResponse 503 "busy" None)
                else Some (mkResponse 200 "" (Some (sample_scan "PENDING" VNone)))).

(** A remote whose second answer is a scan without a status. *)
Definition loses_status_on_second_fetch : World :=
  instant_world
    (scripted [sample_scan "PENDING" VNone; VDict [("uuid", VStr "scan-1")]]
              (sample_scan "PENDING" VNone)).

(** A remote that answers every request with the same response. *)
Definition always_answers (resp : Response) : World :=
  instant_world (fun _ _ => Some resp).

(** The same remote, with a regular file named [path] on the disk. *)
Definition always_answers_with_file (resp : Response) (path bytes : string)
  : World :=
  mkWorld test_environ 0 (fun _ _ => Some resp) (fun _ => 0)
          (fun p => if (p =? path)%string then Some bytes else None) [].

(** *** Webhook deliveries *)

(** A computation that leaves the world alone and whose result does not
    depend on it. *)
Definition effect_free {A} (m : M A) : Prop :=
  exists r, forall w, m w = (r, w).

(** *** Standard output *)

(** The three lines the receiver prints before it parses. *)
Definition banner : list string :=
  ["\nReceived webhook notification!"; WebhookFlow.rule;
   "\n1. Parsing webhook payload..."].


(** The lines of the two [except] clauses. *)
Definition parse_failure_line {rt : Runtime} : string :=
  "❌ Failed to parse webhook payload: " ++ json_error_text.

Definition missing_field_line (key : string) : string :=
  "❌ Missing required field in webhook payload: " ++ WebhookFlow.str_key_error key.



(** Standard output takes each of these lines. *)
Definition printed_ok {rt : Runtime} (lines : list string) : Prop :=
  Forall (fun text => print_error text = None) lines.

(** Standard output takes every text. *)
Definition stdout_takes_all {rt : Runtime} : Prop :=
  forall text, print_error text = None.

(** What the [except] clauses make of the outcome of the [try] block. *)
Definition reraised {rt : Runtime} {A} (r : Result A) : Result A :=
  match r with
  | Raise JSONDecodeError =>
      match print_error parse_failure_line with
      | Some e => Raise e
      | None => Raise JSONDecodeError
      end
  | Raise (KeyError key) =>
      match print_error (missing_field_line key) with
      | Some e => Raise e
      | None => Raise (KeyError key)
      end
  | r => r
  end.

(** The outcome of the [try] block, after the [except] clauses. *)
Definition after_try {rt : Runtime} {A} (outcome : Result A * World)
  : Result A * World :=
  (reraised (fst outcome), snd outcome).







(** Whether every byte of the text is ASCII. *)
Fixpoint is_ascii (text : string) : bool :=
  match text with
  | EmptyString => true
  | String a rest => Nat.ltb (nat_of_ascii a) 128 && is_ascii rest
  end.

(** A runtime whose standard output is an ASCII stream, as under the C
    locale of older interpreters or a redirected Windows console. *)
Definition ascii_console : Runtime :=
  mkRuntime
    (fun text => find (fun v => (dumps v =? text)%string) sample_payloads)
    (fun bytes => Some bytes)
    (fun path => path)
    (fun dir name => dir ++ "/" ++ name)
    dumps
    (fun pairs => Ok (map snd pairs))
    (fun text => if is_ascii text then None else Some UnicodeEncodeError)
    "Expecting value: line 1 column 1 (char 0)"
    dirname
    file_in_the_way
    (fun files path => None)
    (fun path bytes => None).



(** [m] does what [fetch] does to the world and nothing more, and its
    result is a function of what the fetch gave. *)
Definition fetches_once {A} (m : M A) (fetch : M value) : Prop :=
  exists post : Result value -> Result A,
    forall w, m w = (post (fst (fetch w)), snd (fetch w)).

(** [m] leaves the world alone, or fetches one report, or fetches one
    scan. *)
Definition one_fetch_at_most {A} (m : M A) : Prop :=
  effect_free m
  \/ (exists u, fetches_once m (Reports.get_report u))
  \/ (exists u, fetches_once m (Scan.get_scan u)).

(** [v] is absent or is a JSON array. *)
Definition absent_or_list (v : option value) : Prop :=
  match v with
  | None => True
  | Some (VList _) => True
  | Some _ => False
  end.

(** [v] is absent or falsy. *)
Definition absent_or_falsy (v : option value) : bool :=
  match v with
  | None => true
  | Some x => negb (truthy x)
  end.

Definition payload_completed_with_report : value :=
  VDict [("scan_id", VStr "scan-1"); ("status", VStr "COMPLETED");
         ("report", VDict [("uuid", VStr "report-9");
                           ("measurements", VList [VStr "LVEF"])])].

Definition payload_failed : value :=
  VDict [("scan_id", VStr "scan-1"); ("status", VStr "FAILED")].

Definition delivery_runtime : Runtime :=
  runtime_reading [payload_completed_with_report; payload_failed].

Definition sample_report : value :=
  VDict [("uuid", VStr "report-9");
         ("version", VStr "2.1");
         ("study", VDict [("name", VStr "Jane Smith")])].



(** ** Lemmas: traces and single steps *)

Local Open Scope list_scope.

Lemma requests_app (t1 t2 : list Event) :
  requests (t1 ++ t2) = requests t1 ++ requests t2.
Proof.
  induction t1 as [|[r|s] t1 IH]; simpl; [reflexivity | f_equal; exact IH | exact IH].
Qed.

Lemma sleeps_app (t1 t2 : list Event) :
  sleeps (t1 ++ t2) = sleeps t1 ++ sleeps t2.
Proof.
  induction t1 as [|[r|s] t1 IH]; simpl; [reflexivity | exact IH | f_equal; exact IH].
Qed.

Lemma sent_count_after_fetch w req :
  sent_count (after_fetch w req) = S (sent_count w).
Proof.
  unfold sent_count, after_fetch; simpl.
  rewrite requests_app, length_app; simpl. lia.
Qed.

Lemma sent_count_after_turn w req p :
  sent_count (after_turn w req p) = S (sent_count w).
Proof.
  unfold sent_count, after_turn; simpl.
  rewrite !requests_app, !length_app; simpl. lia.
Qed.

Lemma requests_polling_trace req p k :
  requests (polling_trace req p k) = repeat req (S k).
Proof. induction k as [|k IH]; simpl; [reflexivity | f_equal; exact IH]. Qed.

Lemma sleeps_polling_trace req p k :
  sleeps (polling_trace req p k) = repeat p k.
Proof. induction k as [|k IH]; simpl; [reflexivity | f_equal; exact IH]. Qed.

Lemma polling_trace_last req p k :
  exists t, polling_trace req p k = t ++ [Sent req].
Proof.
  induction k as [|k [t IH]]; simpl.
  - exists []; reflexivity.
  - exists (Sent req :: Slept p :: t). rewrite IH. reflexivity.
Qed.

(** [get_scan] sends one request and hands back what was fetched. *)
Lemma get_scan_eq uuid w :
  get_scan uuid w
  = (fetched w uuid (sent_count w), after_fetch w (fetch_request w uuid)).
Proof.
  unfold get_scan, fetched, bind, os_getenv, httpx_get, httpx_request,
    raise_for_status, response_json, after_fetch, fetch_request; simpl.
  destruct (remote w (sent_count w) _) as [resp|]; [|reflexivity].
  destruct (is_success resp); simpl; [|reflexivity].
  destruct (json_body resp); reflexivity.
Qed.

(** One turn of the loop, case by case. *)
Lemma poll_once_eq uuid timeout p st w :
  poll_once uuid timeout p st w
  = let w1 := after_fetch w (fetch_request w uuid) in
    match fetched w uuid (sent_count w) with
    | Raise e => (Raise e, w1)
    | Ok scan =>
        match subscript scan "status" with
        | Raise e => (Raise e, w1)
        | Ok status =>
            if in_strs status ["COMPLETED"; "FAILED"] then (Ok (Some scan), w1)
            else if clock w1 - st >? timeout
                 then (Raise (TimeoutError (timeout_message uuid timeout)), w1)
                 else if p <? 0 then (Raise ValueError, w1)
                      else (Ok None, after_turn w (fetch_request w uuid) p)
        end
    end.
Proof.
  unfold poll_once, bind at 1. rewrite get_scan_eq.
  destruct (fetched w uuid (sent_count w)) as [scan|e]; [|reflexivity].
  unfold bind at 1, lift.
  destruct (subscript scan "status") as [status|e]; [|reflexivity].
  cbv zeta.
  destruct (in_strs status ["COMPLETED"; "FAILED"]); [reflexivity|].
  unfold bind at 1, time_time.
  destruct (clock (after_fetch w (fetch_request w uuid)) - st >? timeout);
    [reflexivity|].
  unfold bind, time_sleep, ret, after_turn, after_fetch; simpl.
  destruct (p <? 0); reflexivity.
Qed.

Lemma poll_once_terminal uuid timeout p st w scan :
  fetched w uuid (sent_count w) = Ok scan ->
  has_terminal_status scan = true ->
  poll_once uuid timeout p st w
  = (Ok (Some scan), after_fetch w (fetch_request w uuid)).
Proof.
  intros Hf Ht. rewrite poll_once_eq, Hf. cbv zeta.
  unfold has_terminal_status in Ht.
  destruct (subscript scan "status") as [status|e]; [|discriminate].
  rewrite Ht. reflexivity.
Qed.

Lemma poll_once_pending uuid timeout p st w scan :
  fetched w uuid (sent_count w) = Ok scan ->
  has_pending_status scan = true ->
  clock w + latency w (sent_count w) - st <= timeout ->
  0 <= p ->
  poll_once uuid timeout p st w
  = (Ok None, after_turn w (fetch_request w uuid) p).
Proof.
  intros Hf Hp Hc Hpos. rewrite poll_once_eq, Hf. cbv zeta.
  unfold has_pending_status in Hp.
  destruct (subscript scan "status") as [status|e]; [|discriminate].
  apply negb_true_iff in Hp. rewrite Hp.
  unfold after_fetch at 1; simpl.
  destruct (Z.gtb_spec (clock w + latency w (sent_count w) - st) timeout); [lia|].
  destruct (Z.ltb_spec p 0); [lia|reflexivity].
Qed.

Lemma poll_once_timeout uuid timeout p st w scan :
  fetched w uuid (sent_count w) = Ok scan ->
  has_pending_status scan = true ->
  timeout < clock w + latency w (sent_count w) - st ->
  poll_once uuid timeout p st w
  = (Raise (TimeoutError (timeout_message uuid timeout)),
     after_fetch w (fetch_request w uuid)).
Proof.
  intros Hf Hp Hc. rewrite poll_once_eq, Hf. cbv zeta.
  unfold has_pending_status in Hp.
  destruct (subscript scan "status") as [status|e]; [|discriminate].
  apply negb_true_iff in Hp. rewrite Hp.
  unfold after_fetch at 1; simpl.
  destruct (Z.gtb_spec (clock w + latency w (sent_count w) - st) timeout);
    [reflexivity|lia].
Qed.

(** ** Lemmas: the polling loop *)

(** The turns that fetch a pending scan before the deadline only move the
    world on: [k] of them followed by [fuel] more turns behave like [fuel]
    turns from the world reached. *)
Lemma poll_loop_skip uuid timeout p st :
  forall (k : nat) (w : World),
    (forall i, (i < k)%nat ->
       exists scan, fetched w uuid (sent_count w + i) = Ok scan
                    /\ has_pending_status scan = true) ->
    (forall i, (i < k)%nat -> clock w - st + elapsed_at w p i <= timeout) ->
    (k = 0%nat \/ 0 <= p) ->
    exists wk,
      (forall fuel, poll_loop (k + fuel) uuid timeout p st w
                    = poll_loop fuel uuid timeout p st wk)
      /\ environ wk = environ w /\ remote wk = remote w
      /\ latency wk = latency w
      /\ sent_count wk = (sent_count w + k)%nat
      /\ clock wk = clock w + spent (latency w) (sent_count w) p k
      /\ forall tail, trace wk ++ polling_trace (fetch_request w uuid) p tail
                      = trace w ++ polling_trace (fetch_request w uuid) p (k + tail).
Proof.
  induction k as [|k IH]; intros w Hpend Hdead Hp.
  - exists w. repeat split; simpl; try reflexivity; lia.
  - destruct Hp as [Hp|Hp]; [discriminate|].
    destruct (Hpend 0%nat ltac:(lia)) as (scan & Hf & Hs).
    rewrite Nat.add_0_r in Hf.
    pose proof (Hdead 0%nat ltac:(lia)) as Hd0.
    unfold elapsed_at in Hd0; simpl in Hd0. rewrite Nat.add_0_r in Hd0.
    set (w1 := after_turn w (fetch_request w uuid) p).
    assert (Hn1 : sent_count w1 = S (sent_count w))
      by apply sent_count_after_turn.
    destruct (IH w1) as (wk & Hrun & He & Hr & Hl & Hn & Hc & Ht).
    + intros i Hi. destruct (Hpend (S i) ltac:(lia)) as (s & Hfs & Hss).
      exists s. split; [|exact Hss].
      rewrite Hn1. replace (S (sent_count w) + i)%nat
        with (sent_count w + S i)%nat by lia.
      exact Hfs.
    + intros i Hi. pose proof (Hdead (S i) ltac:(lia)) as Hd.
      unfold elapsed_at in *. rewrite Hn1.
      replace (S (sent_count w) + i)%nat with (sent_count w + S i)%nat by lia.
      simpl in Hd. unfold w1 at 1 2 3; simpl. lia.
    + right; exact Hp.
    + exists wk. repeat split.
      * intros fuel. simpl.
        rewrite (poll_once_pending uuid timeout p st w scan Hf Hs) by lia.
        apply Hrun.
      * exact He.
      * exact Hr.
      * exact Hl.
      * rewrite Hn, Hn1. lia.
      * rewrite Hc, Hn1. unfold w1; simpl. lia.
      * intros tail. rewrite Ht. unfold w1; simpl.
        rewrite <- !app_assoc. reflexivity.
Qed.

(** More fuel does not change an outcome that was reached. *)
Lemma poll_loop_more_fuel uuid timeout p st :
  forall fuel w r w',
    poll_loop fuel uuid timeout p st w = (Some r, w') ->
    forall extra, poll_loop (fuel + extra) uuid timeout p st w = (Some r, w').
Proof.
  induction fuel as [|fuel IH]; intros w r w' H extra; simpl in *.
  - discriminate.
  - destruct (poll_once uuid timeout p st w) as [[[scan|]|e] w1]; auto.
Qed.

Lemma wait_more_fuel uuid timeout p fuel w r w' :
  wait_for_scan_completion fuel uuid timeout p w = (Some r, w') ->
  forall fuel', (fuel <= fuel')%nat ->
    wait_for_scan_completion fuel' uuid timeout p w = (Some r, w').
Proof.
  unfold wait_for_scan_completion, time_time. intros H fuel' Hle.
  replace fuel' with (fuel + (fuel' - fuel))%nat by lia.
  now apply poll_loop_more_fuel.
Qed.

(** With requests that take no time, [k] turns use up [k] poll intervals. *)
Lemma spent_instant lat p :
  forall k n0, (forall i, lat (n0 + i)%nat = 0) ->
    spent lat n0 p k = Z.of_nat k * p.
Proof.
  induction k as [|k IH]; intros n0 H.
  - reflexivity.
  - cbn [spent]. rewrite IH.
    + specialize (H 0%nat). rewrite Nat.add_0_r in H. lia.
    + intros i. replace (S n0 + i)%nat with (n0 + S i)%nat by lia. apply H.
Qed.

(** The two ways a turn can end: after the fetch (a return or an
    exception, and a [TimeoutError] carries the message of the loop), or
    after the sleep. *)
Lemma poll_once_cases uuid timeout p st w r w1 :
  poll_once uuid timeout p st w = (r, w1) ->
  (w1 = after_fetch w (fetch_request w uuid)
   /\ r <> Ok None
   /\ forall m, r = Raise (TimeoutError m) -> m = timeout_message uuid timeout)
  \/ (r = Ok None /\ w1 = after_turn w (fetch_request w uuid) p).
Proof.
  rewrite poll_once_eq. cbv zeta. unfold fetched.
  destruct (remote w (sent_count w) _) as [resp|].
  2:{ intros H; inversion H; subst. left.
      repeat split; [discriminate | intros m E; discriminate]. }
  destruct (is_success resp).
  2:{ intros H; inversion H; subst. left.
      repeat split; [discriminate | intros m E; discriminate]. }
  destruct (json_body resp) as [scan|].
  2:{ intros H; inversion H; subst. left.
      repeat split; [discriminate | intros m E; discriminate]. }
  destruct (subscript scan "status") as [status|e] eqn:Es.
  2:{ intros H; inversion H; subst. left.
      repeat split; [discriminate|].
      intros m E. unfold subscript in Es.
      destruct scan; try (inversion Es; subst; discriminate).
      destruct (dict_get fields "status"); inversion Es; subst; discriminate. }
  destruct (in_strs status _).
  { intros H; inversion H; subst. left.
    repeat split; [discriminate | intros m E; discriminate]. }
  destruct (_ >? timeout).
  { intros H; inversion H; subst. left.
    repeat split; [discriminate | intros m E; now inversion E]. }
  destruct (p <? 0).
  { intros H; inversion H; subst. left.
    repeat split; [discriminate | intros m E; discriminate]. }
  intros H; inversion H; subst. right. split; reflexivity.
Qed.

(** Whatever the loop does, it only adds fetches and sleeps to the trace;
    and a [TimeoutError] comes after at least one request and carries the
    message of the loop. *)
Lemma poll_loop_trace uuid timeout p st :
  forall fuel w r w',
    poll_loop fuel uuid timeout p st w = (r, w') ->
    exists evs, trace w' = trace w ++ evs
      /\ environ w' = environ w
      /\ Forall (fun r => r = fetch_request w uuid) (requests evs)
      /\ forall m, r = Some (Raise (TimeoutError m)) ->
           (1 <= List.length (requests evs))%nat
           /\ m = timeout_message uuid timeout.
Proof.
  induction fuel as [|fuel IH]; intros w r w' H; simpl in H.
  - inversion H; subst. exists []. rewrite app_nil_r.
    repeat split; [constructor | discriminate | discriminate].
  - destruct (poll_once uuid timeout p st w) as [r1 w1] eqn:E.
    apply poll_once_cases in E.
    destruct E as [(-> & Hne & Hm) | (-> & ->)].
    + exists [Sent (fetch_request w uuid)].
      assert (Hw : w' = after_fetch w (fetch_request w uuid))
        by (destruct r1 as [[scan|]|e]; congruence).
      subst w'. simpl. split; [reflexivity|]. split; [reflexivity|].
      split; [repeat constructor|].
      intros m E. split; [lia|]. apply Hm.
      destruct r1 as [[scan|]|e]; congruence.
    + apply IH in H. destruct H as (evs & Ht & He & Hr & Hm).
      exists (Sent (fetch_request w uuid) :: Slept p :: evs).
      repeat split.
      * rewrite Ht. simpl. now rewrite <- !app_assoc.
      * rewrite He. reflexivity.
      * simpl. constructor; [reflexivity | exact Hr].
      * simpl. lia.
      * now apply Hm.
Qed.

Lemma fetched_same w w2 uuid n :
  environ w2 = environ w -> remote w2 = remote w ->
  fetched w2 uuid n = fetched w uuid n.
Proof. unfold fetched, fetch_request. intros -> ->. reflexivity. Qed.

Lemma fetch_request_same w w2 uuid :
  environ w2 = environ w -> fetch_request w2 uuid = fetch_request w uuid.
Proof. unfold fetch_request. intros ->. reflexivity. Qed.

(** [k] pending fetches inside the deadline, then a terminal one: the wait
    returns that scan, and the trace is [k] turns and the last fetch. *)
Lemma wait_returns uuid timeout p w k scan :
  (forall i, (i < k)%nat ->
     exists s, fetched w uuid (sent_count w + i) = Ok s
               /\ has_pending_status s = true) ->
  fetched w uuid (sent_count w + k) = Ok scan ->
  has_terminal_status scan = true ->
  (k = 0%nat \/ 0 <= p) ->
  (forall i, (i < k)%nat -> elapsed_at w p i <= timeout) ->
  forall fuel, (k < fuel)%nat ->
  exists w',
    wait_for_scan_completion fuel uuid timeout p w = (Some (Ok scan), w')
    /\ trace w' = trace w ++ polling_trace (fetch_request w uuid) p k.
Proof.
  intros Hpend Hf Ht Hp Hdead fuel Hfuel.
  unfold wait_for_scan_completion, time_time.
  destruct (poll_loop_skip uuid timeout p (clock w) k w Hpend)
    as (wk & Hrun & He & Hr & Hl & Hn & Hc & Htr);
    [intros i Hi; specialize (Hdead i Hi); lia | exact Hp |].
  replace fuel with (k + S (fuel - k - 1))%nat by lia.
  rewrite Hrun. cbn [poll_loop].
  rewrite (poll_once_terminal uuid timeout p (clock w) wk scan);
    [| rewrite Hn, (fetched_same w wk) by assumption; exact Hf | exact Ht].
  eexists; split; [reflexivity|].
  specialize (Htr 0%nat). rewrite Nat.add_0_r in Htr. rewrite <- Htr.
  unfold after_fetch; simpl. now rewrite (fetch_request_same w wk).
Qed.

(** [k] pending fetches inside the deadline, then a pending fetch that
    comes back past the deadline: the wait raises, and the trace is again
    [k] turns and the last fetch. *)
Lemma wait_times_out uuid timeout p w k :
  (forall i, (i < S k)%nat ->
     exists s, fetched w uuid (sent_count w + i) = Ok s
               /\ has_pending_status s = true) ->
  (k = 0%nat \/ 0 <= p) ->
  (forall i, (i < k)%nat -> elapsed_at w p i <= timeout) ->
  timeout < elapsed_at w p k ->
  forall fuel, (k < fuel)%nat ->
  exists w',
    wait_for_scan_completion fuel uuid timeout p w
    = (Some (Raise (TimeoutError (timeout_message uuid timeout))), w')
    /\ trace w' = trace w ++ polling_trace (fetch_request w uuid) p k
    /\ sent_count w' = (sent_count w + S k)%nat.
Proof.
  intros Hpend Hp Hdead Hlate fuel Hfuel.
  unfold wait_for_scan_completion, time_time.
  destruct (poll_loop_skip uuid timeout p (clock w) k w)
    as (wk & Hrun & He & Hr & Hl & Hn & Hc & Htr);
    [intros i Hi; apply Hpend; lia
    | intros i Hi; specialize (Hdead i Hi); lia | exact Hp |].
  destruct (Hpend k ltac:(lia)) as (s & Hfs & Hss).
  replace fuel with (k + S (fuel - k - 1))%nat by lia.
  rewrite Hrun. cbn [poll_loop].
  rewrite (poll_once_timeout uuid timeout p (clock w) wk s);
    [| rewrite Hn, (fetched_same w wk) by assumption; exact Hfs | exact Hss
     | rewrite Hc, Hl, Hn; unfold elapsed_at in Hlate; lia].
  eexists; split; [reflexivity|]. split.
  - specialize (Htr 0%nat). rewrite Nat.add_0_r in Htr. rewrite <- Htr.
    unfold after_fetch; simpl. now rewrite (fetch_request_same w wk).
  - rewrite sent_count_after_fetch, Hn. lia.
Qed.

(** With instant requests the check after fetch number [i] sees [i] poll
    intervals. *)
Lemma elapsed_at_instant w p i :
  (forall j, latency w (sent_count w + j)%nat = 0) ->
  elapsed_at w p i = Z.of_nat i * p.
Proof.
  intros H. unfold elapsed_at. rewrite spent_instant by exact H.
  rewrite H. lia.
Qed.

(** Instant requests, sleeps of exactly [p] > 0 seconds, a scan that stays
    pending: the wait raises after [timeout / p + 2] fetches. *)
Lemma wait_instant_fetch_count uuid timeout p w :
  always_pending w uuid ->
  (forall j, latency w (sent_count w + j)%nat = 0) ->
  0 <= timeout -> 0 < p ->
  forall fuel, (Z.to_nat (timeout / p) + 2 <= fuel)%nat ->
  exists w',
    wait_for_scan_completion fuel uuid timeout p w
    = (Some (Raise (TimeoutError (timeout_message uuid timeout))), w')
    /\ trace w' = trace w ++ polling_trace (fetch_request w uuid) p
                                           (Z.to_nat (timeout / p) + 1)
    /\ sent_count w' = (sent_count w + (Z.to_nat (timeout / p) + 2))%nat.
Proof.
  intros Hpend Hlat HT Hp fuel Hfuel.
  pose proof (Z.div_pos timeout p HT Hp) as Hq.
  pose proof (Z.mul_div_le timeout p Hp) as Hlo.
  pose proof (Z.mul_succ_div_gt timeout p Hp) as Hhi.
  destruct (wait_times_out uuid timeout p w (Z.to_nat (timeout / p) + 1))
    with (fuel := fuel) as (w' & Hrun & Htr & Hn).
  - intros i _. apply Hpend.
  - right; lia.
  - intros i Hi. rewrite elapsed_at_instant by exact Hlat. nia.
  - rewrite elapsed_at_instant by exact Hlat. nia.
  - lia.
  - exists w'. repeat split; [exact Hrun | exact Htr | rewrite Hn; lia].
Qed.

Lemma always_pending_after_turn w uuid p :
  always_pending w uuid ->
  always_pending (after_turn w (fetch_request w uuid) p) uuid.
Proof.
  intros H i. destruct (H (S i)) as (s & Hf & Hs). exists s.
  split; [|exact Hs].
  rewrite sent_count_after_turn.
  rewrite (fetched_same w) by reflexivity.
  replace (S (sent_count w) + i)%nat with (sent_count w + S i)%nat by lia.
  exact Hf.
Qed.

(** A scan that stays pending, a clock that moves on (requests take no
    negative time, sleeps last [p] > 0): the loop ends, with the
    [TimeoutError]. *)
Lemma poll_loop_gives_up uuid timeout p st :
  0 < p ->
  forall (bound : nat) (w : World),
    (Z.to_nat (timeout - (clock w - st) + 1) <= bound)%nat ->
    (forall n, 0 <= latency w n) ->
    always_pending w uuid ->
    exists fuel w',
      poll_loop fuel uuid timeout p st w
      = (Some (Raise (TimeoutError (timeout_message uuid timeout))), w').
Proof.
  intros Hp. induction bound as [|bound IH]; intros w Hb Hlat Hpend;
    destruct (Hpend 0%nat) as (s & Hf & Hs); rewrite Nat.add_0_r in Hf;
    pose proof (Hlat (sent_count w)) as Hl0.
  - exists 1%nat. eexists. cbn [poll_loop].
    rewrite (poll_once_timeout uuid timeout p st w s Hf Hs) by lia.
    reflexivity.
  - destruct (Z_lt_le_dec timeout (clock w + latency w (sent_count w) - st))
      as [Hlate|Hok].
    + exists 1%nat. eexists. cbn [poll_loop].
      rewrite (poll_once_timeout uuid timeout p st w s Hf Hs Hlate).
      reflexivity.
    + destruct (IH (after_turn w (fetch_request w uuid) p))
        as (fuel & w' & Hrun).
      * unfold after_turn; simpl. lia.
      * exact Hlat.
      * now apply always_pending_after_turn.
      * exists (S fuel), w'. cbn [poll_loop].
        rewrite (poll_once_pending uuid timeout p st w s Hf Hs Hok) by lia.
        exact Hrun.
Qed.

(** A scan that stays pending and sleeps that can be taken: whatever way
    the loop ends, it is the [TimeoutError]. *)
Lemma poll_loop_only_gives_up uuid timeout p st :
  0 <= p ->
  forall fuel w r w',
    always_pending w uuid ->
    poll_loop fuel uuid timeout p st w = (Some r, w') ->
    r = Raise (TimeoutError (timeout_message uuid timeout)).
Proof.
  intros Hp. induction fuel as [|fuel IH]; intros w r w' Hpend H;
    cbn [poll_loop] in H; [discriminate|].
  destruct (Hpend 0%nat) as (s & Hf & Hs). rewrite Nat.add_0_r in Hf.
  destruct (Z_lt_le_dec timeout (clock w + latency w (sent_count w) - st))
    as [Hlate|Hok].
  - rewrite (poll_once_timeout uuid timeout p st w s Hf Hs Hlate) in H.
    congruence.
  - rewrite (poll_once_pending uuid timeout p st w s Hf Hs Hok Hp) in H.
    apply IH in H; [exact H | now apply always_pending_after_turn].
Qed.

Lemma str_app_assoc (a b c : string) :
  ((a ++ b) ++ c = a ++ (b ++ c))%string.
Proof. induction a as [|ch a IH]; simpl; [reflexivity | now rewrite IH]. Qed.

Lemma occurs_intro (before sub after : string) :
  occurs sub (before ++ sub ++ after)%string.
Proof. exists before, after. reflexivity. Qed.

Lemma pending_forever_always_pending uuid :
  always_pending pending_forever uuid.
Proof.
  intros i. exists (sample_scan "PENDING" VNone). split; [|reflexivity].
  unfold fetched, pending_forever, instant_world, scripted; simpl.
  destruct i; reflexivity.
Qed.

(** ** wait_for_scan_completion *)

(** C1, amended.  For every scan id, timeout and poll interval that can be
    slept ([0 <= p]): if the answers of the remote to the successive
    fetches show a terminal status (COMPLETED or FAILED) for the first
    time at fetch number [k], and every earlier fetch comes back with at
    most [timeout] seconds elapsed since the start, then
    [wait_for_scan_completion] returns the scan of that fetch; it sends
    [k + 1] fetches with one sleep of the poll interval between two
    consecutive ones and none after the last.  A terminal status on the
    initial fetch returns with no sleep at all, for every timeout and poll
    interval.  The answers PENDING, STARTED, COMPLETED with timeout 30 and
    poll interval 5 return the COMPLETED scan after 3 fetches and 2
    sleeps. *)
Theorem wait_returns_first_terminal_before_deadline :
  (forall (uuid : string) (timeout p : Z) (w : World) (k : nat) (scan : value),
      (forall i, (i < k)%nat ->
         exists s, fetched w uuid (sent_count w + i) = Ok s
                   /\ has_pending_status s = true) ->
      fetched w uuid (sent_count w + k) = Ok scan ->
      has_terminal_status scan = true ->
      0 <= p ->
      (forall i, (i < k)%nat -> elapsed_at w p i <= timeout) ->
      forall fuel, (k < fuel)%nat ->
      exists w',
        wait_for_scan_completion fuel uuid timeout p w = (Some (Ok scan), w')
        /\ trace w' = trace w ++ polling_trace (fetch_request w uuid) p k
        /\ sent_count w' = (sent_count w + (k + 1))%nat
        /\ sleeps (trace w') = sleeps (trace w) ++ repeat p k
        /\ exists t, trace w' = t ++ [Sent (fetch_request w uuid)])
  /\ (forall (uuid : string) (timeout p : Z) (w : World) (scan : value),
        fetched w uuid (sent_count w) = Ok scan ->
        has_terminal_status scan = true ->
        forall fuel, (0 < fuel)%nat ->
        exists w',
          wait_for_scan_completion fuel uuid timeout p w = (Some (Ok scan), w')
          /\ trace w' = trace w ++ [Sent (fetch_request w uuid)]
          /\ sleeps (trace w') = sleeps (trace w))
  /\ (exists w',
        wait_for_scan_completion 3 "scan-1" 30 5 completes_on_third_fetch
        = (Some (Ok (sample_scan "COMPLETED" (VStr "report-9"))), w')
        /\ List.length (requests (trace w')) = 3%nat
        /\ sleeps (trace w') = [5; 5]).
Proof.
  split; [|split].
  - intros uuid timeout p w k scan Hpend Hf Ht Hp Hdead fuel Hfuel.
    destruct (wait_returns uuid timeout p w k scan Hpend Hf Ht
                (or_intror Hp) Hdead fuel Hfuel) as (w' & Hrun & Htr).
    exists w'. split; [exact Hrun|]. split; [exact Htr|]. split; [|split].
    + unfold sent_count. rewrite Htr, requests_app, length_app,
        requests_polling_trace, repeat_length. lia.
    + rewrite Htr, sleeps_app, sleeps_polling_trace. reflexivity.
    + destruct (polling_trace_last (fetch_request w uuid) p k) as (t & Ht').
      exists (trace w ++ t). rewrite Htr, Ht', app_assoc. reflexivity.
  - intros uuid timeout p w scan Hf Ht fuel Hfuel.
    destruct (wait_returns uuid timeout p w 0 scan) with (fuel := fuel)
      as (w' & Hrun & Htr); try assumption.
    + intros i Hi; lia.
    + now rewrite Nat.add_0_r.
    + left; reflexivity.
    + intros i Hi; lia.
    + exists w'. split; [exact Hrun|]. split; [exact Htr|].
      rewrite Htr, sleeps_app. simpl. now rewrite app_nil_r.
  - eexists. split; [vm_compute; reflexivity|]. split; reflexivity.
Qed.

(** The general part of the statement, run on the sample answers PENDING,
    STARTED, COMPLETED. *)
Lemma wait_returns_first_terminal_before_deadline_witness :
  exists w',
    wait_for_scan_completion 3 "scan-1" 30 5 completes_on_third_fetch
    = (Some (Ok (sample_scan "COMPLETED" (VStr "report-9"))), w')
    /\ trace w'
       = trace completes_on_third_fetch
         ++ polling_trace (fetch_request completes_on_third_fetch "scan-1") 5 2.
Proof.
  destruct wait_returns_first_terminal_before_deadline as [H _].
  destruct (H "scan-1" 30 5 completes_on_third_fetch 2%nat
              (sample_scan "COMPLETED" (VStr "report-9")))
    with (fuel := 3%nat) as (w' & Hrun & Htr & _).
  - intros i Hi.
    destruct i as [|[|i]]; [| |lia]; eexists; split; vm_compute; reflexivity.
  - vm_compute; reflexivity.
  - reflexivity.
  - lia.
  - intros i Hi. destruct i as [|[|i]]; [| |lia]; vm_compute; discriminate.
  - lia.
  - exists w'. split; [exact Hrun | exact Htr].
Defined.

(** With timeout 3 and poll interval 5 the second check already sees
    5 > 3 seconds: the COMPLETED answer that the third fetch would get is
    never fetched. *)
Lemma wait_gives_up_before_terminal_answer :
  ~ returns_first_terminal_scan "scan-1" 3 5 completes_on_third_fetch.
Proof.
  intros H.
  destruct (H 2%nat (sample_scan "COMPLETED" (VStr "report-9")))
    as (fuel & w' & Hrun & _).
  - intros i Hi.
    destruct i as [|[|i]]; [| |lia]; eexists; split; vm_compute; reflexivity.
  - vm_compute; reflexivity.
  - reflexivity.
  - assert (Hcode : exists w2,
      wait_for_scan_completion 2 "scan-1" 3 5 completes_on_third_fetch
      = (Some (Raise (TimeoutError "Scan scan-1 did not complete within 3 seconds")),
         w2))
      by (eexists; vm_compute; reflexivity).
    destruct Hcode as (w2 & Hcode).
    pose proof (wait_more_fuel _ _ _ _ _ _ _ Hrun (Nat.max fuel 2)
                  (Nat.le_max_l _ _)) as H1.
    pose proof (wait_more_fuel _ _ _ _ _ _ _ Hcode (Nat.max fuel 2)
                  (Nat.le_max_r _ _)) as H2.
    rewrite H1 in H2. discriminate.
Qed.

(** The check after fetch number [i] sees [i] poll intervals and the time
    of [i + 1] requests. *)
Lemma request_time_snoc lat n0 k :
  request_time lat n0 (S k) = request_time lat n0 k + lat (n0 + k)%nat.
Proof.
  revert n0. induction k as [|k IH]; intros n0.
  - simpl. rewrite Nat.add_0_r. lia.
  - change (request_time lat n0 (S (S k)))
      with (lat n0 + request_time lat (S n0) (S k)).
    rewrite IH. simpl. replace (S (n0 + k)) with (n0 + S k)%nat by lia. lia.
Qed.

Lemma spent_request_time lat n0 p k :
  spent lat n0 p k = Z.of_nat k * p + request_time lat n0 k.
Proof.
  revert n0. induction k as [|k IH]; intros n0.
  - reflexivity.
  - change (spent lat n0 p (S k)) with (lat n0 + p + spent lat (S n0) p k).
    change (request_time lat n0 (S k)) with (lat n0 + request_time lat (S n0) k).
    rewrite IH. lia.
Qed.

Lemma elapsed_at_busy w p i :
  elapsed_at w p i = Z.of_nat i * p + busy w (S i).
Proof.
  unfold elapsed_at, busy. rewrite spent_request_time, request_time_snoc. lia.
Qed.

Lemma busy_mono w i k :
  (forall j, 0 <= latency w (sent_count w + j)%nat) ->
  (i <= k)%nat -> busy w i <= busy w k.
Proof.
  intros Hlat Hik. induction Hik as [|k Hik IH]; [lia|].
  unfold busy in *. rewrite request_time_snoc.
  specialize (Hlat k). lia.
Qed.

Lemma pending_forever_slow_always_pending uuid :
  always_pending pending_forever_slow uuid.
Proof.
  intros i. exists (sample_scan "PENDING" VNone). split; [|reflexivity].
  unfold fetched, pending_forever_slow, scripted; simpl.
  destruct i; reflexivity.
Qed.

(** C2, amended.  When every fetch shows a non-terminal status, no request
    takes negative time, every sleep lasts exactly the poll interval
    [p > 0] and [0 <= timeout], write [q] for [floor(timeout / p)].  The
    check is made after the fetch and is strict, so fetch number [q + 1]
    is the last one exactly when it comes back later than [timeout], that
    is when the [q + 1] fetches have taken more than [timeout mod p]
    together (and at most [p], so that none of the earlier checks fails);
    otherwise the wait goes on to fetch number [q + 2] and raises there.
    With requests that take no time at all the count is [q + 2]; with
    requests that take a little time it is [q + 1] when [timeout] is a
    multiple of [p] and [q + 2] as soon as the rest of the division is
    more than the requests take. *)
Theorem wait_gives_up_after_quotient_plus_one_or_two_fetches
    (uuid : string) (timeout p : Z) (w : World) :
  always_pending w uuid ->
  (forall j, 0 <= latency w (sent_count w + j)%nat) ->
  0 <= timeout -> 0 < p ->
  busy w (S (Z.to_nat (timeout / p))) <= p ->
  let n := fetches_before_giving_up w timeout p in
  forall fuel, (n <= fuel)%nat ->
  exists w',
    wait_for_scan_completion fuel uuid timeout p w
    = (Some (Raise (TimeoutError (timeout_message uuid timeout))), w')
    /\ sent_count w' = (sent_count w + n)%nat
    /\ sleeps (trace w') = sleeps (trace w) ++ repeat p (n - 1)
    /\ (n = (Z.to_nat (timeout / p) + 1)%nat
        <-> timeout mod p < busy w (S (Z.to_nat (timeout / p))))
    /\ (n = (Z.to_nat (timeout / p) + 2)%nat
        <-> busy w (S (Z.to_nat (timeout / p))) <= timeout mod p).
Proof.
  intros Hpend Hlat HT Hp Hbusy n fuel Hfuel.
  pose proof (Z.div_pos timeout p HT Hp) as Hq.
  pose proof (Z.div_mod timeout p ltac:(lia)) as Hdm.
  pose proof (Z.mod_pos_bound timeout p Hp) as Hmod.
  set (q := Z.to_nat (timeout / p)) in *.
  assert (Hqz : Z.of_nat q = timeout / p) by (unfold q; lia).
  assert (Hn : (timeout mod p < busy w (S q) /\ n = (q + 1)%nat)
               \/ (busy w (S q) <= timeout mod p /\ n = (q + 2)%nat)).
  { unfold n, fetches_before_giving_up. fold q.
    destruct (Z.ltb_spec (timeout mod p) (busy w (S q))); [left | right];
      split; (lia || reflexivity). }
  assert (Hrun : exists w',
    wait_for_scan_completion fuel uuid timeout p w
    = (Some (Raise (TimeoutError (timeout_message uuid timeout))), w')
    /\ trace w' = trace w ++ polling_trace (fetch_request w uuid) p (n - 1)
    /\ sent_count w' = (sent_count w + n)%nat).
  { destruct Hn as [[Hlt En] | [Hle En]].
    - destruct (wait_times_out uuid timeout p w q) with (fuel := fuel)
        as (w' & Hrun & Htr & Hc).
      + intros i _. apply Hpend.
      + right; lia.
      + intros i Hi. rewrite elapsed_at_busy.
        pose proof (busy_mono w (S i) (S q) Hlat ltac:(lia)). nia.
      + rewrite elapsed_at_busy. nia.
      + lia.
      + exists w'. split; [exact Hrun|]. rewrite En.
        replace (q + 1 - 1)%nat with q by lia.
        split; [exact Htr | rewrite Hc; f_equal; lia].
    - destruct (wait_times_out uuid timeout p w (S q)) with (fuel := fuel)
        as (w' & Hrun & Htr & Hc).
      + intros i _. apply Hpend.
      + right; lia.
      + intros i Hi. rewrite elapsed_at_busy.
        pose proof (busy_mono w (S i) (S q) Hlat ltac:(lia)). nia.
      + rewrite elapsed_at_busy.
        pose proof (busy_mono w 0 (S (S q)) Hlat ltac:(lia)) as H0.
        change (busy w 0) with 0 in H0. nia.
      + lia.
      + exists w'. split; [exact Hrun|]. rewrite En.
        replace (q + 2 - 1)%nat with (S q) by lia.
        split; [exact Htr | rewrite Hc; f_equal; lia]. }
  destruct Hrun as (w' & Hrun & Htr & Hc).
  exists w'. split; [exact Hrun|]. split; [exact Hc|]. split.
  - rewrite Htr, sleeps_app, sleeps_polling_trace. reflexivity.
  - destruct Hn as [[Hlt En] | [Hle En]]; split; split; intros; lia.
Qed.

Lemma wait_gives_up_after_quotient_plus_one_or_two_fetches_witness :
  (exists w',
     wait_for_scan_completion 4 "scan-1" 12 5 pending_forever
     = (Some (Raise (TimeoutError (timeout_message "scan-1" 12))), w')
     /\ sent_count w' = 4%nat)
  /\ (exists w',
        wait_for_scan_completion 3 "scan-1" 10000 5000 pending_forever_slow
        = (Some (Raise (TimeoutError (timeout_message "scan-1" 10000))), w')
        /\ sent_count w' = 3%nat)
  /\ (exists w',
        wait_for_scan_completion 4 "scan-1" 12000 5000 pending_forever_slow
        = (Some (Raise (TimeoutError (timeout_message "scan-1" 12000))), w')
        /\ sent_count w' = 4%nat).
Proof.
  split; [|split].
  - destruct (wait_gives_up_after_quotient_plus_one_or_two_fetches
                "scan-1" 12 5 pending_forever) with (fuel := 4%nat)
      as (w' & Hrun & Hn & _).
    + apply pending_forever_always_pending.
    + intros j. vm_compute. discriminate.
    + lia.
    + lia.
    + vm_compute. discriminate.
    + vm_compute. lia.
    + exists w'. split; [exact Hrun | exact Hn].
  - destruct (wait_gives_up_after_quotient_plus_one_or_two_fetches
                "scan-1" 10000 5000 pending_forever_slow) with (fuel := 3%nat)
      as (w' & Hrun & Hn & _).
    + apply pending_forever_slow_always_pending.
    + intros j. vm_compute. discriminate.
    + lia.
    + lia.
    + vm_compute. discriminate.
    + vm_compute. lia.
    + exists w'. split; [exact Hrun | exact Hn].
  - destruct (wait_gives_up_after_quotient_plus_one_or_two_fetches
                "scan-1" 12000 5000 pending_forever_slow) with (fuel := 4%nat)
      as (w' & Hrun & Hn & _).
    + apply pending_forever_slow_always_pending.
    + intros j. vm_compute. discriminate.
    + lia.
    + lia.
    + vm_compute. discriminate.
    + vm_compute. lia.
    + exists w'. split; [exact Hrun | exact Hn].
Defined.

(** Timeout 12, poll interval 5, a scan that stays PENDING, requests that
    take no time: the checks see 0, 5, 10 and 15 seconds, so the wait
    gives up after the fourth fetch, not after floor(12 / 5) + 1 = 3. *)
Lemma wait_does_not_give_up_after_quotient_plus_one :
  always_pending pending_forever "scan-1"
  /\ (forall j, latency pending_forever (sent_count pending_forever + j)%nat = 0)
  /\ ~ gives_up_after_quotient_plus_one "scan-1" 12 5 pending_forever.
Proof.
  split; [apply pending_forever_always_pending|].
  split; [intros j; reflexivity|].
  intros (fuel & e & w' & Hrun & Hn).
  assert (Hcode : exists w4,
    wait_for_scan_completion 4 "scan-1" 12 5 pending_forever
    = (Some (Raise (TimeoutError (timeout_message "scan-1" 12))), w4)
    /\ sent_count w4 = 4%nat)
    by (eexists; split; vm_compute; reflexivity).
  destruct Hcode as (w4 & Hcode & H4).
  pose proof (wait_more_fuel _ _ _ _ _ _ _ Hrun (Nat.max fuel 4)
                (Nat.le_max_l _ _)) as H1.
  pose proof (wait_more_fuel _ _ _ _ _ _ _ Hcode (Nat.max fuel 4)
                (Nat.le_max_r _ _)) as H2.
  rewrite H1 in H2. inversion H2; subst w4.
  rewrite H4 in Hn. vm_compute in Hn. discriminate.
Qed.

(** C3.  [wait_for_scan_completion] cannot raise the timeout error without
    having sent at least one fetch, whatever the timeout (0 and negative
    ones included) and the poll interval; the error it raises then is
    [TimeoutError], which is not the [HTTPStatusError] of a failed request,
    and its message names the scan id and the timeout.  When every fetch
    shows a non-terminal status the only way the wait ends is this error,
    and it does end with it as soon as the clock moves on.  With a remote
    that always answers PENDING, timeout 10 and poll interval 5, the error
    reads "Scan scan-1 did not complete within 10 seconds". *)
Theorem timeout_error_follows_a_fetch_and_names_scan_and_timeout :
  (forall (fuel : nat) (uuid : string) (timeout p : Z) (w w' : World) (m : string),
      wait_for_scan_completion fuel uuid timeout p w
      = (Some (Raise (TimeoutError m)), w') ->
      exists evs,
        trace w' = trace w ++ evs
        /\ (1 <= List.length (requests evs))%nat
        /\ Forall (fun r => r = fetch_request w uuid) (requests evs)
        /\ m = timeout_message uuid timeout)
  /\ (forall (uuid : string) (timeout : Z),
        occurs uuid (timeout_message uuid timeout)
        /\ occurs (str_int timeout) (timeout_message uuid timeout))
  /\ (forall (m : string) (code : Z) (body : string),
        TimeoutError m <> HTTPStatusError code body)
  /\ (forall (fuel : nat) (uuid : string) (timeout p : Z) (w w' : World)
             (r : Result value),
        always_pending w uuid -> 0 <= p ->
        wait_for_scan_completion fuel uuid timeout p w = (Some r, w') ->
        r = Raise (TimeoutError (timeout_message uuid timeout)))
  /\ (forall (uuid : string) (timeout p : Z) (w : World),
        always_pending w uuid -> 0 < p -> (forall n, 0 <= latency w n) ->
        exists fuel w',
          wait_for_scan_completion fuel uuid timeout p w
          = (Some (Raise (TimeoutError (timeout_message uuid timeout))), w'))
  /\ (exists w',
        wait_for_scan_completion 4 "scan-1" 10 5 pending_forever
        = (Some (Raise (TimeoutError
                          "Scan scan-1 did not complete within 10 seconds")), w')
        /\ str_int 10 = "10"%string).
Proof.
  repeat apply conj.
  - intros fuel uuid timeout p w w' m H.
    unfold wait_for_scan_completion, time_time in H.
    apply poll_loop_trace in H. destruct H as (evs & Ht & _ & Hr & Hm).
    destruct (Hm m eq_refl) as [Hlen Hmsg].
    exists evs. repeat split; assumption.
  - intros uuid timeout. unfold timeout_message. split.
    + apply (occurs_intro "Scan " uuid).
    + exists ("Scan " ++ uuid ++ " did not complete within ")%string,
             " seconds"%string.
      rewrite !str_app_assoc. reflexivity.
  - intros m code body; discriminate.
  - intros fuel uuid timeout p w w' r Hpend Hp H.
    unfold wait_for_scan_completion, time_time in H.
    now apply (poll_loop_only_gives_up uuid timeout p (clock w) Hp fuel w r w').
  - intros uuid timeout p w Hpend Hp Hlat.
    unfold wait_for_scan_completion, time_time.
    apply (poll_loop_gives_up uuid timeout p (clock w) Hp
             (Z.to_nat (timeout - (clock w - clock w) + 1)) w);
      [lia | exact Hlat | exact Hpend].
  - eexists. split; [vm_compute; reflexivity | reflexivity].
Qed.

Lemma timeout_error_follows_a_fetch_and_names_scan_and_timeout_witness :
  wait_for_scan_completion 2 "scan-1" 0 5 pending_forever
  = (Some (Raise (TimeoutError (timeout_message "scan-1" 0))),
     snd (wait_for_scan_completion 2 "scan-1" 0 5 pending_forever))
  /\ (exists evs,
        trace (snd (wait_for_scan_completion 2 "scan-1" 0 5 pending_forever))
        = trace pending_forever ++ evs
        /\ (1 <= List.length (requests evs))%nat)
  /\ (exists fuel w',
        wait_for_scan_completion fuel "scan-1" 10 5 pending_forever
        = (Some (Raise (TimeoutError (timeout_message "scan-1" 10))), w')).
Proof.
  destruct timeout_error_follows_a_fetch_and_names_scan_and_timeout
    as (Hfetch & _ & _ & Honly & Hends & _).
  assert (Hrun :
    wait_for_scan_completion 2 "scan-1" 0 5 pending_forever
    = (Some (Raise (TimeoutError (timeout_message "scan-1" 0))),
       snd (wait_for_scan_completion 2 "scan-1" 0 5 pending_forever)))
    by (vm_compute; reflexivity).
  split; [exact Hrun|]. split.
  - destruct (Hfetch _ _ _ _ _ _ _ Hrun) as (evs & Ht & Hlen & _).
    exists evs. split; [exact Ht | exact Hlen].
  - apply Hends.
    + apply pending_forever_always_pending.
    + lia.
    + intros n. vm_compute. discriminate.
Defined.

(** ** create_scan, get_scan and get_scan_progress *)

(** The body [create_scan] builds: the study, and the product when one is
    passed and is not the empty string. *)
Lemma create_scan_eq study_uuid product w :
  let body := add_str "product" product [("study", VStr study_uuid)] in
  let req := create_request w body in
  create_scan study_uuid product w
  = (match remote w (sent_count w) req with
     | None => Raise TransportError
     | Some resp =>
         if is_success resp then
           match json_body resp with
           | Some v => Ok v
           | None => Raise JSONDecodeError
           end
         else Raise (HTTPStatusError (status_code resp) (content resp))
     end,
     after_fetch w req).
Proof.
  unfold create_scan, bind, os_getenv, httpx_post_json, httpx_request,
    raise_for_status, response_json, after_fetch, create_request; simpl.
  destruct (remote w (sent_count w) _) as [resp|]; [|reflexivity].
  destruct (is_success resp); simpl; [|reflexivity].
  destruct (json_body resp); reflexivity.
Qed.

(** C4.  For every study id and optional product, [create_scan] sends one
    POST to [/api/v2/scans/] (under the configured base URL) whose JSON
    body maps "study" to the study id and has the key "product" only when
    a product is supplied; it returns the JSON answer of the remote.  With
    a remote that honours the contract of the endpoint and a valid product
    (one of the four, or none), the scan returned has the study id in
    "study" and the supplied product, or ECHOMEASURE, in "product". *)
Theorem create_scan_posts_study_and_optional_product
    (study_uuid : string) (product : option string) (w : World) :
  let body :=
    ("study", VStr study_uuid)
    :: match product with
       | Some p => if (p =? "")%string then [] else [("product", VStr p)]
       | None => []
       end in
  let req := create_request w body in
  method req = POST
  /\ url req = (str_opt (environ w "API") ++ "/api/v2/scans/")%string
  /\ json req = Some (VDict body)
  /\ dict_get body "study" = Some (VStr study_uuid)
  /\ (forall v, dict_get body "product" = Some v ->
        exists p, product = Some p /\ v = VStr p)
  /\ trace (snd (create_scan study_uuid product w)) = trace w ++ [Sent req]
  /\ (forall resp scan,
        remote w (sent_count w) req = Some resp ->
        is_success resp = true ->
        json_body resp = Some scan ->
        fst (create_scan study_uuid product w) = Ok scan)
  /\ (remote_creates_scans w ->
      valid_product product = true ->
      exists scan,
        fst (create_scan study_uuid product w) = Ok scan
        /\ subscript scan "study" = Ok (VStr study_uuid)
        /\ subscript scan "product" = Ok (VStr (product_or_default product))).
Proof.
  intros body req.
  assert (Hbody : add_str "product" product [("study", VStr study_uuid)] = body).
  { unfold body, add_str, truthy_str. destruct product as [p|]; [|reflexivity].
    destruct (p =? "")%string; reflexivity. }
  pose proof (create_scan_eq study_uuid product w) as Heq.
  cbv zeta in Heq. rewrite Hbody in Heq. fold req in Heq.
  split; [reflexivity|]. split; [reflexivity|]. split; [reflexivity|].
  split; [reflexivity|]. split; [|split; [|split]].
  - intros v Hv. unfold body in Hv. simpl in Hv.
    destruct product as [p|]; [|discriminate].
    destruct (p =? "")%string; [discriminate|]. simpl in Hv.
    exists p. split; [reflexivity | congruence].
  - rewrite Heq. reflexivity.
  - intros resp scan Hr Hs Hj. rewrite Heq. simpl. now rewrite Hr, Hs, Hj.
  - intros Hremote Hvalid.
    destruct (Hremote (sent_count w) req body (VStr study_uuid)
                eq_refl eq_refl eq_refl)
      as (resp & Hr & scan & Hs & Hj & Hstudy & Hprod).
    exists (VDict scan). rewrite Heq. simpl. rewrite Hr, Hs, Hj.
    split; [reflexivity|]. split.
    + rewrite Hstudy. reflexivity.
    + rewrite Hprod. unfold body. simpl.
      destruct product as [p|]; [|reflexivity].
      destruct (p =? "")%string eqn:Ep; [|reflexivity].
      apply String.eqb_eq in Ep. subst p. discriminate.
Qed.

Lemma create_scan_posts_study_and_optional_product_witness :
  remote_creates_scans (instant_world scan_service)
  /\ valid_product (Some "CARDIOVISION"%string) = true
  /\ exists scan,
       fst (create_scan "study-1" (Some "CARDIOVISION"%string)
              (instant_world scan_service)) = Ok scan
       /\ subscript scan "study" = Ok (VStr "study-1")
       /\ subscript scan "product" = Ok (VStr "CARDIOVISION").
Proof.
  assert (Hremote : remote_creates_scans (instant_world scan_service)).
  { intros n req body study Hm Hj Hst.
    unfold instant_world, scan_service; simpl. rewrite Hj, Hst.
    eexists. split; [reflexivity|]. eexists.
    split; [reflexivity|]. split; [reflexivity|].
    split; [simpl; now rewrite Hst | reflexivity]. }
  split; [exact Hremote|]. split; [reflexivity|].
  apply (create_scan_posts_study_and_optional_product
           "study-1" (Some "CARDIOVISION"%string) (instant_world scan_service));
    [exact Hremote | reflexivity].
Defined.

(** C9.  [create_scan] adds "product" to the request body only when the
    argument is truthy: with the empty string as product it does exactly
    what it does without a product, and the body sent is the study
    alone. *)
Theorem create_scan_empty_product_is_no_product
    (study_uuid : string) (w : World) :
  create_scan study_uuid (Some ""%string) w = create_scan study_uuid None w
  /\ trace (snd (create_scan study_uuid (Some ""%string) w))
     = trace w ++ [Sent (create_request w [("study", VStr study_uuid)])]
  /\ json (create_request w [("study", VStr study_uuid)])
     = Some (VDict [("study", VStr study_uuid)]).
Proof.
  rewrite !create_scan_eq. cbv zeta. simpl. repeat split.
Qed.

(** C5.  [get_scan_progress] is [get_scan]: on every scan id and in every
    world both do the same thing, which is to send one GET to
    [/api/v2/scans/{uuid}/] with the bearer token and to return what was
    fetched.  When the remote answers that request the same way twice in a
    row, two calls in a row return the same result. *)
Theorem get_scan_progress_is_get_scan :
  (forall (uuid : string) (w : World),
      get_scan_progress uuid w = get_scan uuid w)
  /\ (forall (uuid : string) (w : World),
        let req := fetch_request w uuid in
        trace (snd (get_scan_progress uuid w)) = trace w ++ [Sent req]
        /\ method req = GET
        /\ url req
           = (str_opt (environ w "API") ++ "/api/v2/scans/" ++ uuid ++ "/")%string
        /\ header "Authorization" (headers req)
           = Some ("Bearer " ++ str_opt (environ w "API_TOKEN"))%string
        /\ fst (get_scan_progress uuid w) = fetched w uuid (sent_count w))
  /\ (forall (uuid : string) (w : World),
        remote w (S (sent_count w)) (fetch_request w uuid)
        = remote w (sent_count w) (fetch_request w uuid) ->
        fst (get_scan_progress uuid (snd (get_scan_progress uuid w)))
        = fst (get_scan_progress uuid w)).
Proof.
  split; [reflexivity|]. split.
  - intros uuid w req. unfold get_scan_progress. rewrite get_scan_eq.
    repeat split.
  - intros uuid w Hsame. unfold get_scan_progress. rewrite !get_scan_eq.
    cbn [fst snd]. rewrite sent_count_after_fetch.
    unfold fetched.
    change (fetch_request (after_fetch w (fetch_request w uuid)) uuid)
      with (fetch_request w uuid).
    change (remote (after_fetch w (fetch_request w uuid))) with (remote w).
    now rewrite Hsame.
Qed.

Lemma get_scan_progress_is_get_scan_witness :
  fst (get_scan_progress "scan-1"
         (snd (get_scan_progress "scan-1" pending_forever)))
  = fst (get_scan_progress "scan-1" pending_forever).
Proof.
  destruct get_scan_progress_is_get_scan as (_ & _ & Hagain).
  apply Hagain. reflexivity.
Defined.

(** ** Progress fraction *)

(** C6.  The completion fraction derived from the progress counters is
    defined for every scan with integer counters: it never ends in a
    division-by-zero error, and for a scan returned by
    [get_scan_progress] with [number_of_available_dicoms = 0] it is 0. *)
Theorem progress_fraction_is_zero_without_dicoms :
  (forall (scan : value) (available scanned : Z),
      subscript scan "number_of_available_dicoms" = Ok (VInt available) ->
      subscript scan "number_of_dicoms_scanned" = Ok (VInt scanned) ->
      exists q,
        progress_fraction scan = Ok q
        /\ (available = 0 -> q = 0%Q)
        /\ (available <> 0 -> q = (inject_Z scanned / inject_Z available)%Q))
  /\ (forall (uuid : string) (w w' : World) (scan : value) (scanned : Z),
        get_scan_progress uuid w = (Ok scan, w') ->
        subscript scan "number_of_available_dicoms" = Ok (VInt 0) ->
        subscript scan "number_of_dicoms_scanned" = Ok (VInt scanned) ->
        progress_fraction scan = Ok 0%Q)
  /\ (forall scan : value, progress_fraction scan <> Raise ZeroDivisionError).
Proof.
  split; [|split].
  - intros scan available scanned Ha Hs.
    unfold progress_fraction, counter. rewrite Hs, Ha.
    destruct (Z.eqb_spec available 0) as [E|E].
    + exists 0%Q. split; [reflexivity|].
      split; [reflexivity | intros; contradiction].
    + unfold py_truediv. destruct (Z.eqb_spec available 0); [contradiction|].
      eexists. split; [reflexivity|].
      split; [intros; contradiction | reflexivity].
  - intros uuid w w' scan scanned _ Ha Hs.
    unfold progress_fraction, counter. rewrite Hs, Ha. reflexivity.
  - intros scan. unfold progress_fraction, counter.
    destruct (subscript scan "number_of_dicoms_scanned") as [[]|e] eqn:Es;
      try discriminate.
    + destruct (subscript scan "number_of_available_dicoms") as [[]|e] eqn:Ea;
        try discriminate.
      * destruct (Z.eqb_spec n0 0) as [E|E]; [discriminate|].
        unfold py_truediv. destruct (Z.eqb_spec n0 0); [contradiction|discriminate].
      * unfold subscript in Ea. destruct scan; try (inversion Ea; discriminate).
        destruct (dict_get fields _); inversion Ea; discriminate.
    + unfold subscript in Es. destruct scan; try (inversion Es; discriminate).
      destruct (dict_get fields _); inversion Es; discriminate.
Qed.

Lemma progress_fraction_is_zero_without_dicoms_witness :
  progress_fraction scan_without_dicoms = Ok 0%Q.
Proof.
  destruct progress_fraction_is_zero_without_dicoms as (_ & Hzero & _).
  apply (Hzero "scan-1"%string
           (instant_world (scripted [] scan_without_dicoms))
           (snd (get_scan_progress "scan-1"
                   (instant_world (scripted [] scan_without_dicoms))))
           scan_without_dicoms 0);
    reflexivity.
Defined.

(** ** handle_webhook_notification *)

Import WebhookFlow.

Lemma effect_free_ret {A} (a : A) : effect_free (ret a).
Proof. exists (Ok a). reflexivity. Qed.

Lemma effect_free_lift {A} (r : Result A) : effect_free (lift r).
Proof. exists r. reflexivity. Qed.

Lemma effect_free_bind {A B} (m : M A) (k : A -> M B) :
  effect_free m -> (forall a, effect_free (k a)) -> effect_free (bind m k).
Proof.
  intros [r Hm] Hk. destruct r as [a|e].
  - destruct (Hk a) as [rb Hb]. exists rb. intros w.
    unfold bind. now rewrite Hm, Hb.
  - exists (Raise e). intros w. unfold bind. now rewrite Hm.
Qed.

Lemma effect_free_if {A} (b : bool) (m1 m2 : M A) :
  effect_free m1 -> effect_free m2 -> effect_free (if b then m1 else m2).
Proof. now destruct b. Qed.

Lemma effect_free_for_each {A} (items : list A) (body : A -> M unit) :
  (forall x, effect_free (body x)) -> effect_free (for_each items body).
Proof.
  intros Hbody. induction items as [|x items IH]; simpl.
  - apply effect_free_ret.
  - apply effect_free_bind; [apply Hbody | intros _; exact IH].
Qed.

Lemma effect_free_print {rt : Runtime} (text : string) :
  effect_free (py_print text).
Proof.
  unfold py_print. destruct (print_error text) as [e|].
  - exists (Raise e). reflexivity.
  - exists (Ok tt). reflexivity.
Qed.

(** Splits a computation made of [lift], [ret], [print], [if] and
    [for_each]. *)
Ltac effect_free_steps :=
  repeat first
    [ apply effect_free_ret
    | apply effect_free_lift
    | apply effect_free_print
    | apply effect_free_for_each; intros
    | apply effect_free_bind; [|intros]
    | apply effect_free_if ].

Lemma print_count_effect_free {rt : Runtime} (v : value) (key label : string) :
  effect_free (print_count v key label).
Proof. unfold print_count. effect_free_steps. Qed.

Lemma display_report_details_effect_free {rt : Runtime} (report : value) :
  effect_free (display_report_details report).
Proof. unfold display_report_details. effect_free_steps. Qed.

Lemma effect_free_world {A} (m : M A) w : effect_free m -> snd (m w) = w.
Proof. intros [r H]. now rewrite H. Qed.

Lemma effect_free_result {A} (m : M A) w1 w2 :
  effect_free m -> fst (m w1) = fst (m w2).
Proof. intros [r H]. now rewrite !H. Qed.


(** *** What the receiver prints *)

Lemma py_print_ok {rt : Runtime} text w :
  print_error text = None -> py_print text w = (Ok tt, w).
Proof. intros H. unfold py_print. now rewrite H. Qed.

Lemma bind_print {rt : Runtime} {A} text (k : unit -> M A) w :
  print_error text = None -> bind (py_print text) k w = k tt w.
Proof. intros H. unfold bind. now rewrite py_print_ok. Qed.



Lemma print_and_reraise_eq {rt : Runtime} {A} (body : M A) w :
  print_and_reraise body w = after_try (body w).
Proof.
  unfold print_and_reraise, after_try, reraised, py_print, parse_failure_line,
    missing_field_line.
  destruct (body w) as [[a|e] w']; [reflexivity|].
  destruct e; try reflexivity; cbn [fst snd];
    destruct (print_error _); reflexivity.
Qed.



Lemma reraised_quiet {rt : Runtime} {A} (r : Result A) :
  stdout_takes_all -> reraised r = r.
Proof.
  intros Hq. unfold reraised. destruct r as [a|e]; [reflexivity|].
  destruct e; try reflexivity; now rewrite Hq.
Qed.

(** The receiver prints its banner, runs the [try] block and hands the
    outcome to the [except] clauses. *)
Lemma handle_webhook_banner {rt : Runtime} payload w :
  printed_ok banner ->
  handle_webhook_notification payload w
  = after_try (handle_parsed_notification payload w).
Proof.
  intros Hb. unfold banner in Hb.
  inversion Hb as [|? ? H1 Hb1]; subst.
  inversion Hb1 as [|? ? H2 Hb2]; subst.
  inversion Hb2 as [|? ? H3 _]; subst.
  unfold handle_webhook_notification.
  rewrite (bind_print _ _ _ H1). cbv beta.
  rewrite (bind_print _ _ _ H2). cbv beta.
  rewrite (bind_print _ _ _ H3). cbv beta.
  apply print_and_reraise_eq.
Qed.


(** The [try] block up to the branch on the status, for a payload that
    decodes to an object with both fields. *)
Lemma handle_parsed_fields {rt : Runtime} payload text fields sid status w :
  decode_utf8 payload = Some text ->
  json_loads text = Some (VDict fields) ->
  dict_get fields "scan_id" = Some sid ->
  dict_get fields "status" = Some status ->
  handle_parsed_notification payload w
  = (py_print ("   Scan UUID: " ++ str_value sid) ;;
     py_print ("   Status: " ++ str_value status) ;;
     branch_on_status (VDict fields) sid status)%py w.
Proof.
  intros Hd Hj Hsid Hst.
  unfold handle_parsed_notification.
  unfold bind at 1, lift at 1. rewrite Hd.
  unfold bind at 1, lift at 1. rewrite Hj.
  unfold bind at 1, lift at 1. unfold subscript at 1. rewrite Hsid.
  unfold bind at 1, lift at 1. unfold subscript at 1. rewrite Hst.
  reflexivity.
Qed.


(** With a standard output that takes every text the receiver is its
    branch on the status. *)
Lemma handle_webhook_parsed {rt : Runtime} payload text fields sid status w :
  stdout_takes_all ->
  decode_utf8 payload = Some text ->
  json_loads text = Some (VDict fields) ->
  dict_get fields "scan_id" = Some sid ->
  dict_get fields "status" = Some status ->
  handle_webhook_notification payload w
  = branch_on_status (VDict fields) sid status w.
Proof.
  intros Hq Hd Hj Hsid Hst.
  rewrite handle_webhook_banner
    by (unfold banner; repeat constructor; apply Hq).
  unfold after_try. rewrite (reraised_quiet _ Hq).
  rewrite (handle_parsed_fields payload text fields sid status w Hd Hj Hsid Hst).
  rewrite (bind_print _ _ _ (Hq _)). cbv beta.
  rewrite (bind_print _ _ _ (Hq _)). cbv beta.
  now destruct (branch_on_status (VDict fields) sid status w).
Qed.








(** On a standard output that only takes ASCII the line of the [except]
    clause cannot be printed, and a payload that is not JSON ends the
    receiver with [UnicodeEncodeError] in place of [JSONDecodeError]; so
    does a notification with an unexpected status. *)
Remark webhook_raises_print_error_on_ascii_console :
  @handle_webhook_notification ascii_console "not json" pending_forever
  = (Raise UnicodeEncodeError, pending_forever)
  /\ @handle_webhook_notification ascii_console (dumps payload_started)
       pending_forever
     = (Raise UnicodeEncodeError, pending_forever).
Proof. split; vm_compute; reflexivity. Qed.




(** A report that is present but is [null] is outside the statement above:
    [None] has no [get]. *)
Remark webhook_completed_null_report_raises :
  fst (@handle_webhook_notification sample_runtime
         (dumps payload_completed_null_report) pending_forever)
  = Raise AttributeError.
Proof. vm_compute. reflexivity. Qed.

(** ** The Authorization header *)

Lemma json_headers_authorized word token r (w : World) :
  environ w "API_TOKEN" = Some token ->
  headers r = json_headers word (environ w "API_TOKEN") ->
  authorized word token r.
Proof. intros Ht Hh. unfold authorized. rewrite Hh, Ht. reflexivity. Qed.

Lemma auth_headers_authorized word token r (w : World) :
  environ w "API_TOKEN" = Some token ->
  headers r = auth_headers word (environ w "API_TOKEN") ->
  authorized word token r.
Proof. intros Ht Hh. unfold authorized. rewrite Hh, Ht. reflexivity. Qed.

(** A call that sent nothing, or one request. *)
Ltac sent_nothing := exists []; split; [now rewrite app_nil_r | constructor].

Ltac sent_one w Ht :=
  eexists [Sent _]; split; [reflexivity|];
  constructor; [|constructor];
  first [ apply (json_headers_authorized _ _ _ w Ht); reflexivity
        | apply (auth_headers_authorized _ _ _ w Ht); reflexivity ].

(** Runs a function of [basic/] that sends at most one request, through
    every way the remote and the file system can answer. *)
Ltac run_call w Ht :=
  cbv beta iota zeta delta
    [perform family scheme
     Study.get_studies Study.create_study Study.get_study Study.update_study
     Study.delete_study
     Dicom.upload_dicom Dicom.get_dicoms Dicom.get_dicom
     Dicom.download_dicom_file Dicom.delete_dicom Dicom.idempotent_dicom_upload
     create_scan get_scans get_scan delete_scan get_scan_progress
     Reports.get_reports Reports.get_report Reports.get_report_html
     Reports.get_echogpt_responses Reports.get_echogpt_response
     Reports.create_user_measurement Reports.get_api_version
     Webhooks.create_webhook Webhooks.get_webhooks Webhooks.get_webhook
     Webhooks.update_webhook Webhooks.delete_webhook
     AllStudies.get_all_studies_with_measurements
     AllStudies.get_study_with_measurements AllStudies.get_study_metrics
     AllStudies.get_filter_metadata
     bind ret raise os_getenv httpx_get httpx_post_json httpx_post_files
     httpx_patch httpx_delete httpx_request raise_for_status response_json
     open_rb mkdir_parents write_wb];
  repeat match goal with
  | |- context [match fs w ?p with _ => _ end] => destruct (fs w p)
  | |- context [match mkdir_error ?f ?d with _ => _ end] =>
      destruct (mkdir_error f d)
  | |- context [match open_wb_error ?f ?p with _ => _ end] =>
      destruct (open_wb_error f p)
  | |- context [match write_error ?p ?b with _ => _ end] =>
      destruct (write_error p b) as [[? ?]|]
  | |- context [match remote w ?n ?r with _ => _ end] => destruct (remote w n r)
  | |- context [if is_success ?r then _ else _] => destruct (is_success r)
  | |- context [match json_body ?r with _ => _ end] => destruct (json_body r)
  end;
  cbn [snd trace];
  first [ sent_one w Ht | sent_nothing ].

(** C8.  Every request sent by a function of the Study, Dicom and Scan
    modules carries [Authorization: Bearer <token>], and every request sent
    by a function of the Reports (measurements and version included),
    Webhooks and all-studies modules carries [Authorization: Token <token>],
    where [<token>] is the value of API_TOKEN. *)
Theorem requests_carry_scheme_of_family
    {rt : Runtime} (c : Call) (w : World) (token : string) :
  environ w "API_TOKEN" = Some token ->
  exists evs,
    trace (perform c w) = trace w ++ evs
    /\ Forall (authorized (scheme (family c)) token) (requests evs).
Proof.
  intros Ht.
  destruct c;
    try (match goal with
         | |- context [WaitForScanCompletion] => fail 1
         | _ => run_call w Ht
         end).
  cbn [perform family scheme].
  unfold wait_for_scan_completion, time_time.
  destruct (poll_loop fuel scan_uuid timeout poll_interval (clock w) w)
    as [r w'] eqn:E.
  apply poll_loop_trace in E. destruct E as (evs & Htr & _ & Hreq & _).
  exists evs. split; [exact Htr|].
  eapply Forall_impl; [|exact Hreq].
  intros r0 ->. apply (json_headers_authorized _ _ _ w Ht). reflexivity.
Qed.

Lemma requests_carry_scheme_of_family_witness :
  (exists evs,
     trace (@perform sample_runtime (CreateWebhook "https://example.com/hook")
              pending_forever)
     = trace pending_forever ++ evs
     /\ Forall (authorized "Token" "test-token") (requests evs)
     /\ requests evs <> [])
  /\ (exists evs,
        trace (@perform sample_runtime (GetStudy "study-1") pending_forever)
        = trace pending_forever ++ evs
        /\ Forall (authorized "Bearer" "test-token") (requests evs)
        /\ requests evs <> []).
Proof.
  split.
  - destruct (@requests_carry_scheme_of_family sample_runtime
                (CreateWebhook "https://example.com/hook") pending_forever
                "test-token"%string eq_refl) as (evs & Htr & Hall).
    exists evs. split; [exact Htr|]. split; [exact Hall|].
    vm_compute in Htr. subst evs. discriminate.
  - destruct (@requests_carry_scheme_of_family sample_runtime
                (GetStudy "study-1") pending_forever
                "test-token"%string eq_refl) as (evs & Htr & Hall).
    exists evs. split; [exact Htr|]. split; [exact Hall|].
    vm_compute in Htr. subst evs. discriminate.
Defined.

(** ** The tests of the repository, replayed *)

(** [test_create_scan] and [test_create_scan_with_product]: the call that
    [mock_post.assert_called_once_with] expects. *)
Example test_create_scan :
  trace (snd (create_scan "123e4567-e89b-12d3-a456-426614174000" None
                (instant_world scan_service)))
  = [Sent (mkRequest POST "https://api.example.com/api/v2/scans/"
             [("Authorization", "Bearer test-token");
              ("Content-Type", "application/json")]
             None
             (Some (VDict [("study", VStr "123e4567-e89b-12d3-a456-426614174000")]))
             None false)].
Proof. reflexivity. Qed.

Example test_create_scan_with_product :
  trace (snd (create_scan "123e4567-e89b-12d3-a456-426614174000"
                (Some "CARDIOVISION"%string) (instant_world scan_service)))
  = [Sent (mkRequest POST "https://api.example.com/api/v2/scans/"
             [("Authorization", "Bearer test-token");
              ("Content-Type", "application/json")]
             None
             (Some (VDict [("study", VStr "123e4567-e89b-12d3-a456-426614174000");
                           ("product", VStr "CARDIOVISION")]))
             None false)].
Proof. reflexivity. Qed.

(** [test_get_scan] *)
Example test_get_scan :
  fst (get_scan "scan-1" pending_forever) = Ok (sample_scan "PENDING" VNone)
  /\ trace (snd (get_scan "scan-1" pending_forever))
     = [Sent (mkRequest GET "https://api.example.com/api/v2/scans/scan-1/"
                [("Authorization", "Bearer test-token");
                 ("Content-Type", "application/json")]
                None None None false)].
Proof. split; reflexivity. Qed.

(** [test_wait_for_scan_completion_success]: three calls of [get_scan]. *)
Example test_wait_for_scan_completion_success :
  fst (wait_for_scan_completion 3 "scan-1" default_timeout default_poll_interval
         completes_on_third_fetch)
  = Some (Ok (sample_scan "COMPLETED" (VStr "report-9")))
  /\ sent_count (snd (wait_for_scan_completion 3 "scan-1" default_timeout
                        default_poll_interval completes_on_third_fetch))
     = 3%nat.
Proof. split; vm_compute; reflexivity. Qed.

(** [test_wait_for_scan_completion_timeout]: the clock reads 0, then 350
    after the first fetch, and the timeout is 300. *)
Example test_wait_for_scan_completion_timeout :
  fst (wait_for_scan_completion 1 "scan-1" 300 default_poll_interval
         pending_and_late)
  = Some (Raise (TimeoutError "Scan scan-1 did not complete within 300 seconds")).
Proof. vm_compute. reflexivity. Qed.

(** With requests that take a little time instead of none, timeout 12 s
    and poll interval 5 s (in milliseconds) still end at the fourth
    fetch. *)
Remark wait_gives_up_at_fourth_fetch_with_slow_requests :
  fst (wait_for_scan_completion 4 "scan-1" 12000 5000 pending_forever_slow)
  = Some (Raise (TimeoutError (timeout_message "scan-1" 12000)))
  /\ fst (wait_for_scan_completion 3 "scan-1" 12000 5000 pending_forever_slow)
     = None
  /\ sent_count (snd (wait_for_scan_completion 4 "scan-1" 12000 5000
                        pending_forever_slow)) = 4%nat.
Proof. repeat split; vm_compute; reflexivity. Qed.

(** ** More on the polling loop *)

Lemma poll_once_fetch_error uuid timeout p st w e :
  fetched w uuid (sent_count w) = Raise e ->
  poll_once uuid timeout p st w = (Raise e, after_fetch w (fetch_request w uuid)).
Proof. intros Hf. rewrite poll_once_eq, Hf. reflexivity. Qed.

Lemma poll_once_status_error uuid timeout p st w scan e :
  fetched w uuid (sent_count w) = Ok scan ->
  subscript scan "status" = Raise e ->
  poll_once uuid timeout p st w = (Raise e, after_fetch w (fetch_request w uuid)).
Proof. intros Hf Hs. rewrite poll_once_eq, Hf. cbv zeta. now rewrite Hs. Qed.

(** A turn that ends in the sleep saw the deadline not yet passed, and a
    poll interval that can be slept. *)
Lemma poll_once_slept uuid timeout p st w w1 :
  poll_once uuid timeout p st w = (Ok None, w1) ->
  clock w + latency w (sent_count w) - st <= timeout /\ 0 <= p.
Proof.
  rewrite poll_once_eq. cbv zeta.
  destruct (fetched w uuid (sent_count w)) as [scan|e]; [|discriminate].
  destruct (subscript scan "status") as [status|e]; [|discriminate].
  destruct (in_strs status _); [discriminate|].
  unfold after_fetch at 1; simpl.
  destruct (Z.gtb_spec (clock w + latency w (sent_count w) - st) timeout);
    [discriminate|].
  destruct (Z.ltb_spec p 0); [discriminate|].
  intros _. lia.
Qed.

(** The wait after [k] pending fetches inside the deadline is the last
    turn run from the world reached. *)
Lemma wait_after_pending_polls uuid timeout p w k :
  (forall i, (i < k)%nat ->
     exists s, fetched w uuid (sent_count w + i) = Ok s
               /\ has_pending_status s = true) ->
  (k = 0%nat \/ 0 <= p) ->
  (forall i, (i < k)%nat -> elapsed_at w p i <= timeout) ->
  exists wk,
    (forall fuel, (k < fuel)%nat ->
       wait_for_scan_completion fuel uuid timeout p w
       = match poll_once uuid timeout p (clock w) wk with
         | (Raise e, w') => (Some (Raise e), w')
         | (Ok (Some scan), w') => (Some (Ok scan), w')
         | (Ok None, w') =>
             poll_loop (fuel - k - 1) uuid timeout p (clock w) w'
         end)
    /\ fetched wk uuid (sent_count wk) = fetched w uuid (sent_count w + k)
    /\ fetch_request wk uuid = fetch_request w uuid
    /\ latency wk (sent_count wk) = latency w (sent_count w + k)
    /\ clock wk - clock w + latency wk (sent_count wk) = elapsed_at w p k
    /\ trace wk ++ [Sent (fetch_request w uuid)]
       = trace w ++ polling_trace (fetch_request w uuid) p k.
Proof.
  intros Hpend Hp Hdead.
  destruct (poll_loop_skip uuid timeout p (clock w) k w Hpend)
    as (wk & Hrun & He & Hr & Hl & Hn & Hc & Htr);
    [intros i Hi; specialize (Hdead i Hi); lia | exact Hp |].
  exists wk. split; [|split; [|split; [|split; [|split]]]].
  - intros fuel Hfuel. unfold wait_for_scan_completion, time_time.
    replace fuel with (k + S (fuel - k - 1))%nat at 1 by lia.
    rewrite Hrun. reflexivity.
  - rewrite Hn. now apply fetched_same.
  - now apply fetch_request_same.
  - now rewrite Hl, Hn.
  - unfold elapsed_at. rewrite Hc, Hl, Hn. lia.
  - specialize (Htr 0%nat). rewrite Nat.add_0_r in Htr. exact Htr.
Qed.

(** X1.  The wait does not retry: when a fetch fails (a status outside
    2xx, a transport failure, a body that is not JSON), after [k] pending
    fetches inside the deadline, the wait ends with the exception of that
    fetch, and the failed fetch is the last thing it did. *)
Theorem wait_aborts_on_failed_fetch
    (uuid : string) (timeout p : Z) (w : World) (k : nat) (e : exn) :
  (forall i, (i < k)%nat ->
     exists s, fetched w uuid (sent_count w + i) = Ok s
               /\ has_pending_status s = true) ->
  fetched w uuid (sent_count w + k) = Raise e ->
  (k = 0%nat \/ 0 <= p) ->
  (forall i, (i < k)%nat -> elapsed_at w p i <= timeout) ->
  forall fuel, (k < fuel)%nat ->
  exists w',
    wait_for_scan_completion fuel uuid timeout p w = (Some (Raise e), w')
    /\ trace w' = trace w ++ polling_trace (fetch_request w uuid) p k.
Proof.
  intros Hpend Hf Hp Hdead fuel Hfuel.
  destruct (wait_after_pending_polls uuid timeout p w k Hpend Hp Hdead)
    as (wk & Hrun & Hfk & Hreq & _ & _ & Htr).
  rewrite (Hrun fuel Hfuel).
  rewrite (poll_once_fetch_error uuid timeout p (clock w) wk e)
    by (rewrite Hfk; exact Hf).
  eexists. split; [reflexivity|].
  unfold after_fetch; simpl. now rewrite Hreq.
Qed.

Lemma wait_aborts_on_failed_fetch_witness :
  exists w',
    wait_for_scan_completion 2 "scan-1" 30 5 fails_on_second_fetch
    = (Some (Raise (HTTPStatusError 503 "busy")), w')
    /\ trace w'
       = trace fails_on_second_fetch
         ++ polling_trace (fetch_request fails_on_second_fetch "scan-1") 5 1.
Proof.
  apply (wait_aborts_on_failed_fetch "scan-1" 30 5 fails_on_second_fetch 1).
  - intros i Hi. destruct i as [|i]; [|lia].
    eexists; split; vm_compute; reflexivity.
  - vm_compute; reflexivity.
  - right; lia.
  - intros i Hi. destruct i as [|i]; [|lia]. vm_compute; discriminate.
  - lia.
Defined.

(** X2.  A fetched scan that has no "status" (or is not an object) ends
    the wait with the [KeyError] (or [TypeError]) of [scan['status']],
    right after that fetch. *)
Theorem wait_aborts_on_scan_without_status
    (uuid : string) (timeout p : Z) (w : World) (k : nat) (scan : value) (e : exn) :
  (forall i, (i < k)%nat ->
     exists s, fetched w uuid (sent_count w + i) = Ok s
               /\ has_pending_status s = true) ->
  fetched w uuid (sent_count w + k) = Ok scan ->
  subscript scan "status" = Raise e ->
  (k = 0%nat \/ 0 <= p) ->
  (forall i, (i < k)%nat -> elapsed_at w p i <= timeout) ->
  forall fuel, (k < fuel)%nat ->
  exists w',
    wait_for_scan_completion fuel uuid timeout p w = (Some (Raise e), w')
    /\ trace w' = trace w ++ polling_trace (fetch_request w uuid) p k
    /\ (e = TypeError
        \/ (e = KeyError "status"
            /\ exists fields, scan = VDict fields
                              /\ dict_get fields "status" = None)).
Proof.
  intros Hpend Hf Hs Hp Hdead fuel Hfuel.
  destruct (wait_after_pending_polls uuid timeout p w k Hpend Hp Hdead)
    as (wk & Hrun & Hfk & Hreq & _ & _ & Htr).
  rewrite (Hrun fuel Hfuel).
  rewrite (poll_once_status_error uuid timeout p (clock w) wk scan e)
    by (rewrite ?Hfk; assumption).
  eexists. split; [reflexivity|]. split.
  - unfold after_fetch; simpl. now rewrite Hreq.
  - unfold subscript in Hs.
    destruct scan; try (left; congruence).
    destruct (dict_get fields "status") eqn:Eg; [discriminate|].
    right. split; [congruence|]. exists fields. split; [reflexivity | exact Eg].
Qed.

Lemma wait_aborts_on_scan_without_status_witness :
  exists w',
    wait_for_scan_completion 2 "scan-1" 30 5 loses_status_on_second_fetch
    = (Some (Raise (KeyError "status")), w').
Proof.
  destruct (wait_aborts_on_scan_without_status "scan-1" 30 5
              loses_status_on_second_fetch 1 (VDict [("uuid", VStr "scan-1")])
              (KeyError "status")) with (fuel := 2%nat)
    as (w' & Hrun & _).
  - intros i Hi. destruct i as [|i]; [|lia].
    eexists; split; vm_compute; reflexivity.
  - vm_compute; reflexivity.
  - reflexivity.
  - right; lia.
  - intros i Hi. destruct i as [|i]; [|lia]. vm_compute; discriminate.
  - lia.
  - exists w'. exact Hrun.
Defined.

(** X3.  A negative poll interval cannot be slept: when the first fetch
    shows a pending status and comes back inside the deadline, the wait
    ends with the [ValueError] of [time.sleep], after that single fetch. *)
Theorem wait_rejects_negative_poll_interval
    (uuid : string) (timeout p : Z) (w : World) (scan : value) :
  fetched w uuid (sent_count w) = Ok scan ->
  has_pending_status scan = true ->
  latency w (sent_count w) <= timeout ->
  p < 0 ->
  forall fuel, (0 < fuel)%nat ->
  wait_for_scan_completion fuel uuid timeout p w
  = (Some (Raise ValueError), after_fetch w (fetch_request w uuid)).
Proof.
  intros Hf Hs Hl Hp fuel Hfuel.
  unfold wait_for_scan_completion, time_time.
  destruct fuel as [|fuel]; [lia|]. cbn [poll_loop].
  rewrite poll_once_eq, Hf. cbv zeta.
  unfold has_pending_status in Hs.
  destruct (subscript scan "status") as [status|e]; [|discriminate].
  apply negb_true_iff in Hs. rewrite Hs.
  unfold after_fetch at 1; simpl.
  destruct (Z.gtb_spec (clock w + latency w (sent_count w) - clock w) timeout);
    [lia|].
  destruct (Z.ltb_spec p 0); [reflexivity|lia].
Qed.

Lemma wait_rejects_negative_poll_interval_witness :
  wait_for_scan_completion 1 "scan-1" 30 (-5) pending_forever
  = (Some (Raise ValueError),
     after_fetch pending_forever (fetch_request pending_forever "scan-1")).
Proof.
  apply (wait_rejects_negative_poll_interval "scan-1" 30 (-5) pending_forever
           (sample_scan "PENDING" VNone)); try reflexivity; try lia.
  vm_compute; discriminate.
Defined.

(** The shape of the trace of a loop that ended. *)
Lemma poll_loop_shape uuid timeout p st :
  forall fuel w r w',
    poll_loop fuel uuid timeout p st w = (Some r, w') ->
    exists k, (k < fuel)%nat
      /\ trace w' = trace w ++ polling_trace (fetch_request w uuid) p k.
Proof.
  induction fuel as [|fuel IH]; intros w r w' H; cbn [poll_loop] in H.
  - discriminate.
  - destruct (poll_once uuid timeout p st w) as [r1 w1] eqn:E.
    apply poll_once_cases in E.
    destruct E as [(-> & Hne & _) | (-> & ->)].
    + exists 0%nat. split; [lia|].
      assert (Hw : w' = after_fetch w (fetch_request w uuid))
        by (destruct r1 as [[scan|]|e]; congruence).
      subst w'. reflexivity.
    + apply IH in H. destruct H as (k & Hk & Htr).
      exists (S k). split; [lia|].
      rewrite Htr. unfold after_turn; simpl.
      rewrite <- !app_assoc. reflexivity.
Qed.

(** X4.  However the wait ends (a scan returned, a timeout, any other
    exception), what it did is fetch, sleep, fetch, ..., fetch: every
    sleep lasts the poll interval, there is one sleep less than there are
    fetches, every fetch is the same GET, and nothing follows the last
    fetch. *)
Theorem wait_alternates_fetch_and_sleep
    (fuel : nat) (uuid : string) (timeout p : Z) (w w' : World) (r : Result value) :
  wait_for_scan_completion fuel uuid timeout p w = (Some r, w') ->
  exists k, (k < fuel)%nat
    /\ trace w' = trace w ++ polling_trace (fetch_request w uuid) p k
    /\ requests (trace w')
       = requests (trace w) ++ repeat (fetch_request w uuid) (S k)
    /\ sleeps (trace w') = sleeps (trace w) ++ repeat p k.
Proof.
  unfold wait_for_scan_completion, time_time. intros H.
  apply poll_loop_shape in H. destruct H as (k & Hk & Htr).
  exists k. split; [exact Hk|]. split; [exact Htr|].
  rewrite Htr, requests_app, sleeps_app, requests_polling_trace,
    sleeps_polling_trace. split; reflexivity.
Qed.

Lemma wait_alternates_fetch_and_sleep_witness :
  exists k, (k < 5)%nat
    /\ sleeps (trace (snd (wait_for_scan_completion 5 "scan-1" 12 5 pending_forever)))
       = sleeps (trace pending_forever) ++ repeat 5 k.
Proof.
  destruct (wait_alternates_fetch_and_sleep 5 "scan-1" 12 5 pending_forever
              (snd (wait_for_scan_completion 5 "scan-1" 12 5 pending_forever))
              (Raise (TimeoutError (timeout_message "scan-1" 12))))
    as (k & Hk & _ & _ & Hs).
  - vm_compute; reflexivity.
  - exists k. split; [exact Hk | exact Hs].
Defined.

Lemma poll_loop_ends_by uuid timeout p st :
  forall fuel w r w',
    clock w - st <= timeout + p ->
    poll_loop fuel uuid timeout p st w = (Some r, w') ->
    (1 <= sent_count w')%nat
    /\ clock w' - st <= timeout + p + latency w (sent_count w' - 1).
Proof.
  induction fuel as [|fuel IH]; intros w r w' Hin H; cbn [poll_loop] in H.
  - discriminate.
  - destruct (poll_once uuid timeout p st w) as [r1 w1] eqn:E.
    pose proof E as E'. apply poll_once_cases in E'.
    destruct E' as [(-> & Hne & _) | (-> & ->)].
    + assert (Hw : w' = after_fetch w (fetch_request w uuid))
        by (destruct r1 as [[scan|]|e]; congruence).
      subst w'. rewrite sent_count_after_fetch.
      replace (S (sent_count w) - 1)%nat with (sent_count w) by lia.
      unfold after_fetch; simpl. lia.
    + apply poll_once_slept in E. destruct E as [Hd Hp].
      apply IH in H; [exact H|].
      unfold after_turn; simpl. lia.
Qed.

(** X5.  With a timeout and a poll interval that are not negative, a wait
    that ends has ended at most [timeout + poll_interval] seconds after
    its start, plus the time its last request took. *)
Theorem wait_ends_within_timeout_plus_interval
    (fuel : nat) (uuid : string) (timeout p : Z) (w w' : World) (r : Result value) :
  0 <= timeout -> 0 <= p ->
  wait_for_scan_completion fuel uuid timeout p w = (Some r, w') ->
  clock w' - clock w <= timeout + p + latency w (sent_count w' - 1).
Proof.
  intros HT Hp H. unfold wait_for_scan_completion, time_time in H.
  apply poll_loop_ends_by in H; [apply H | lia].
Qed.

Lemma wait_ends_within_timeout_plus_interval_witness :
  clock (snd (wait_for_scan_completion 4 "scan-1" 12000 5000 pending_forever_slow))
  - clock pending_forever_slow
  <= 12000 + 5000
     + latency pending_forever_slow
         (sent_count (snd (wait_for_scan_completion 4 "scan-1" 12000 5000
                             pending_forever_slow)) - 1).
Proof.
  apply (wait_ends_within_timeout_plus_interval 4 "scan-1" 12000 5000
           pending_forever_slow _
           (Raise (TimeoutError (timeout_message "scan-1" 12000))));
    [lia | lia | vm_compute; reflexivity].
Defined.

(** ** Request bodies and query parameters *)

Lemma dict_get_app d1 d2 k :
  dict_get (d1 ++ d2) k
  = match dict_get d1 k with Some v => Some v | None => dict_get d2 k end.
Proof.
  induction d1 as [|[k' v'] d1 IH]; simpl; [reflexivity|].
  destruct (k' =? k)%string; [reflexivity | exact IH].
Qed.

Lemma dict_get_app_none d1 d2 k :
  dict_get d1 k = None -> dict_get d2 k = None -> dict_get (d1 ++ d2) k = None.
Proof. intros H1 H2. now rewrite dict_get_app, H1. Qed.

(** Setting a key that a dict does not have appends the entry. *)
Lemma dict_set_absent d k v :
  dict_get d k = None -> dict_set d k v = d ++ [(k, v)].
Proof.
  induction d as [|[k' v'] d IH]; simpl; [reflexivity|].
  destruct (k' =? k)%string; [discriminate|].
  intros H. now rewrite IH.
Qed.

Lemma add_str_absent key x d :
  dict_get d key = None -> add_str key x d = d ++ opt_str key x.
Proof.
  intros H. unfold add_str, opt_str, truthy_str. destruct x as [s|].
  - destruct (s =? "")%string; simpl;
      [now rewrite app_nil_r | now apply dict_set_absent].
  - now rewrite app_nil_r.
Qed.

Lemma add_int_absent key x d :
  dict_get d key = None -> add_int key x d = d ++ opt_int key x.
Proof.
  intros H. unfold add_int, opt_int, truthy_int. destruct x as [n|].
  - destruct (n =? 0); simpl;
      [now rewrite app_nil_r | now apply dict_set_absent].
  - now rewrite app_nil_r.
Qed.

Lemma add_float_absent key x d :
  dict_get d key = None -> add_float key x d = d ++ opt_float key x.
Proof.
  intros H. unfold add_float, opt_float, truthy_float. destruct x as [f|].
  - destruct (PrimFloat.eqb f 0); simpl;
      [now rewrite app_nil_r | now apply dict_set_absent].
  - now rewrite app_nil_r.
Qed.

Lemma add_some_absent key x d :
  dict_get d key = None -> add_some key x d = d ++ opt_some key x.
Proof.
  intros H. unfold add_some, opt_some. destruct x as [v|].
  - now apply dict_set_absent.
  - now rewrite app_nil_r.
Qed.

Lemma dict_get_opt_str key x k :
  (key =? k)%string = false -> dict_get (opt_str key x) k = None.
Proof.
  intros H. unfold opt_str. destruct x as [s|]; [|reflexivity].
  destruct (s =? "")%string; simpl; [reflexivity | now rewrite H].
Qed.

Lemma dict_get_opt_int key x k :
  (key =? k)%string = false -> dict_get (opt_int key x) k = None.
Proof.
  intros H. unfold opt_int. destruct x as [n|]; [|reflexivity].
  destruct (n =? 0); simpl; [reflexivity | now rewrite H].
Qed.

Lemma dict_get_opt_float key x k :
  (key =? k)%string = false -> dict_get (opt_float key x) k = None.
Proof.
  intros H. unfold opt_float. destruct x as [f|]; [|reflexivity].
  destruct (PrimFloat.eqb f 0); simpl; [reflexivity | now rewrite H].
Qed.

Lemma dict_get_opt_some key x k :
  (key =? k)%string = false -> dict_get (opt_some key x) k = None.
Proof.
  intros H. unfold opt_some. destruct x as [v|]; [|reflexivity].
  simpl. now rewrite H.
Qed.

(** The key is in none of the entries collected so far. *)
Ltac key_absent :=
  repeat (apply dict_get_app_none);
  first [ reflexivity
        | apply dict_get_opt_str; reflexivity
        | apply dict_get_opt_int; reflexivity
        | apply dict_get_opt_float; reflexivity
        | apply dict_get_opt_some; reflexivity ].

(** Turns the chain of conditional assignments into the list of the
    entries they add. *)
Ltac collect_entries :=
  repeat match goal with
  | |- context [add_str ?k ?x ?d] => rewrite (add_str_absent k x d) by key_absent
  | |- context [add_int ?k ?x ?d] => rewrite (add_int_absent k x d) by key_absent
  | |- context [add_float ?k ?x ?d] =>
      rewrite (add_float_absent k x d) by key_absent
  | |- context [add_some ?k ?x ?d] => rewrite (add_some_absent k x d) by key_absent
  end;
  rewrite <- ?app_assoc; cbn [app]; reflexivity.

(** Runs a function that sends one request whatever the remote answers. *)
Ltac run_request w :=
  cbv beta iota zeta delta
    [Study.get_studies Study.create_study
     Dicom.get_dicoms get_scans
     Reports.get_reports Reports.create_user_measurement
     Webhooks.get_webhooks
     AllStudies.get_all_studies_with_measurements
     bind ret raise os_getenv httpx_get httpx_post_json httpx_request
     raise_for_status response_json];
  repeat match goal with
  | |- context [match remote w ?n ?r with _ => _ end] => destruct (remote w n r)
  | |- context [if is_success ?r then _ else _] => destruct (is_success r)
  | |- context [match json_body ?r with _ => _ end] => destruct (json_body r)
  end;
  cbn [snd trace];
  unfold list_request, post_request;
  do 3 f_equal; f_equal.

(** X6.  The list operations send the filters that are truthy and no
    others, in the order of the source: a filter that is [None], the
    empty string or 0 (page 0 included) is left out of the query. *)
Theorem list_operations_send_truthy_filters :
  (forall page page_size name uuid w,
      trace (snd (Study.get_studies page page_size name uuid w))
      = trace w
        ++ [Sent (list_request w "Bearer" "/api/v2/studies/"
                    (opt_int "page" page ++ opt_int "page_size" page_size
                     ++ opt_str "name" name ++ opt_str "uuid" uuid))])
  /\ (forall study_uuid page page_size w,
        trace (snd (Dicom.get_dicoms study_uuid page page_size w))
        = trace w
          ++ [Sent (list_request w "Bearer" "/api/v2/dicoms/"
                      (opt_str "study" study_uuid ++ opt_int "page" page
                       ++ opt_int "page_size" page_size))])
  /\ (forall study_uuid page page_size w,
        trace (snd (get_scans study_uuid page page_size w))
        = trace w
          ++ [Sent (list_request w "Bearer" "/api/v2/scans/"
                      (opt_str "study" study_uuid ++ opt_int "page" page
                       ++ opt_int "page_size" page_size))])
  /\ (forall study_uuid scan_uuid page page_size w,
        trace (snd (Reports.get_reports study_uuid scan_uuid page page_size w))
        = trace w
          ++ [Sent (list_request w "Token" "/api/v2/reports/"
                      (opt_str "study" study_uuid ++ opt_str "scan" scan_uuid
                       ++ opt_int "page" page ++ opt_int "page_size" page_size))])
  /\ (forall page page_size w,
        trace (snd (Webhooks.get_webhooks page page_size w))
        = trace w
          ++ [Sent (list_request w "Token" "/api/v2/webhook/"
                      (opt_int "page" page ++ opt_int "page_size" page_size))])
  /\ (forall page page_size q name uuid created_at__gte created_at__lte
             scan_product scan_status user_email view_types diseases
             measurements w,
        trace (snd (AllStudies.get_all_studies_with_measurements page page_size
                      q name uuid created_at__gte created_at__lte scan_product
                      scan_status user_email view_types diseases measurements w))
        = trace w
          ++ [Sent (list_request w "Token" "/api/v2/all_studies/"
                      (opt_int "page" page ++ opt_int "page_size" page_size
                       ++ opt_str "q" q ++ opt_str "name" name
                       ++ opt_str "uuid" uuid
                       ++ opt_str "created_at__gte" created_at__gte
                       ++ opt_str "created_at__lte" created_at__lte
                       ++ opt_str "scan_product" scan_product
                       ++ opt_str "scan_status" scan_status
                       ++ opt_str "user_email" user_email
                       ++ opt_str "view_types" view_types
                       ++ opt_str "diseases" diseases
                       ++ opt_str "measurements" measurements))]).
Proof.
  repeat apply conj; intros; run_request w; collect_entries.
Qed.

(** X7.  [create_study] always sends the age (0 included) and sends the
    name, height, weight and sex only when they are truthy: an empty name
    or a height of 0.0 is left out of the body. *)
Theorem create_study_sends_age_and_truthy_fields
    (age : Z) (name : option string) (height weight : option float)
    (sex : option string) (w : World) :
  trace (snd (Study.create_study age name height weight sex w))
  = trace w
    ++ [Sent (post_request w "Bearer" "/api/v2/studies/"
                (("age", VInt age)
                 :: opt_str "name" name ++ opt_float "height" height
                 ++ opt_float "weight" weight ++ opt_str "sex" sex))].
Proof. run_request w; collect_entries. Qed.

(** X8.  [create_user_measurement] tests its optional arguments against
    [None], not for truth: a frame index of 0, a value of 0.0 and an empty
    unit are sent, after the five required fields, and only an argument
    that is [None] is left out. *)
Theorem create_user_measurement_sends_all_but_none
    (dicom_uuid measurement_key measurement_type keyframe_type : string)
    (measurement_metadata : value) (frame_index : option Z)
    (value : option float) (unit : option string)
    (extra_metadata : option Py.value) (w : World) :
  let body :=
    [("dicom_uuid", VStr dicom_uuid);
     ("measurement_key", VStr measurement_key);
     ("measurement_type", VStr measurement_type);
     ("keyframe_type", VStr keyframe_type);
     ("measurement_metadata", measurement_metadata)]
    ++ opt_some "frame_index" (option_map VInt frame_index)
    ++ opt_some "value" (option_map VFloat value)
    ++ opt_some "unit" (option_map VStr unit)
    ++ opt_some "extra_metadata" extra_metadata in
  trace (snd (Reports.create_user_measurement dicom_uuid measurement_key
                measurement_type keyframe_type measurement_metadata frame_index
                value unit extra_metadata w))
  = trace w ++ [Sent (post_request w "Token" "/api/v2/measurements/" body)]
  /\ dict_get body "frame_index" = option_map VInt frame_index
  /\ dict_get body "value" = option_map VFloat value
  /\ dict_get body "unit" = option_map VStr unit
  /\ dict_get body "extra_metadata" = extra_metadata.
Proof.
  intros body. split.
  - unfold body. run_request w; collect_entries.
  - unfold body.
    destruct frame_index, value, unit, extra_metadata; repeat split.
Qed.

(** ** Deleting, uploading and downloading *)

Ltac run_delete w resp Hr Hs :=
  cbv beta iota zeta delta
    [Study.delete_study Dicom.delete_dicom delete_scan Webhooks.delete_webhook
     bind ret raise os_getenv httpx_delete httpx_request raise_for_status];
  unfold delete_request in Hr; rewrite Hr, Hs; reflexivity.

(** X9.  The four delete functions send one DELETE without a body to
    the url of the resource, [<base>/api/v2/.../<uuid>/], and return [None]
    on every 2xx
    answer: the body of the answer is not decoded, so the empty body of a
    204 is fine. *)
Theorem delete_functions_return_none_on_success
    (uuid : string) (w : World) (resp : Response) :
  is_success resp = true ->
  (remote w (sent_count w) (delete_request w "Bearer" "/api/v2/studies/" uuid) = Some resp ->
   Study.delete_study uuid w
   = (Ok tt, after_fetch w (delete_request w "Bearer" "/api/v2/studies/" uuid)))
  /\ (remote w (sent_count w) (delete_request w "Bearer" "/api/v2/dicoms/" uuid) = Some resp ->
      Dicom.delete_dicom uuid w
      = (Ok tt, after_fetch w (delete_request w "Bearer" "/api/v2/dicoms/" uuid)))
  /\ (remote w (sent_count w) (delete_request w "Bearer" "/api/v2/scans/" uuid) = Some resp ->
      delete_scan uuid w
      = (Ok tt, after_fetch w (delete_request w "Bearer" "/api/v2/scans/" uuid)))
  /\ (remote w (sent_count w) (delete_request w "Token" "/api/v2/webhook/" uuid) = Some resp ->
      Webhooks.delete_webhook uuid w
      = (Ok tt, after_fetch w (delete_request w "Token" "/api/v2/webhook/" uuid))).
Proof.
  intros Hs. repeat apply conj; intros Hr; run_delete w resp Hr Hs.
Qed.

Lemma delete_functions_return_none_on_success_witness :
  delete_scan "scan-1" (always_answers (mkResponse 204 "" None))
  = (Ok tt,
     after_fetch (always_answers (mkResponse 204 "" None))
       (delete_request (always_answers (mkResponse 204 "" None))
          "Bearer" "/api/v2/scans/" "scan-1")).
Proof.
  destruct (delete_functions_return_none_on_success "scan-1"
              (always_answers (mkResponse 204 "" None))
              (mkResponse 204 "" None) eq_refl) as (_ & _ & Hscan & _).
  apply Hscan. reflexivity.
Defined.

(** X10.  An upload whose file cannot be opened raises the error of
    [open] and sends nothing.  With the file at hand, [upload_dicom] sends
    one multipart POST to [/api/v2/dicoms/] with the file (under the name
    of its path, as application/dicom) and the study, and
    [idempotent_dicom_upload] one to [/api/v2/idempotent_dicom/] with the
    file alone; neither sets a Content-Type header of its own. *)
Theorem uploads_need_the_file_and_send_multipart
    {rt : Runtime} (study_uuid file_path : string) (w : World) :
  (fs w file_path = None ->
   Dicom.upload_dicom study_uuid file_path w = (Raise OSError, w)
   /\ Dicom.idempotent_dicom_upload file_path w = (Raise OSError, w))
  /\ (forall bytes, fs w file_path = Some bytes ->
        let file :=
          ("file", mkFilePart (Some (path_name file_path)) bytes
                              (Some "application/dicom"%string)) in
        let up :=
          upload_request w "/api/v2/dicoms/"
            [file; ("study", mkFilePart None study_uuid None)] in
        let idem := upload_request w "/api/v2/idempotent_dicom/" [file] in
        Dicom.upload_dicom study_uuid file_path w
        = (answered w (sent_count w) up, after_fetch w up)
        /\ Dicom.idempotent_dicom_upload file_path w
           = (answered w (sent_count w) idem, after_fetch w idem)
        /\ header "Content-Type" (headers up) = None
        /\ header "Content-Type" (headers idem) = None).
Proof.
  split.
  - intros Hfs.
    unfold Dicom.upload_dicom, Dicom.idempotent_dicom_upload, bind, os_getenv,
      open_rb.
    rewrite Hfs. split; reflexivity.
  - intros bytes Hfs file up idem.
    unfold Dicom.upload_dicom, Dicom.idempotent_dicom_upload, bind, os_getenv,
      open_rb, httpx_post_files, httpx_request, raise_for_status, response_json,
      answered, ret, raise.
    rewrite Hfs. fold file. unfold upload_request in up, idem. fold up. fold idem.
    split; [|split; [|split; reflexivity]].
    + destruct (remote w (sent_count w) up) as [resp|]; [|reflexivity].
      destruct (is_success resp); [|reflexivity].
      destruct (json_body resp); reflexivity.
    + destruct (remote w (sent_count w) idem) as [resp|]; [|reflexivity].
      destruct (is_success resp); [|reflexivity].
      destruct (json_body resp); reflexivity.
Qed.

Lemma uploads_need_the_file_and_send_multipart_witness :
  @Dicom.upload_dicom sample_runtime "study-1" "plax_example.dcm" pending_forever
  = (Raise OSError, pending_forever).
Proof.
  destruct (@uploads_need_the_file_and_send_multipart sample_runtime
              "study-1" "plax_example.dcm" pending_forever) as [Hmissing _].
  apply Hmissing. reflexivity.
Defined.

(** X11.  [download_dicom_file] sends one request, which follows
    redirects, and never touches a file other than
    [Path(output_path) / filename].  On an answer outside 2xx it raises
    the HTTP error and writes nothing.  On a 2xx answer it makes the
    directory, opens the file and writes the body: when the directory
    cannot be made (a regular file has its name, say) or the file cannot
    be opened, that error is raised and no file changes; when the write
    fails, its error is raised and the file holds what was written; and
    when all three go through, the path is returned and reading the file
    back gives the body. *)
Theorem download_writes_the_body_or_nothing
    {rt : Runtime} (uuid filename output_path : string) (w : World)
    (resp : Response) :
  remote w (sent_count w) (download_request w uuid filename) = Some resp ->
  let out := Dicom.download_dicom_file uuid filename output_path w in
  let target := path_join output_path filename in
  follow_redirects (download_request w uuid filename) = true
  /\ trace (snd out) = trace w ++ [Sent (download_request w uuid filename)]
  /\ (forall path, path <> target -> fs (snd out) path = fs w path)
  /\ (is_success resp = false ->
      fst out = Raise (HTTPStatusError (status_code resp) (content resp))
      /\ fs (snd out) = fs w)
  /\ (is_success resp = true ->
      (forall e, mkdir_error (fs w) (path_parent target) = Some e ->
         fst out = Raise e /\ fs (snd out) = fs w)
      /\ (mkdir_error (fs w) (path_parent target) = None ->
          (forall e, open_wb_error (fs w) target = Some e ->
             fst out = Raise e /\ fs (snd out) = fs w)
          /\ (open_wb_error (fs w) target = None ->
              (forall e written,
                  write_error target (content resp) = Some (e, written) ->
                  fst out = Raise e /\ fs (snd out) target = Some written)
              /\ (write_error target (content resp) = None ->
                  fst out = Ok target
                  /\ fs (snd out) target = Some (content resp))))).
Proof.
  intros Hr out target. unfold out, target.
  unfold Dicom.download_dicom_file, bind, os_getenv, httpx_get, httpx_request,
    raise_for_status, mkdir_parents, write_wb, ret, raise.
  unfold download_request in Hr. rewrite Hr.
  split; [reflexivity|].
  destruct (is_success resp); cbv beta iota; cbn [fs].
  2:{ split; [reflexivity|]. split; [reflexivity|].
      split; [intros _; split; reflexivity | intros H; discriminate]. }
  destruct (mkdir_error (fs w) _) as [e1|]; cbv beta iota; cbn [fs].
  { split; [reflexivity|]. split; [reflexivity|].
    split; [intros H; discriminate|]. intros _.
    split; [intros e H; inversion H; subst; split; reflexivity
           | intros; discriminate]. }
  destruct (open_wb_error (fs w) _) as [e2|]; cbv beta iota; cbn [fs].
  { split; [reflexivity|]. split; [reflexivity|].
    split; [intros H; discriminate|]. intros _.
    split; [intros; discriminate|]. intros _.
    split; [intros e H; inversion H; subst; split; reflexivity
           | intros; discriminate]. }
  destruct (write_error _ _) as [[e3 written]|]; cbv beta iota;
    cbn [fst snd trace fs].
  - split; [reflexivity|]. split.
    { intros path Hne.
      destruct (String.eqb_spec path (path_join output_path filename));
        [contradiction | reflexivity]. }
    split; [intros H; discriminate|]. intros _.
    split; [intros; discriminate|]. intros _.
    split; [intros; discriminate|]. intros _.
    split; [|intros; discriminate].
    intros e w0 H. inversion H; subst. split; [reflexivity|].
    now rewrite String.eqb_refl.
  - split; [reflexivity|]. split.
    { intros path Hne.
      destruct (String.eqb_spec path (path_join output_path filename));
        [contradiction | reflexivity]. }
    split; [intros H; discriminate|]. intros _.
    split; [intros; discriminate|]. intros _.
    split; [intros; discriminate|]. intros _.
    split; [intros; discriminate|]. intros _. split; [reflexivity|].
    now rewrite String.eqb_refl.
Qed.

Lemma download_writes_the_body_or_nothing_witness :
  (fst (@Dicom.download_dicom_file sample_runtime "dicom-1" "image.dcm" "out"
          (always_answers (mkResponse 200 "DICM" None)))
   = Ok "out/image.dcm"%string
   /\ fs (snd (@Dicom.download_dicom_file sample_runtime "dicom-1" "image.dcm"
                 "out" (always_answers (mkResponse 200 "DICM" None))))
         "out/image.dcm"
      = Some "DICM"%string)
  /\ (fst (@Dicom.download_dicom_file sample_runtime "dicom-1" "image.dcm" "out"
             (always_answers_with_file (mkResponse 200 "DICM" None)
                "out" "a file"))
      = Raise FileExistsError
      /\ fs (snd (@Dicom.download_dicom_file sample_runtime "dicom-1"
                    "image.dcm" "out"
                    (always_answers_with_file (mkResponse 200 "DICM" None)
                       "out" "a file")))
            "out/image.dcm"
         = None).
Proof.
  split.
  - destruct (@download_writes_the_body_or_nothing sample_runtime
                "dicom-1" "image.dcm" "out"
                (always_answers (mkResponse 200 "DICM" None))
                (mkResponse 200 "DICM" None) eq_refl)
      as (_ & _ & _ & _ & Hok).
    destruct (Hok eq_refl) as (_ & Hmade).
    destruct (Hmade eq_refl) as (_ & Hopen).
    destruct (Hopen eq_refl) as (_ & Hwritten).
    exact (Hwritten eq_refl).
  - destruct (@download_writes_the_body_or_nothing sample_runtime
                "dicom-1" "image.dcm" "out"
                (always_answers_with_file (mkResponse 200 "DICM" None)
                   "out" "a file")
                (mkResponse 200 "DICM" None) eq_refl)
      as (_ & _ & _ & _ & Hok).
    destruct (Hok eq_refl) as (Hdir & _).
    destruct (Hdir FileExistsError eq_refl) as (Hres & Hfs).
    split; [exact Hres | now rewrite Hfs].
Defined.

(** ** Failed requests *)

(** Runs a call whose first request gets [answer]. *)
Ltac run_failure w Hremote :=
  cbv beta iota zeta delta
    [raised
     Study.get_studies Study.create_study Study.get_study Study.update_study
     Study.delete_study
     Dicom.upload_dicom Dicom.get_dicoms Dicom.get_dicom
     Dicom.download_dicom_file Dicom.delete_dicom Dicom.idempotent_dicom_upload
     create_scan get_scans get_scan delete_scan get_scan_progress
     Reports.get_reports Reports.get_report Reports.get_report_html
     Reports.get_echogpt_responses Reports.get_echogpt_response
     Reports.create_user_measurement Reports.get_api_version
     Webhooks.create_webhook Webhooks.get_webhooks Webhooks.get_webhook
     Webhooks.update_webhook Webhooks.delete_webhook
     AllStudies.get_all_studies_with_measurements
     AllStudies.get_study_with_measurements AllStudies.get_study_metrics
     AllStudies.get_filter_metadata
     bind ret raise os_getenv httpx_get httpx_post_json httpx_post_files
     httpx_patch httpx_delete httpx_request raise_for_status response_json
     open_rb mkdir_parents write_wb];
  repeat match goal with
  | H : fs w ?p <> None |- context [match fs w ?p with _ => _ end] =>
      destruct (fs w p); [|now destruct H]
  end;
  rewrite Hremote;
  match goal with
  | |- context [is_success ?resp] =>
      let Hs := fresh "Hs" in intros Hs; rewrite Hs; reflexivity
  | _ => reflexivity
  end.

(** X12.  No function of [basic/] swallows or retries a failed request.
    When the first request of a call gets an answer outside 2xx, the call
    raises [HTTPStatusError] with the status code and the body of that
    answer; when the transport fails, it raises the transport error.  This
    holds for each of the 33 functions, the polling loop included. *)
Theorem failed_request_is_raised
    {rt : Runtime} (c : Call) (w : World) (answer : option Response) :
  reaches_remote c w ->
  (forall r, remote w (sent_count w) r = answer) ->
  match answer with
  | None => raised c w = Some TransportError
  | Some resp =>
      is_success resp = false ->
      raised c w = Some (HTTPStatusError (status_code resp) (content resp))
  end.
Proof.
  intros Hready Hremote.
  destruct c; cbn [reaches_remote] in Hready;
    try (match goal with
         | |- context [WaitForScanCompletion] => fail 1
         | _ => destruct answer as [resp|]; run_failure w Hremote
         end).
  cbn [raised]. unfold wait_for_scan_completion, time_time.
  destruct fuel as [|fuel]; [now destruct Hready|]. cbn [poll_loop].
  rewrite poll_once_eq. cbv zeta. unfold fetched. rewrite Hremote.
  destruct answer as [resp|]; [|reflexivity].
  intros Hs. rewrite Hs. reflexivity.
Qed.

Lemma failed_request_is_raised_witness :
  @raised sample_runtime (WaitForScanCompletion 3 "scan-1" 30 5)
     (always_answers (mkResponse 404 "not found" None))
  = Some (HTTPStatusError 404 "not found")
  /\ @raised sample_runtime (CreateScan "study-1" None)
       (always_answers (mkResponse 400 "no dicoms" None))
     = Some (HTTPStatusError 400 "no dicoms").
Proof.
  split.
  - apply (@failed_request_is_raised sample_runtime
             (WaitForScanCompletion 3 "scan-1" 30 5)
             (always_answers (mkResponse 404 "not found" None))
             (Some (mkResponse 404 "not found" None)));
      [discriminate | reflexivity | reflexivity].
  - apply (@failed_request_is_raised sample_runtime
             (CreateScan "study-1" None)
             (always_answers (mkResponse 400 "no dicoms" None))
             (Some (mkResponse 400 "no dicoms" None)));
      [exact I | reflexivity | reflexivity].
Defined.

(** ** More on the webhook receiver *)

(** [get_report] sends one request and hands back what was answered. *)
Lemma get_report_eq uuid w :
  Reports.get_report uuid w
  = (answered w (sent_count w) (report_request w uuid),
     after_fetch w (report_request w uuid)).
Proof.
  unfold Reports.get_report, answered, bind, os_getenv, httpx_get, httpx_request,
    raise_for_status, response_json, after_fetch, report_request; simpl.
  destruct (remote w (sent_count w) _) as [resp|]; [|reflexivity].
  destruct (is_success resp); simpl; [|reflexivity].
  destruct (json_body resp); reflexivity.
Qed.

Lemma get_scan_answered uuid w :
  get_scan uuid w
  = (answered w (sent_count w) (fetch_request w uuid),
     after_fetch w (fetch_request w uuid)).
Proof. rewrite get_scan_eq. reflexivity. Qed.

(** A fetch followed by code that leaves the world alone. *)
Lemma fetch_then_effect_free {A} (m : M value) (k : value -> M A) req w :
  m w = (answered w (sent_count w) req, after_fetch w req) ->
  (forall v, effect_free (k v)) ->
  snd (bind m k w) = after_fetch w req
  /\ (forall e, answered w (sent_count w) req = Raise e ->
        fst (bind m k w) = Raise e)
  /\ (forall v w0, answered w (sent_count w) req = Ok v ->
        fst (bind m k w) = fst (k v w0)).
Proof.
  intros Hm Hk. unfold bind. rewrite Hm.
  destruct (answered w (sent_count w) req) as [v|e].
  - split; [now apply effect_free_world|]. split; [discriminate|].
    intros v' w0 E. inversion E; subst. now apply effect_free_result.
  - split; [reflexivity|]. split; [intros e' E; now inversion E | discriminate].
Qed.

Lemma fetches_once_bind {A} (fetch : M value) (k : value -> M A) :
  (forall v, effect_free (k v)) -> fetches_once (bind fetch k) fetch.
Proof.
  intros Hk.
  exists (fun r => match r with
                   | Ok v => fst (k v pending_forever)
                   | Raise e => Raise e
                   end).
  intros w. unfold bind. destruct (fetch w) as [[v|e] w']; [|reflexivity].
  cbn [fst snd]. destruct (Hk v) as [r Hr]. now rewrite !Hr.
Qed.

Lemma one_fetch_at_most_prefix {A B} (p : M A) (k : A -> M B) :
  effect_free p -> (forall a, one_fetch_at_most (k a)) ->
  one_fetch_at_most (bind p k).
Proof.
  intros [r Hr] Hk. destruct r as [a|e].
  - destruct (Hk a) as [[rb Hb] | [(u & post & H) | (u & post & H)]].
    + left. exists rb. intros w. unfold bind. now rewrite Hr.
    + right; left. exists u, post. intros w. unfold bind. now rewrite Hr.
    + right; right. exists u, post. intros w. unfold bind. now rewrite Hr.
  - left. exists (Raise e). intros w. unfold bind. now rewrite Hr.
Qed.

Lemma one_fetch_at_most_reraise {rt : Runtime} {A} (body : M A) :
  one_fetch_at_most body -> one_fetch_at_most (print_and_reraise body).
Proof.
  intros [[r Hr] | [(u & post & H) | (u & post & H)]].
  - left. exists (reraised r). intros w.
    rewrite print_and_reraise_eq, Hr. reflexivity.
  - right; left. exists u, (fun r => reraised (post r)). intros w.
    rewrite print_and_reraise_eq, H. reflexivity.
  - right; right. exists u, (fun r => reraised (post r)). intros w.
    rewrite print_and_reraise_eq, H. reflexivity.
Qed.

(** The three things the receiver can do with a payload: nothing to the
    world, one fetch of a report, or one fetch of a scan, each followed by
    code that leaves the world alone. *)
Lemma handle_webhook_shape {rt : Runtime} (payload : string) :
  one_fetch_at_most (handle_webhook_notification payload).
Proof.
  unfold handle_webhook_notification.
  do 3 (apply one_fetch_at_most_prefix; [apply effect_free_print | intros _]).
  apply one_fetch_at_most_reraise. unfold handle_parsed_notification.
  apply one_fetch_at_most_prefix; [apply effect_free_lift | intros text].
  apply one_fetch_at_most_prefix; [apply effect_free_lift | intros v].
  apply one_fetch_at_most_prefix; [apply effect_free_lift | intros sid].
  apply one_fetch_at_most_prefix; [apply effect_free_lift | intros status].
  do 2 (apply one_fetch_at_most_prefix; [apply effect_free_print | intros _]).
  unfold branch_on_status.
  destruct (eq_str status "COMPLETED").
  - apply one_fetch_at_most_prefix; [apply effect_free_lift | intros info].
    apply one_fetch_at_most_prefix; [apply effect_free_lift | intros u].
    apply one_fetch_at_most_prefix; [apply effect_free_print | intros _].
    destruct (truthy u).
    + apply one_fetch_at_most_prefix; [apply effect_free_print | intros _].
      right; left. exists (str_value u). apply fetches_once_bind.
      intros report.
      effect_free_steps;
        first [apply print_count_effect_free
              | apply display_report_details_effect_free].
    + left. effect_free_steps.
  - destruct (eq_str status "FAILED").
    + apply one_fetch_at_most_prefix; [apply effect_free_print | intros _].
      right; right. exists (str_value sid). apply fetches_once_bind.
      intros details. effect_free_steps.
    + left. effect_free_steps.
Qed.

(** X13.  Whatever the payload, the receiver sends at most one request and
    does nothing else to the world: the request is the GET of a report
    (token scheme) or the GET of a scan (bearer scheme), without a body. *)
Theorem webhook_sends_at_most_one_get
    {rt : Runtime} (payload : string) (w : World) :
  let w' := snd (handle_webhook_notification payload w) in
  w' = w
  \/ exists req,
       w' = after_fetch w req
       /\ method req = GET /\ json req = None /\ files req = None
       /\ exists u, req = report_request w u \/ req = fetch_request w u.
Proof.
  intros w'. unfold w'.
  destruct (handle_webhook_shape payload)
    as [(r & H) | [(u & post & H) | (u & post & H)]].
  - left. now rewrite H.
  - right. exists (report_request w u). rewrite H, get_report_eq.
    split; [reflexivity|]. repeat split. exists u. now left.
  - right. exists (fetch_request w u). rewrite H, get_scan_answered.
    split; [reflexivity|]. repeat split. exists u. now right.
Qed.

(** The result of the receiver depends on the world only through the
    environment and the answer to the next request. *)
Lemma handle_webhook_same_view {rt : Runtime} (payload : string) (w w2 : World) :
  environ w2 = environ w ->
  (forall r, remote w2 (sent_count w2) r = remote w (sent_count w) r) ->
  fst (handle_webhook_notification payload w2)
  = fst (handle_webhook_notification payload w).
Proof.
  intros He Hr.
  assert (Hans : forall req,
    answered w2 (sent_count w2) req = answered w (sent_count w) req)
    by (intros req; unfold answered; now rewrite Hr).
  destruct (handle_webhook_shape payload)
    as [(r & H) | [(u & post & H) | (u & post & H)]].
  - now rewrite !H.
  - rewrite !H, !get_report_eq. cbn [fst].
    assert (Hreq : report_request w2 u = report_request w u)
      by (unfold report_request; now rewrite He).
    now rewrite Hreq, Hans.
  - rewrite !H, !get_scan_answered. cbn [fst].
    now rewrite (fetch_request_same w w2 u He), Hans.
Qed.

Lemma after_fetch_inj w req req' :
  after_fetch w req = after_fetch w req' -> req = req'.
Proof.
  intros H. apply (f_equal trace) in H. unfold after_fetch in H; simpl in H.
  apply app_inv_head in H. now inversion H.
Qed.

Lemma after_fetch_changes w req : after_fetch w req <> w.
Proof.
  intros H. apply (f_equal sent_count) in H.
  rewrite sent_count_after_fetch in H. lia.
Qed.

(** X14.  A notification delivered twice is handled twice in the same way:
    when the remote answers the second request as it answers the first,
    the second run of the receiver on the same payload gives the result of
    the first, and it sends the same request again, or none if the first
    run sent none. *)
Theorem webhook_redelivery_gives_same_result
    {rt : Runtime} (payload : string) (w : World) :
  (forall r, remote w (S (sent_count w)) r = remote w (sent_count w) r) ->
  let w1 := snd (handle_webhook_notification payload w) in
  fst (handle_webhook_notification payload w1)
  = fst (handle_webhook_notification payload w)
  /\ (w1 = w -> snd (handle_webhook_notification payload w1) = w1)
  /\ (forall req, w1 = after_fetch w req ->
        snd (handle_webhook_notification payload w1) = after_fetch w1 req).
Proof.
  intros Hr w1.
  destruct (handle_webhook_shape payload)
    as [(r & H) | [(u & post & H) | (u & post & H)]].
  - assert (Hw : w1 = w) by (unfold w1; now rewrite H).
    rewrite Hw. split; [reflexivity|]. split.
    + intros _. now rewrite H.
    + intros req E. now destruct (after_fetch_changes w req).
  - assert (Hw : w1 = after_fetch w (report_request w u))
      by (unfold w1; now rewrite H, get_report_eq).
    assert (He : environ w1 = environ w) by now rewrite Hw.
    split; [|split].
    + apply handle_webhook_same_view; [exact He|].
      intros r. rewrite Hw at 1. rewrite Hw, sent_count_after_fetch. apply Hr.
    + intros E. rewrite E in Hw. symmetry in Hw.
      now apply after_fetch_changes in Hw.
    + intros req E. rewrite Hw in E. apply after_fetch_inj in E. subst req.
      rewrite H, get_report_eq. cbn [snd].
      unfold report_request. now rewrite He.
  - assert (Hw : w1 = after_fetch w (fetch_request w u))
      by (unfold w1; now rewrite H, get_scan_answered).
    assert (He : environ w1 = environ w) by now rewrite Hw.
    split; [|split].
    + apply handle_webhook_same_view; [exact He|].
      intros r. rewrite Hw at 1. rewrite Hw, sent_count_after_fetch. apply Hr.
    + intros E. rewrite E in Hw. symmetry in Hw.
      now apply after_fetch_changes in Hw.
    + intros req E. rewrite Hw in E. apply after_fetch_inj in E. subst req.
      rewrite H, get_scan_answered. cbn [snd].
      now rewrite (fetch_request_same w w1 u He).
Qed.

Lemma webhook_redelivery_gives_same_result_witness :
  fst (@handle_webhook_notification delivery_runtime
         (dumps payload_completed_with_report)
         (snd (@handle_webhook_notification delivery_runtime
                 (dumps payload_completed_with_report)
                 (always_answers (mkResponse 200 "" (Some sample_report))))))
  = fst (@handle_webhook_notification delivery_runtime
           (dumps payload_completed_with_report)
           (always_answers (mkResponse 200 "" (Some sample_report)))).
Proof.
  destruct (@webhook_redelivery_gives_same_result delivery_runtime
              (dumps payload_completed_with_report)
              (always_answers (mkResponse 200 "" (Some sample_report))))
    as (Hsame & _).
  - intros r. reflexivity.
  - exact Hsame.
Defined.

(** X15.  On a standard output that takes every text: for a notification
    with status FAILED the receiver fetches the scan named by "scan_id"
    (one bearer GET).  A scan object gives the result
    [{scan_uuid, status: FAILED}]; the exception of a failed fetch comes
    out of the receiver unchanged; a JSON answer that is not an object is
    an [AttributeError]. *)
Theorem webhook_failed_fetches_the_scan
    {rt : Runtime} (payload text : string) (fields : list (string * value))
    (sid status : value) (w : World) :
  stdout_takes_all ->
  decode_utf8 payload = Some text ->
  json_loads text = Some (VDict fields) ->
  dict_get fields "scan_id" = Some sid ->
  dict_get fields "status" = Some status ->
  eq_str status "FAILED" = true ->
  handle_webhook_notification payload w
  = (match answered w (sent_count w) (fetch_request w (str_value sid)) with
     | Raise e => Raise e
     | Ok (VDict _) => Ok (VDict [("scan_uuid", sid); ("status", VStr "FAILED")])
     | Ok _ => Raise AttributeError
     end,
     after_fetch w (fetch_request w (str_value sid))).
Proof.
  intros Hq Hd Hj Hsid Hst Hf.
  rewrite (handle_webhook_parsed payload text fields sid status w
             Hq Hd Hj Hsid Hst).
  assert (Hc : eq_str status "COMPLETED" = false).
  { destruct status; try discriminate. simpl in Hf.
    apply String.eqb_eq in Hf. subst. reflexivity. }
  unfold branch_on_status. rewrite Hc, Hf.
  rewrite (bind_print _ _ _ (Hq _)). cbv beta.
  unfold bind at 1. rewrite get_scan_answered.
  destruct (answered w (sent_count w) (fetch_request w (str_value sid)))
    as [details|e]; [|reflexivity].
  destruct details; try reflexivity.
  unfold bind, lift, get, get_default, subscript, ret, py_print.
  destruct (dict_get fields0 "state") as [state|]; [|reflexivity].
  destruct (truthy state); [|reflexivity].
  now rewrite Hq.
Qed.

Lemma webhook_failed_fetches_the_scan_witness :
  @handle_webhook_notification delivery_runtime (dumps payload_failed)
    (always_answers (mkResponse 404 "gone" None))
  = (Raise (HTTPStatusError 404 "gone"),
     after_fetch (always_answers (mkResponse 404 "gone" None))
       (fetch_request (always_answers (mkResponse 404 "gone" None)) "scan-1")).
Proof.
  apply (@webhook_failed_fetches_the_scan delivery_runtime
           (dumps payload_failed) (dumps payload_failed)
           [("scan_id", VStr "scan-1"); ("status", VStr "FAILED")]
           (VStr "scan-1") (VStr "FAILED")
           (always_answers (mkResponse 404 "gone" None))
           (fun text => eq_refl));
    reflexivity.
Defined.

(** The receiver on a COMPLETED notification that names a report. *)
Lemma handle_webhook_completed_eq
    {rt : Runtime} payload text fields sid status info u w :
  stdout_takes_all ->
  decode_utf8 payload = Some text ->
  json_loads text = Some (VDict fields) ->
  dict_get fields "scan_id" = Some sid ->
  dict_get fields "status" = Some status ->
  eq_str status "COMPLETED" = true ->
  dict_get fields "report" = Some (VDict info) ->
  dict_get info "uuid" = Some u ->
  truthy u = true ->
  handle_webhook_notification payload w
  = (report <- Reports.get_report (str_value u) ;;
     uuid <- lift (subscript report "uuid") ;;
     py_print ("✅ Retrieved complete report: " ++ str_value uuid) ;;
     version <- lift (subscript report "version") ;;
     py_print ("   Report version: " ++ str_value version) ;;
     study <- lift (subscript report "study") ;;
     name <- lift (subscript study "name") ;;
     py_print ("   Study: " ++ str_value name) ;;
     print_count (VDict info) "measurements" "\n📏 Measurements" ;;
     print_count (VDict info) "pathologies" "🔬 Pathologies" ;;
     print_count (VDict info) "conclusions" "📋 Conclusions" ;;
     display_report_details report ;;
     ret (VDict [("scan_uuid", sid); ("report_uuid", u);
                 ("status", VStr "SUCCESS")]))%py w.
Proof.
  intros Hq Hd Hj Hsid Hst Hc Hinfo Hu Ht.
  rewrite (handle_webhook_parsed payload text fields sid status w
             Hq Hd Hj Hsid Hst).
  unfold branch_on_status. rewrite Hc.
  unfold bind at 1, lift at 1, get_default. rewrite Hinfo.
  unfold bind at 1, lift at 1, get, get_default. rewrite Hu.
  cbv beta iota.
  rewrite (bind_print _ _ _ (Hq _)). cbv beta. rewrite Ht.
  rewrite (bind_print _ _ _ (Hq _)). reflexivity.
Qed.

(** X16.  On a standard output that takes every text: for a COMPLETED
    notification that names a report the receiver sends one token GET for
    that report.  A failed fetch is not dropped:
    its exception comes out of the receiver.  A report that was fetched
    but lacks "uuid", "version" or "study" ends the receiver with the
    [KeyError] of the first one missing. *)
Theorem webhook_completed_fetches_the_report
    {rt : Runtime} (payload text : string) (fields info : list (string * value))
    (sid status u : value) (w : World) :
  stdout_takes_all ->
  decode_utf8 payload = Some text ->
  json_loads text = Some (VDict fields) ->
  dict_get fields "scan_id" = Some sid ->
  dict_get fields "status" = Some status ->
  eq_str status "COMPLETED" = true ->
  dict_get fields "report" = Some (VDict info) ->
  dict_get info "uuid" = Some u ->
  truthy u = true ->
  let req := report_request w (str_value u) in
  let out := handle_webhook_notification payload w in
  snd out = after_fetch w req
  /\ (forall e, answered w (sent_count w) req = Raise e -> fst out = Raise e)
  /\ (forall report,
        answered w (sent_count w) req = Ok (VDict report) ->
        (dict_get report "uuid" = None -> fst out = Raise (KeyError "uuid"))
        /\ (dict_get report "uuid" <> None ->
            dict_get report "version" = None ->
            fst out = Raise (KeyError "version"))
        /\ (dict_get report "uuid" <> None ->
            dict_get report "version" <> None ->
            dict_get report "study" = None ->
            fst out = Raise (KeyError "study"))).
Proof.
  intros Hq Hd Hj Hsid Hst Hc Hinfo Hu Ht req out. unfold out.
  rewrite (handle_webhook_completed_eq payload text fields sid status info u w
             Hq Hd Hj Hsid Hst Hc Hinfo Hu Ht).
  match goal with
  | |- context [bind (Reports.get_report (str_value u)) ?k] =>
      assert (Hk : forall v, effect_free (k v))
        by (intros v; cbv beta; effect_free_steps;
            first [apply print_count_effect_free
                  | apply display_report_details_effect_free]);
      destruct (fetch_then_effect_free (Reports.get_report (str_value u)) k
                  req w (get_report_eq (str_value u) w) Hk)
        as (Hw & Herr & Hok)
  end.
  split; [exact Hw|]. split; [exact Herr|].
  intros report Ha.
  rewrite (Hok (VDict report) w Ha).
  split; [|split].
  - intros E. unfold bind at 1, lift at 1, subscript at 1. now rewrite E.
  - intros E1 E2. unfold bind at 1, lift at 1, subscript at 1.
    destruct (dict_get report "uuid"); [|contradiction].
    cbv beta iota. rewrite (bind_print _ _ _ (Hq _)). cbv beta.
    unfold bind at 1, lift at 1, subscript at 1. now rewrite E2.
  - intros E1 E2 E3. unfold bind at 1, lift at 1, subscript at 1.
    destruct (dict_get report "uuid"); [|contradiction].
    cbv beta iota. rewrite (bind_print _ _ _ (Hq _)). cbv beta.
    unfold bind at 1, lift at 1, subscript at 1.
    destruct (dict_get report "version"); [|contradiction].
    cbv beta iota. rewrite (bind_print _ _ _ (Hq _)). cbv beta.
    unfold bind at 1, lift at 1, subscript at 1. now rewrite E3.
Qed.

Lemma webhook_completed_fetches_the_report_witness :
  fst (@handle_webhook_notification delivery_runtime
         (dumps payload_completed_with_report)
         (always_answers (mkResponse 500 "down" None)))
  = Raise (HTTPStatusError 500 "down").
Proof.
  destruct (@webhook_completed_fetches_the_report delivery_runtime
              (dumps payload_completed_with_report)
              (dumps payload_completed_with_report)
              [("scan_id", VStr "scan-1"); ("status", VStr "COMPLETED");
               ("report", VDict [("uuid", VStr "report-9");
                                 ("measurements", VList [VStr "LVEF"])])]
              [("uuid", VStr "report-9"); ("measurements", VList [VStr "LVEF"])]
              (VStr "scan-1") (VStr "COMPLETED") (VStr "report-9")
              (always_answers (mkResponse 500 "down" None))
              (fun text => eq_refl)
              eq_refl eq_refl eq_refl eq_refl eq_refl eq_refl eq_refl eq_refl)
    as (_ & Herr & _).
  apply Herr. reflexivity.
Defined.

Lemma print_count_ok {rt : Runtime} (info : list (string * value))
    (key label : string) (w : World) :
  stdout_takes_all ->
  absent_or_list (dict_get info key) ->
  print_count (VDict info) key label w = (Ok tt, w).
Proof.
  intros Hq.
  unfold print_count, bind, lift, get, get_default, subscript, absent_or_list,
    py_print.
  destruct (dict_get info key) as [v|]; [|reflexivity].
  destruct v; try contradiction. intros _.
  destruct items; [reflexivity|]. cbn. now rewrite Hq.
Qed.

(** X17.  On a standard output that takes every text: for a COMPLETED
    notification that names a report, when the
    report fetched has "uuid", "version" and a "study" with a "name", the
    summary lists of the payload are arrays (or absent) and
    [display_report_details] gets through the report, the receiver returns
    [{scan_uuid, report_uuid, status: SUCCESS}] with the scan id and the
    report id of the payload. *)
Theorem webhook_completed_returns_success
    {rt : Runtime} (payload text : string)
    (fields info report study : list (string * value))
    (sid status u ru rv name : value) (w : World) :
  stdout_takes_all ->
  decode_utf8 payload = Some text ->
  json_loads text = Some (VDict fields) ->
  dict_get fields "scan_id" = Some sid ->
  dict_get fields "status" = Some status ->
  eq_str status "COMPLETED" = true ->
  dict_get fields "report" = Some (VDict info) ->
  dict_get info "uuid" = Some u ->
  truthy u = true ->
  absent_or_list (dict_get info "measurements") ->
  absent_or_list (dict_get info "pathologies") ->
  absent_or_list (dict_get info "conclusions") ->
  answered w (sent_count w) (report_request w (str_value u)) = Ok (VDict report) ->
  dict_get report "uuid" = Some ru ->
  dict_get report "version" = Some rv ->
  dict_get report "study" = Some (VDict study) ->
  dict_get study "name" = Some name ->
  fst (display_report_details (VDict report) w) = Ok tt ->
  handle_webhook_notification payload w
  = (Ok (VDict [("scan_uuid", sid); ("report_uuid", u);
                ("status", VStr "SUCCESS")]),
     after_fetch w (report_request w (str_value u))).
Proof.
  intros Hq Hd Hj Hsid Hst Hc Hinfo Hu Ht Hm Hp Hcs Ha Hru Hrv Hstudy Hname
    Hdisp.
  rewrite (handle_webhook_completed_eq payload text fields sid status info u w
             Hq Hd Hj Hsid Hst Hc Hinfo Hu Ht).
  unfold bind at 1. rewrite get_report_eq, Ha.
  set (w1 := after_fetch w (report_request w (str_value u))).
  unfold bind at 1, lift at 1, subscript at 1. rewrite Hru.
  rewrite (bind_print _ _ _ (Hq _)). cbv beta.
  unfold bind at 1, lift at 1, subscript at 1. rewrite Hrv.
  rewrite (bind_print _ _ _ (Hq _)). cbv beta.
  unfold bind at 1, lift at 1, subscript at 1. rewrite Hstudy.
  unfold bind at 1, lift at 1, subscript at 1. rewrite Hname.
  rewrite (bind_print _ _ _ (Hq _)). cbv beta.
  unfold bind at 1. rewrite (print_count_ok info "measurements" _ w1 Hq Hm).
  unfold bind at 1. rewrite (print_count_ok info "pathologies" _ w1 Hq Hp).
  unfold bind at 1. rewrite (print_count_ok info "conclusions" _ w1 Hq Hcs).
  unfold bind at 1.
  destruct (display_report_details_effect_free (VDict report)) as [r Hr].
  rewrite Hr in Hdisp. simpl in Hdisp. subst r. rewrite Hr. reflexivity.
Qed.

Lemma webhook_completed_returns_success_witness :
  fst (@handle_webhook_notification delivery_runtime
         (dumps payload_completed_with_report)
         (always_answers (mkResponse 200 "" (Some sample_report))))
  = Ok (VDict [("scan_uuid", VStr "scan-1"); ("report_uuid", VStr "report-9");
               ("status", VStr "SUCCESS")]).
Proof.
  rewrite (@webhook_completed_returns_success delivery_runtime
             (dumps payload_completed_with_report)
             (dumps payload_completed_with_report)
             [("scan_id", VStr "scan-1"); ("status", VStr "COMPLETED");
              ("report", VDict [("uuid", VStr "report-9");
                                ("measurements", VList [VStr "LVEF"])])]
             [("uuid", VStr "report-9"); ("measurements", VList [VStr "LVEF"])]
             [("uuid", VStr "report-9"); ("version", VStr "2.1");
              ("study", VDict [("name", VStr "Jane Smith")])]
             [("name", VStr "Jane Smith")]
             (VStr "scan-1") (VStr "COMPLETED") (VStr "report-9")
             (VStr "report-9") (VStr "2.1") (VStr "Jane Smith")
             (always_answers (mkResponse 200 "" (Some sample_report)))
             (fun text => eq_refl));
    try reflexivity; exact I.
Defined.

(** X18.  [display_report_details] sends nothing and changes nothing,
    whatever the report.  On a report object none of whose four sections
    (conclusions, enumerated_conclusions, diameter_measurements,
    segmentation_measurements) is truthy it returns without an error, the
    empty report included; on a report that is not an object it raises
    [AttributeError] at the first [report.get]. *)
Theorem display_report_details_on_bare_report {rt : Runtime} :
  (forall report w, snd (display_report_details report w) = w)
  /\ (forall fields w,
        absent_or_falsy (dict_get fields "conclusions") = true ->
        absent_or_falsy (dict_get fields "enumerated_conclusions") = true ->
        absent_or_falsy (dict_get fields "diameter_measurements") = true ->
        absent_or_falsy (dict_get fields "segmentation_measurements") = true ->
        display_report_details (VDict fields) w = (Ok tt, w))
  /\ (forall report w,
        (forall fields, report <> VDict fields) ->
        display_report_details report w = (Raise AttributeError, w)).
Proof.
  split; [|split].
  - intros report w. apply effect_free_world,
      display_report_details_effect_free.
  - intros fields w H1 H2 H3 H4.
    unfold absent_or_falsy in *.
    unfold display_report_details, bind, lift, get, get_default, ret.
    destruct (dict_get fields "conclusions") as [c|];
      [apply negb_true_iff in H1; rewrite H1|];
    (destruct (dict_get fields "enumerated_conclusions") as [ec|];
      [apply negb_true_iff in H2; rewrite H2|]);
    (destruct (dict_get fields "diameter_measurements") as [dm|];
      [apply negb_true_iff in H3; rewrite H3|]);
    (destruct (dict_get fields "segmentation_measurements") as [sm|];
      [apply negb_true_iff in H4; rewrite H4|]);
    reflexivity.
  - intros report w Hnot.
    unfold display_report_details, bind, lift, get, get_default.
    destruct report; try reflexivity. now destruct (Hnot fields).
Qed.

Lemma display_report_details_on_bare_report_witness :
  @display_report_details sample_runtime (VDict []) pending_forever
  = (Ok tt, pending_forever)
  /\ @display_report_details sample_runtime VNone pending_forever
     = (Raise AttributeError, pending_forever).
Proof.
  destruct (@display_report_details_on_bare_report sample_runtime)
    as (_ & Hbare & Hnot).
  split.
  - apply Hbare; reflexivity.
  - apply Hnot. intros fields; discriminate.
Defined.

(** ** setup_webhook *)








(** X21.  The default [{}] of [payload.get('report', {})] only covers a
    missing key.  On a standard output that takes every text: for a
    COMPLETED notification whose "report" is present
    but is not an object ([null], say) the receiver raises
    [AttributeError]; for one whose report has a "uuid" that is falsy
    ([null], the empty string, 0) it returns NO_REPORT.  Neither sends a
    request. *)
Theorem webhook_completed_with_unusable_report
    {rt : Runtime} (payload text : string) (fields : list (string * value))
    (sid status : value) (w : World) :
  stdout_takes_all ->
  decode_utf8 payload = Some text ->
  json_loads text = Some (VDict fields) ->
  dict_get fields "scan_id" = Some sid ->
  dict_get fields "status" = Some status ->
  eq_str status "COMPLETED" = true ->
  (forall r, dict_get fields "report" = Some r ->
     (forall info, r <> VDict info) ->
     handle_webhook_notification payload w = (Raise AttributeError, w))
  /\ (forall info u,
        dict_get fields "report" = Some (VDict info) ->
        dict_get info "uuid" = Some u ->
        truthy u = false ->
        handle_webhook_notification payload w
        = (Ok (VDict [("scan_uuid", sid); ("status", VStr "NO_REPORT")]), w)).
Proof.
  intros Hq Hd Hj Hsid Hst Hc.
  split.
  - intros r Hr Hnot.
    rewrite (handle_webhook_parsed payload text fields sid status w
               Hq Hd Hj Hsid Hst).
    unfold branch_on_status. rewrite Hc.
    unfold bind at 1, lift at 1, get_default at 1. rewrite Hr.
    unfold bind at 1, lift at 1, get at 1, get_default at 1.
    destruct r; try reflexivity. now destruct (Hnot fields0).
  - intros info u Hr Hu Ht.
    rewrite (handle_webhook_parsed payload text fields sid status w
               Hq Hd Hj Hsid Hst).
    unfold branch_on_status. rewrite Hc.
    unfold bind at 1, lift at 1, get_default at 1. rewrite Hr.
    unfold bind at 1, lift at 1, get at 1, get_default at 1. rewrite Hu.
    rewrite (bind_print _ _ _ (Hq _)). cbv beta. rewrite Ht.
    rewrite (bind_print _ _ _ (Hq _)). reflexivity.
Qed.

Lemma webhook_completed_with_unusable_report_witness :
  @handle_webhook_notification sample_runtime
    (dumps payload_completed_null_report) pending_forever
  = (Raise AttributeError, pending_forever).
Proof.
  destruct (@webhook_completed_with_unusable_report sample_runtime
              (dumps payload_completed_null_report)
              (dumps payload_completed_null_report)
              [("scan_id", VStr "scan-1"); ("status", VStr "COMPLETED");
               ("report", VNone)]
              (VStr "scan-1") (VStr "COMPLETED") pending_forever
              (fun text => eq_refl)
              eq_refl eq_refl eq_refl eq_refl eq_refl) as (Hnull & _).
  apply (Hnull VNone); [reflexivity | intros info; discriminate].
Defined.
